(** * Planner / actor core of computer_use_ootb: history shaping, dispatch,
      response formatting and the actor's action history.

    Sources embedded here:
    - [src/computer_use_demo/gui_agent/planner/api_vlm_planner.py]
      ([APIVLMPlanner], [_maybe_filter_to_n_most_recent_images],
      [_message_filter_callback]);
    - [src/computer_use_demo/gui_agent/actor/showui_actor_api.py]
      ([ShowUIActorAPI]).

    Python objects are modelled as values of [pyval]; a function that
    mutates its argument in place returns the argument as the call leaves
    it.  The log is taken to be a tree: no dict or list object is reachable
    along two paths.  Exceptions are values of [exn] carried by [result]. *)

From Stdlib Require Import List String Ascii ZArith QArith Bool Lia.
From Stdlib Require Import DecimalString.
Import ListNotations.
Set Warnings "-register-all".
Open Scope string_scope.
Open Scope Z_scope.
Open Scope list_scope.

(** ** Exceptions and results

    [NotModelled] is not a Python exception: it marks an input that leaves
    the fragment of [json], [str()] and [int()] modelled here (floats,
    unicode escapes, non-ASCII text inside [repr] or handed to [int]). *)

Inductive exn : Type :=
| AttributeError
| KeyError
| IndexError
| TypeError
| ZeroDivisionError
| ValueError (msg : string)
| ParseError
| TransportError (msg : string)
| NotModelled.

Inductive result (A : Type) : Type :=
| Ok (a : A)
| Raise (e : exn).
Arguments Ok {A} a.
Arguments Raise {A} e.

Definition bind {A B : Type} (r : result A) (k : A -> result B) : result B :=
  match r with
  | Ok a => k a
  | Raise e => Raise e
  end.

Notation "x <- e ;; k" := (bind e (fun x => k))
  (at level 61, e at next level, right associativity).

(** ** Python values

    The values a message log is made of: JSON-shaped data (the
    [BetaMessageParam] dictionaries) and the SDK's [TextBlock] objects. *)

Inductive pyval : Type :=
| PNone
| PBool (b : bool)
| PInt (z : Z)
| PStr (s : string)
| PTextBlock (text : string)
| PList (items : list pyval)
| PDict (entries : list (string * pyval)).

(** A dict keeps its keys in insertion order; keys are strings. *)
Definition dict : Type := list (string * pyval).

Fixpoint dict_get (d : dict) (k : string) : option pyval :=
  match d with
  | [] => None
  | (k', v) :: rest => if String.eqb k' k then Some v else dict_get rest k
  end.

(** [d[k] = v]: an existing key keeps its position, a new one goes last. *)
Fixpoint dict_set (d : dict) (k : string) (v : pyval) : dict :=
  match d with
  | [] => [(k, v)]
  | (k', v') :: rest =>
      if String.eqb k' k then (k', v) :: rest else (k', v') :: dict_set rest k v
  end.

(** [x.get(k)], which is [None] for a missing key. *)
Definition py_get (d : dict) (k : string) : pyval :=
  match dict_get d k with
  | Some v => v
  | None => PNone
  end.

(** [x.get(k, default)]. *)
Definition py_get_default (d : dict) (k : string) (default : pyval) : pyval :=
  match dict_get d k with
  | Some v => v
  | None => default
  end.

(** [v == s] for a string literal [s]. *)
Definition py_eq_str (v : pyval) (s : string) : bool :=
  match v with
  | PStr t => String.eqb t s
  | _ => false
  end.

(** [isinstance(v, list)] *)
Definition is_list (v : pyval) : bool :=
  match v with
  | PList _ => true
  | _ => false
  end.

(** Iterating a value with [for]: a list yields its items, a str its
    characters, a dict its keys; a [TextBlock] (a pydantic model) yields
    its (field, value) pairs, written here as two-item lists since the
    callers only ask whether a yielded item is a dict; [None], bools and
    ints are not iterable. *)
Definition py_iter (v : pyval) : result (list pyval) :=
  match v with
  | PList items => Ok items
  | PStr s =>
      Ok (map (fun c => PStr (String c EmptyString)) (list_ascii_of_string s))
  | PDict d => Ok (map (fun kv => PStr (fst kv)) d)
  | PTextBlock text =>
      Ok [PList [PStr "citations"; PNone];
          PList [PStr "text"; PStr text];
          PList [PStr "type"; PStr "text"]]
  | PNone | PBool _ | PInt _ => Raise TypeError
  end.

(** ** [_message_filter_callback] *)

(** What the filter prints on standard output. *)
Inductive log_line : Type :=
| LogDrop (msg : pyval)
| LogError (e : exn).

(** One iteration of the [for msg in messages] loop (lines 276-303):
    the text appended to [filtered_list], if any, the message as the
    iteration leaves it, and what it printed; or the exception it raises.
    Every raising path raises before the message is touched. *)
Definition filter_body (msg : pyval)
  : result (option pyval * pyval * list log_line) :=
  match msg with
  | PDict d =>
      if py_eq_str (py_get d "role") "user" then
        match dict_get d "content" with
        | None => Raise KeyError
        | Some c =>
            let d1 := if is_list c then d else dict_set d "content" (PList [c]) in
            match (if is_list c then c else PList [c]) with
            | PList (PTextBlock text :: _) => Ok (Some (PStr text), PDict d1, [])
            | PList (PStr s :: _) => Ok (Some (PStr s), PDict d1, [])
            | PList (_ :: _) => Ok (None, PDict d1, [LogDrop (PDict d1)])
            | _ => Raise IndexError
            end
        end
      else Ok (None, msg, [LogDrop msg])
  | _ => Raise AttributeError
  end.

Record filter_state : Type := mkFilterState {
  filtered_list : list pyval;
  messages_after : list pyval;
  printed : list log_line
}.

(** The loop inside [try] (lines 274-303) with the handler of line 305:
    an exception leaves the loop, is printed, and the function returns
    what [filtered_list] holds at that point. *)
Fixpoint filter_loop (messages : list pyval) (filtered : list pyval)
    (out : list log_line) : filter_state :=
  match messages with
  | [] => mkFilterState filtered [] out
  | msg :: rest =>
      match filter_body msg with
      | Raise e => mkFilterState filtered (msg :: rest) (out ++ [LogError e])
      | Ok (appended, msg', lines) =>
          let filtered' :=
            match appended with
            | Some text => filtered ++ [text]
            | None => filtered
            end in
          let st := filter_loop rest filtered' (out ++ lines) in
          mkFilterState (filtered_list st) (msg' :: messages_after st) (printed st)
      end
  end.

Definition _message_filter_callback (messages : list pyval) : filter_state :=
  filter_loop messages [] [].

(** ** [_maybe_filter_to_n_most_recent_images] *)

(** [message["content"]] *)
Definition message_content (message : pyval) : result pyval :=
  match message with
  | PDict d =>
      match dict_get d "content" with
      | Some c => Ok c
      | None => Raise KeyError
      end
  | _ => Raise TypeError
  end.

(** [isinstance(item, dict) and item.get("type") == "tool_result"] *)
Definition is_tool_result (item : pyval) : bool :=
  match item with
  | PDict d => py_eq_str (py_get d "type") "tool_result"
  | _ => false
  end.

(** [isinstance(content, dict) and content.get("type") == "image"] *)
Definition is_image (content : pyval) : bool :=
  match content with
  | PDict d => py_eq_str (py_get d "type") "image"
  | _ => false
  end.

(** The items of a message's content that the comprehension of lines
    239-246 visits. *)
Definition content_items (c : pyval) : list pyval :=
  match c with
  | PList items => items
  | _ => []
  end.

(** Lines 237-247. *)
Fixpoint tool_result_blocks (messages : list pyval) : result (list pyval) :=
  match messages with
  | [] => Ok []
  | message :: rest =>
      c <- message_content message ;;
      blocks <- tool_result_blocks rest ;;
      Ok (filter is_tool_result (content_items c) ++ blocks)
  end.

(** [tool_result.get("content", [])] *)
Definition tool_result_content (tool_result : pyval) : pyval :=
  match tool_result with
  | PDict d => py_get_default d "content" (PList [])
  | _ => PList []
  end.

(** Lines 249-254. *)
Fixpoint total_images (blocks : list pyval) : result Z :=
  match blocks with
  | [] => Ok 0
  | tool_result :: rest =>
      contents <- py_iter (tool_result_content tool_result) ;;
      n <- total_images rest ;;
      Ok (Z.of_nat (List.length (filter is_image contents)) + n)
  end.

(** Lines 262-268: the new content of one tool result and the count that
    is left to remove. *)
Fixpoint drop_images (contents : list pyval) (images_to_remove : Z)
  : list pyval * Z :=
  match contents with
  | [] => ([], images_to_remove)
  | content :: rest =>
      if is_image content && (0 <? images_to_remove) then
        drop_images rest (images_to_remove - 1)
      else
        let (new_content, left) := drop_images rest images_to_remove in
        (content :: new_content, left)
  end.

(** Lines 261-269 for one tool result. *)
Definition prune_tool_result (tool_result : pyval) (images_to_remove : Z)
  : pyval * Z :=
  match tool_result with
  | PDict d =>
      match dict_get d "content" with
      | Some (PList contents) =>
          let (new_content, left) := drop_images contents images_to_remove in
          (PDict (dict_set d "content" (PList new_content)), left)
      | _ => (tool_result, images_to_remove)
      end
  | _ => (tool_result, images_to_remove)
  end.

(** Lines 260-269 as written: the loop over [tool_result_blocks], with
    the count left to remove carried from one tool result to the next. *)
Fixpoint prune_blocks (blocks : list pyval) (images_to_remove : Z)
  : list pyval * Z :=
  match blocks with
  | [] => ([], images_to_remove)
  | tool_result :: rest =>
      let (tool_result', left) := prune_tool_result tool_result images_to_remove in
      let (rest', left') := prune_blocks rest left in
      (tool_result' :: rest', left')
  end.

(** The dicts of [tool_result_blocks] are the ones that sit in [messages],
    so the loop changes [messages]: below, the same updates made where the
    tool results sit, in the same order ([prune_messages_blocks] relates
    the two).  The tool results among the items of one message: *)
Fixpoint prune_items (items : list pyval) (images_to_remove : Z)
  : list pyval * Z :=
  match items with
  | [] => ([], images_to_remove)
  | item :: rest =>
      let (item', left) :=
        if is_tool_result item then prune_tool_result item images_to_remove
        else (item, images_to_remove) in
      let (rest', left') := prune_items rest left in
      (item' :: rest', left')
  end.

Definition prune_message (message : pyval) (images_to_remove : Z) : pyval * Z :=
  match message with
  | PDict d =>
      match dict_get d "content" with
      | Some (PList items) =>
          let (items', left) := prune_items items images_to_remove in
          (PDict (dict_set d "content" (PList items')), left)
      | _ => (message, images_to_remove)
      end
  | _ => (message, images_to_remove)
  end.

(** [messages] after the loop of line 260. *)
Fixpoint prune_messages (messages : list pyval) (images_to_remove : Z)
  : list pyval * Z :=
  match messages with
  | [] => ([], images_to_remove)
  | message :: rest =>
      let (message', left) := prune_message message images_to_remove in
      let (rest', left') := prune_messages rest left in
      (message' :: rest', left')
  end.

(** The whole function; the result is [messages] as the call leaves it.
    [images_to_keep = None] is Python's [None]. *)
Definition _maybe_filter_to_n_most_recent_images (messages : list pyval)
    (images_to_keep : option Z) (min_removal_threshold : Z)
  : result (list pyval) :=
  match images_to_keep with
  | None => Ok messages
  | Some keep =>
      blocks <- tool_result_blocks messages ;;
      total <- total_images blocks ;;
      let images_to_remove := total - keep in
      if min_removal_threshold =? 0 then Raise ZeroDivisionError
      else
        let images_to_remove :=
          images_to_remove - images_to_remove mod min_removal_threshold in
        Ok (fst (prune_messages messages images_to_remove))
  end.

Definition default_min_removal_threshold : Z := 10.

(** ** Text helpers *)

Definition ascii_code (c : ascii) : Z := Z.of_nat (nat_of_ascii c).

Definition quote_char : ascii := "034"%char.
Definition backslash_char : ascii := "092"%char.
Definition newline : string := String "010"%char EmptyString.
Definition dquote : string := String quote_char EmptyString.

Definition is_digit (c : ascii) : bool :=
  (48 <=? ascii_code c) && (ascii_code c <=? 57).

Definition digit_value (c : ascii) : Z := ascii_code c - 48.

Fixpoint digits_value (ds : list ascii) (acc : Z) : Z :=
  match ds with
  | [] => acc
  | d :: rest => digits_value rest (acc * 10 + digit_value d)
  end.

(** [s.split(sep)] for a one-character separator. *)
Fixpoint split (sep : ascii) (s : string) : list string :=
  match s with
  | EmptyString => [EmptyString]
  | String c rest =>
      if Ascii.eqb c sep then EmptyString :: split sep rest
      else
        match split sep rest with
        | [] => [String c EmptyString]
        | w :: ws => String c w :: ws
        end
  end.

(** The characters [int()] strips from both ends of an ASCII string: tab,
    line feed, vertical tab, form feed, carriage return and the space.  The
    separators 28 to 31, which [str.strip] removes, are not among them. *)
Definition is_space (c : ascii) : bool :=
  ((9 <=? ascii_code c) && (ascii_code c <=? 13)) || (ascii_code c =? 32).

Definition is_ascii (c : ascii) : bool := ascii_code c <? 128.

Definition ascii_text (s : string) : bool :=
  forallb is_ascii (list_ascii_of_string s).

Fixpoint lstrip (s : list ascii) : list ascii :=
  match s with
  | c :: rest => if is_space c then lstrip rest else s
  | [] => []
  end.

Definition strip (s : list ascii) : list ascii :=
  rev (lstrip (rev (lstrip s))).

(** Digits with single underscores between them; [prev_digit] tells
    whether the character before was a digit. *)
Fixpoint int_digits (s : list ascii) (prev_digit : bool) : option (list ascii) :=
  match s with
  | [] => if prev_digit then Some [] else None
  | c :: rest =>
      if is_digit c then
        match int_digits rest true with
        | Some ds => Some (c :: ds)
        | None => None
        end
      else if Ascii.eqb c "_"%char then
        if prev_digit then int_digits rest false else None
      else None
  end.

(** The default of [sys.get_int_max_str_digits()]. *)
Definition int_max_str_digits : nat := 4300.

Definition int_error : exn := ValueError "invalid literal for int() with base 10".

(** [int(s)] for an ASCII string [s].  Outside ASCII [int()] also reads
    other decimal digits and strips other blanks; those strings are left
    out of the model. *)
Definition py_int (s : string) : result Z :=
  if ascii_text s then
    let body := strip (list_ascii_of_string s) in
    let (negative, unsigned) :=
      match body with
      | c :: rest =>
          if Ascii.eqb c "-"%char then (true, rest)
          else if Ascii.eqb c "+"%char then (false, rest)
          else (false, body)
      | [] => (false, body)
      end in
    match int_digits unsigned false with
    | Some ds =>
        if (int_max_str_digits <? List.length ds)%nat then Raise int_error
        else Ok (if negative then - digits_value ds 0 else digits_value ds 0)
    | None => Raise int_error
    end
  else Raise NotModelled.

Definition Z_to_string (z : Z) : string := NilZero.string_of_int (Z.to_int z).

Fixpoint join (sep : string) (parts : list string) : string :=
  match parts with
  | [] => EmptyString
  | [p] => p
  | p :: rest => (p ++ sep ++ join sep rest)%string
  end.

Definition hex_digit (n : Z) : ascii :=
  ascii_of_nat (Z.to_nat (if n <? 10 then 48 + n else 87 + n)).

(** One character inside [repr] of a str delimited by [q]. *)
Definition repr_char (q : ascii) (c : ascii) : string :=
  if Ascii.eqb c q || Ascii.eqb c backslash_char then
    String backslash_char (String c EmptyString)
  else if ascii_code c =? 9 then String backslash_char "t"
  else if ascii_code c =? 10 then String backslash_char "n"
  else if ascii_code c =? 13 then String backslash_char "r"
  else if (ascii_code c <? 32) || (ascii_code c =? 127) then
    String backslash_char
      (String "x"%char
         (String (hex_digit (ascii_code c / 16))
            (String (hex_digit (ascii_code c mod 16)) EmptyString)))
  else String c EmptyString.

Definition has_char (c : ascii) (s : string) : bool :=
  existsb (Ascii.eqb c) (list_ascii_of_string s).

(** ** [repr] and [str] of the values [json.loads] returns *)

Definition py_repr_str (s : string) : result string :=
  let cs := list_ascii_of_string s in
  if forallb (fun c => ascii_code c <? 128) cs then
    let q :=
      if has_char "'"%char s && negb (has_char quote_char s) then quote_char
      else "'"%char in
    Ok (String q (String.concat EmptyString (map (repr_char q) cs)
                  ++ String q EmptyString))%string
  else Raise NotModelled.

Fixpoint py_repr (v : pyval) : result string :=
  match v with
  | PNone => Ok "None"
  | PBool true => Ok "True"
  | PBool false => Ok "False"
  | PInt z => Ok (Z_to_string z)
  | PStr s => py_repr_str s
  | PTextBlock _ => Raise NotModelled
  | PList items =>
      parts <-
        (fix each (l : list pyval) : result (list string) :=
           match l with
           | [] => Ok []
           | x :: rest =>
               a <- py_repr x ;; b <- each rest ;; Ok (a :: b)
           end) items ;;
      Ok ("[" ++ join ", " parts ++ "]")%string
  | PDict d =>
      parts <-
        (fix each (l : list (string * pyval)) : result (list string) :=
           match l with
           | [] => Ok []
           | (k, x) :: rest =>
               kr <- py_repr_str k ;;
               a <- py_repr x ;;
               b <- each rest ;;
               Ok ((kr ++ ": " ++ a)%string :: b)
           end) d ;;
      Ok ("{" ++ join ", " parts ++ "}")%string
  end.

(** What an f-string writes for [{value}]. *)
Definition py_str (v : pyval) : result string :=
  match v with
  | PStr s => Ok s
  | _ => py_repr v
  end.

(** ** [json.loads] on the fragment without floats and unicode escapes *)

Definition is_json_ws (c : ascii) : bool :=
  (ascii_code c =? 32) || (ascii_code c =? 9)
  || (ascii_code c =? 10) || (ascii_code c =? 13).

Fixpoint skip_ws (s : list ascii) : list ascii :=
  match s with
  | c :: rest => if is_json_ws c then skip_ws rest else s
  | [] => []
  end.

Fixpoint starts_with (p s : list ascii) : bool :=
  match p, s with
  | [], _ => true
  | a :: p', b :: s' => Ascii.eqb a b && starts_with p' s'
  | _ :: _, [] => false
  end.

(** The character a one-letter escape stands for. *)
Definition json_escape (e : ascii) : option ascii :=
  if Ascii.eqb e quote_char then Some quote_char
  else if Ascii.eqb e backslash_char then Some backslash_char
  else if Ascii.eqb e "/"%char then Some "/"%char
  else if Ascii.eqb e "b"%char then Some "008"%char
  else if Ascii.eqb e "f"%char then Some "012"%char
  else if Ascii.eqb e "n"%char then Some "010"%char
  else if Ascii.eqb e "r"%char then Some "013"%char
  else if Ascii.eqb e "t"%char then Some "009"%char
  else None.

(** A string literal, read from just after its opening quote. *)
Fixpoint json_string (s : list ascii) : result (string * list ascii) :=
  match s with
  | [] => Raise ParseError
  | c :: rest =>
      if Ascii.eqb c quote_char then Ok (EmptyString, rest)
      else if Ascii.eqb c backslash_char then
        match rest with
        | [] => Raise ParseError
        | e :: rest' =>
            match json_escape e with
            | Some ch =>
                bind (json_string rest')
                  (fun '(body, after) => Ok (String ch body, after))
            | None =>
                if Ascii.eqb e "u"%char then Raise NotModelled
                else Raise ParseError
            end
        end
      else if ascii_code c <? 32 then Raise ParseError
      else
        bind (json_string rest)
          (fun '(body, after) => Ok (String c body, after))
  end.

Fixpoint take_digits (s : list ascii) : list ascii * list ascii :=
  match s with
  | c :: rest =>
      if is_digit c then
        let (ds, after) := take_digits rest in (c :: ds, after)
      else ([], s)
  | [] => ([], [])
  end.

(** A fraction or an exponent follows: the number is a float. *)
Definition float_follows (s : list ascii) : bool :=
  match s with
  | c :: d :: rest =>
      if Ascii.eqb c "."%char then is_digit d
      else if Ascii.eqb c "e"%char || Ascii.eqb c "E"%char then
        is_digit d
        || ((Ascii.eqb d "+"%char || Ascii.eqb d "-"%char)
            && match rest with
               | d' :: _ => is_digit d'
               | [] => false
               end)
      else false
  | _ => false
  end.

Definition json_number (s : list ascii) : result (pyval * list ascii) :=
  let (negative, unsigned) :=
    match s with
    | c :: rest => if Ascii.eqb c "-"%char then (true, rest) else (false, s)
    | [] => (false, s)
    end in
  match unsigned with
  | c :: rest =>
      if is_digit c then
        let (ds, after) :=
          if Ascii.eqb c "0"%char then ([c], rest) else take_digits unsigned in
        if float_follows after then Raise NotModelled
        else if (int_max_str_digits <? List.length ds)%nat then Raise NotModelled
        else
          Ok (PInt (if negative then - digits_value ds 0 else digits_value ds 0),
              after)
      else if starts_with (list_ascii_of_string "Infinity") unsigned then
        Raise NotModelled
      else Raise ParseError
  | [] => Raise ParseError
  end.

(** One value at the head of [s].  Every call that spends fuel has read at
    least one character before, so the callers give [S (length s)]; running
    out counts as leaving the modelled fragment. *)
Fixpoint json_value (fuel : nat) (s : list ascii) : result (pyval * list ascii) :=
  match fuel with
  | O => Raise NotModelled
  | S fuel' =>
      match s with
      | [] => Raise ParseError
      | c :: rest =>
          if Ascii.eqb c "{"%char then
            match skip_ws rest with
            | c' :: rest' =>
                if Ascii.eqb c' "}"%char then Ok (PDict [], rest')
                else json_members fuel' (c' :: rest') []
            | [] => Raise ParseError
            end
          else if Ascii.eqb c "["%char then
            match skip_ws rest with
            | c' :: rest' =>
                if Ascii.eqb c' "]"%char then Ok (PList [], rest')
                else json_elements fuel' (c' :: rest') []
            | [] => Raise ParseError
            end
          else if Ascii.eqb c quote_char then
            bind (json_string rest) (fun '(str, after) => Ok (PStr str, after))
          else if starts_with (list_ascii_of_string "null") s then
            Ok (PNone, skipn 4 s)
          else if starts_with (list_ascii_of_string "true") s then
            Ok (PBool true, skipn 4 s)
          else if starts_with (list_ascii_of_string "false") s then
            Ok (PBool false, skipn 5 s)
          else if starts_with (list_ascii_of_string "NaN") s then
            Raise NotModelled
          else json_number s
      end
  end
with json_members (fuel : nat) (s : list ascii) (acc : dict)
  : result (pyval * list ascii) :=
  match fuel with
  | O => Raise NotModelled
  | S fuel' =>
      match s with
      | c :: rest =>
          if Ascii.eqb c quote_char then
            bind (json_string rest) (fun '(key, r1) =>
            match skip_ws r1 with
            | c1 :: r2 =>
                if Ascii.eqb c1 ":"%char then
                  bind (json_value fuel' (skip_ws r2)) (fun '(v, r3) =>
                  match skip_ws r3 with
                  | c2 :: r4 =>
                      if Ascii.eqb c2 ","%char then
                        json_members fuel' (skip_ws r4) (dict_set acc key v)
                      else if Ascii.eqb c2 "}"%char then
                        Ok (PDict (dict_set acc key v), r4)
                      else Raise ParseError
                  | [] => Raise ParseError
                  end)
                else Raise ParseError
            | [] => Raise ParseError
            end)
          else Raise ParseError
      | [] => Raise ParseError
      end
  end
with json_elements (fuel : nat) (s : list ascii) (acc : list pyval)
  : result (pyval * list ascii) :=
  match fuel with
  | O => Raise NotModelled
  | S fuel' =>
      bind (json_value fuel' s) (fun '(v, r1) =>
      match skip_ws r1 with
      | c :: r2 =>
          if Ascii.eqb c ","%char then
            json_elements fuel' (skip_ws r2) (acc ++ [v])
          else if Ascii.eqb c "]"%char then Ok (PList (acc ++ [v]), r2)
          else Raise ParseError
      | [] => Raise ParseError
      end)
  end.

Definition json_loads (s : string) : result pyval :=
  let text := skip_ws (list_ascii_of_string s) in
  bind (json_value (S (List.length text)) text) (fun '(v, after) =>
  match skip_ws after with
  | [] => Ok v
  | _ :: _ => Raise ParseError
  end).

(** The first position of [s] at which a well-formed JSON object starts,
    and the text of that object. *)
Fixpoint first_json_object (s : list ascii) : result (list ascii) :=
  match s with
  | [] => Raise ParseError
  | c :: rest =>
      if Ascii.eqb c "{"%char then
        match json_value (S (List.length s)) s with
        | Ok (_, after) => Ok (firstn (List.length s - List.length after) s)
        | Raise NotModelled => Raise NotModelled
        | Raise _ => first_json_object rest
        end
      else first_json_object rest
  end.

(** Modelled from the spec: [extract_data] lives in
    [computer_use_demo/gui_agent/llm_utils/llm_utils.py], which is not among
    the sources.  The spec (4.3, step 6): it extracts the first well-formed
    JSON object from the raw response text, tolerates surrounding prose and
    code fences, and fails with a parse error if no JSON object is found. *)
Definition extract_data (input_string data_type : string) : result string :=
  bind (first_json_object (list_ascii_of_string input_string))
    (fun object => Ok (string_of_list_ascii object)).

(** ** The planner, [APIVLMPlanner] *)

(** Modelled from the spec: the enum [APIProvider] is declared in
    [computer_use_demo/loop.py], which is not among the sources; its members
    are the ones [app.py] and the planner name. *)
Inductive APIProvider : Type :=
| ANTHROPIC
| BEDROCK
| VERTEX
| OPENAI
| QWEN
| SSH
| OPENROUTER
| LMSTUDIO.

(** A call to one of the three adapters of [llm_utils], with the keyword
    arguments the planner passes. *)
Inductive backend_call : Type :=
| run_oai_interleaved (messages : list pyval) (system llm api_key : string)
    (max_tokens temperature : Z) (base_url : option string)
| run_qwen (messages : list pyval) (system llm api_key : string)
    (max_tokens temperature : Z)
| run_ssh_llm_interleaved (messages : list pyval) (system llm : string)
    (ssh_host : string) (ssh_port : Z) (max_tokens : Z).

Inductive event : Type :=
| Printed (line : log_line)
| Screenshot (selected_screen : Z)
| OutputCallback (text : string)
| BackendCall (call : backend_call).

Definition is_backend_call (ev : event) : bool :=
  match ev with
  | BackendCall _ => true
  | _ => false
  end.

Module APIVLMPlanner.

(** The collaborators of one call: the screenshot service, the image
    encoder, the label [colorful_text_vlm], the instruction text of
    [_get_system_prompt] and the adapters, which answer with the raw text
    and the token count or raise. *)
Record Env : Type := mkEnv {
  get_screenshot : Z -> string;
  encode_image : string -> string;
  colorful_text_vlm : string;
  _get_system_prompt : string;
  backend : backend_call -> result (string * Z)
}.

(** The attributes of an instance.  [total_cost] is a Python float; exact
    rationals stand for it here. *)
Record t : Type := mk {
  model : string;
  provider : APIProvider;
  system_prompt : string;
  api_key : string;
  max_tokens : Z;
  only_n_most_recent_images : option Z;
  selected_screen : Z;
  print_usage : bool;
  base_url : option string;
  total_token_usage : Z;
  total_cost : Q
}.

(** Lines 35-48. *)
Definition model_id (model : string) : result string :=
  if String.eqb model "gpt-4o" then Ok "gpt-4o-2024-11-20"
  else if String.eqb model "gpt-4o-mini" then Ok "gpt-4o-mini"
  else if String.eqb model "qwen2-vl-max" then Ok "qwen2-vl-max"
  else if String.eqb model "qwen2-vl-2b (ssh)" then Ok "Qwen2-VL-2B-Instruct"
  else if String.eqb model "qwen2-vl-7b (ssh)" then Ok "Qwen2-VL-7B-Instruct"
  else if String.eqb model "qwen2.5-vl-7b (ssh)" then Ok "Qwen2.5-VL-7B-Instruct"
  else Raise (ValueError ("Model " ++ model ++ " not supported")).

Definition __init__ (E : Env) (model : string) (provider : APIProvider)
    (system_prompt_suffix api_key : string) (max_tokens : Z)
    (only_n_most_recent_images : option Z) (selected_screen : Z)
    (print_usage : bool) (base_url : option string) : result t :=
  bind (model_id model) (fun id =>
  Ok (mk id provider (_get_system_prompt E ++ system_prompt_suffix) api_key
        max_tokens only_n_most_recent_images selected_screen print_usage
        base_url 0 0%Q)).

Definition add_usage (self : t) (token_usage : Z) : t :=
  mk (model self) (provider self) (system_prompt self) (api_key self)
     (max_tokens self) (only_n_most_recent_images self) (selected_screen self)
     (print_usage self) (base_url self)
     (total_token_usage self + token_usage) (total_cost self).

Definition add_cost (self : t) (cost : Q) : t :=
  mk (model self) (provider self) (system_prompt self) (api_key self)
     (max_tokens self) (only_n_most_recent_images self) (selected_screen self)
     (print_usage self) (base_url self)
     (total_token_usage self) (total_cost self + cost)%Q.

(** The instance and what the call has done so far; an exception leaves
    both as they stand. *)
Record world : Type := mkWorld {
  w_self : t;
  w_trace : list event
}.

Definition M (A : Type) : Type := world -> result A * world.

Definition ret {A : Type} (a : A) : M A := fun w => (Ok a, w).

Definition raise {A : Type} (e : exn) : M A := fun w => (Raise e, w).

Definition lift {A : Type} (r : result A) : M A := fun w => (r, w).

Definition mbind {A B : Type} (m : M A) (k : A -> M B) : M B :=
  fun w =>
    match m w with
    | (Ok a, w') => k a w'
    | (Raise e, w') => (Raise e, w')
    end.

Definition emit (ev : event) : M unit :=
  fun w => (Ok tt, mkWorld (w_self w) (w_trace w ++ [ev])).

Definition get_self : M t := fun w => (Ok (w_self w), w).

Definition update_self (f : t -> t) : M unit :=
  fun w => (Ok tt, mkWorld (f (w_self w)) (w_trace w)).

Notation "x <~ m ;; k" := (mbind m (fun x => k))
  (at level 61, m at next level, right associativity).
Notation "m ;;; k" := (mbind m (fun _ => k))
  (at level 61, right associativity).

(** The adapter is called, which is recorded, and answers or raises. *)
Definition call_backend (E : Env) (call : backend_call) : M (string * Z) :=
  emit (BackendCall call) ;;;
  lift (backend E call).

(** [if self.only_n_most_recent_images:] *)
Definition truthy (n : option Z) : bool :=
  match n with
  | Some z => negb (z =? 0)
  | None => false
  end.

(** Lines 73-74, on the list the filter returned. *)
Definition shape_history (only_n : option Z) (planner_messages : list pyval)
  : result (list pyval) :=
  if truthy only_n then
    _maybe_filter_to_n_most_recent_images planner_messages only_n
      default_min_removal_threshold
  else Ok planner_messages.

Definition ssh_error : exn :=
  ValueError "Invalid SSH connection string. Expected format: host:port".

(** Lines 133-137: the unpacking of [split] and [int] raise [ValueError],
    which the handler replaces. *)
Definition parse_ssh (api_key : string) : result (string * Z) :=
  match split ":"%char api_key with
  | [ssh_host; ssh_port] =>
      match py_int ssh_port with
      | Ok port => Ok (ssh_host, port)
      | Raise (ValueError _) => Raise ssh_error
      | Raise e => Raise e
      end
  | _ => Raise ssh_error
  end.

Definition openai_cost (token_usage : Z) : Q :=
  (inject_Z token_usage * (15 # 100) / inject_Z 1000000)%Q.

Definition qwen_cost (token_usage : Z) : Q :=
  (inject_Z token_usage * (2 # 100) / (725 # 100) / inject_Z 1000)%Q.

Definition unsupported (self : t) : exn :=
  ValueError ("Model " ++ model self ++ " not supported").

(** Lines 100-148: the raw response of the selected adapter. *)
Definition dispatch (E : Env) (planner_messages : list pyval) : M string :=
  self <~ get_self ;;
  match provider self with
  | OPENAI | OPENROUTER =>
      r <~ call_backend E
             (run_oai_interleaved planner_messages (system_prompt self)
                (model self) (api_key self) (max_tokens self) 0
                (base_url self)) ;;
      let (vlm_response, token_usage) := r in
      update_self (fun s => add_usage s token_usage) ;;;
      match provider self with
      | OPENAI => update_self (fun s => add_cost s (openai_cost token_usage))
      | _ => ret tt
      end ;;;
      ret vlm_response
  | QWEN =>
      if String.eqb (model self) "qwen2-vl-max" then
        r <~ call_backend E
               (run_qwen planner_messages (system_prompt self) (model self)
                  (api_key self) (max_tokens self) 0) ;;
        let (vlm_response, token_usage) := r in
        update_self (fun s => add_usage s token_usage) ;;;
        update_self (fun s => add_cost s (qwen_cost token_usage)) ;;;
        ret vlm_response
      else raise (unsupported self)
  | SSH =>
      hp <~ lift (parse_ssh (api_key self)) ;;
      let (ssh_host, ssh_port) := hp in
      r <~ call_backend E
             (run_ssh_llm_interleaved planner_messages (system_prompt self)
                (model self) ssh_host ssh_port (max_tokens self)) ;;
      let (vlm_response, token_usage) := r in
      ret vlm_response
  | _ => raise (unsupported self)
  end.

(** Lines 158-163. *)
Fixpoint plan_str (items : dict) (vlm_plan_str : string) : result string :=
  match items with
  | [] => Ok vlm_plan_str
  | (key, value) :: rest =>
      bind (py_str value) (fun text =>
      if String.eqb key "Thinking" then
        plan_str rest (vlm_plan_str ++ text)
      else
        plan_str rest (vlm_plan_str ++ newline ++ key ++ ": " ++ text))
  end.

(** [json.loads(...).items()], which only a dict has. *)
Definition loaded_items (text : string) : result dict :=
  bind (json_loads text) (fun v =>
  match v with
  | PDict d => Ok d
  | _ => Raise AttributeError
  end).

(** Lines 155-167. *)
Definition respond (E : Env) (vlm_response : string) : M string :=
  vlm_response_json <~ lift (extract_data vlm_response "json") ;;
  items <~ lift (loaded_items vlm_response_json) ;;
  vlm_plan_str <~ lift (plan_str items EmptyString) ;;
  emit (OutputCallback (colorful_text_vlm E ++ ":" ++ newline ++ vlm_plan_str)) ;;;
  ret vlm_response_json.

(** Lines 73-167, after the filter. *)
Definition decide (E : Env) (filtered : list pyval) : M string :=
  self <~ get_self ;;
  planner_messages <~
    lift (shape_history (only_n_most_recent_images self) filtered) ;;
  let screenshot_path := get_screenshot E (selected_screen self) in
  emit (Screenshot (selected_screen self)) ;;;
  let image_base64 := encode_image E screenshot_path in
  emit (OutputCallback
          ("Screenshot for " ++ colorful_text_vlm E ++ ":" ++ newline
           ++ "<img src=" ++ dquote ++ "data:image/png;base64,"
           ++ image_base64 ++ dquote ++ ">")) ;;;
  let planner_messages := planner_messages ++ [PStr screenshot_path] in
  vlm_response <~ dispatch E planner_messages ;;
  respond E vlm_response.

(** What a call leaves behind: the value returned or the exception, the
    instance, the caller's [messages] and what was done, in order. *)
Record outcome : Type := mkOutcome {
  returned : result string;
  self_after : t;
  log_after : list pyval;
  trace : list event
}.

(** [APIVLMPlanner.__call__] (lines 67-167).  The diagnostic prints of the
    method itself are not recorded. *)
Definition __call__ (E : Env) (self : t) (messages : list pyval) : outcome :=
  let st := _message_filter_callback messages in
  let (r, w) :=
    decide E (filtered_list st) (mkWorld self (map Printed (printed st))) in
  mkOutcome r (w_self w) (messages_after st) (w_trace w).

End APIVLMPlanner.

(** ** The actor, [ShowUIActorAPI] *)

Module ShowUIActorAPI.

(** The arguments of [client.chat.completions.create]. *)
Record chat_request : Type := mkRequest {
  req_model : string;
  req_messages : list pyval;
  req_max_tokens : Z;
  req_temperature : Z
}.

Inductive actor_event : Type :=
| Observed (text : string)
| LoggerInfo (text : string)
| ChatCompletion (request : chat_request).

(** Fixed collaborators: the label [colorful_text_showui] and the logger's
    [truncate_string]. *)
Record Env : Type := mkEnv {
  colorful_text_showui : string;
  truncate_string : string -> string
}.

(** What the collaborators answer during one call: the screenshot path,
    its encoding, and the API's answer, given as the [message.content] of
    each of [response.choices], or the exception the client raises. *)
Record reply : Type := mkReply {
  screenshot_path : string;
  image_base64 : string;
  choices : result (list (option string))
}.

(** The attributes of an instance; [has_output_callback] is the truth
    value of [self.output_callback]. *)
Record t : Type := mk {
  base_url : string;
  model_name : string;
  selected_screen : Z;
  has_output_callback : bool;
  split : string;
  system_prompt : string;
  action_history : string
}.

Definition _NAV_FORMAT : string :=
  newline
  ++ "    Format the action as a dictionary with the following keys:" ++ newline
  ++ "    {'action': 'ACTION_TYPE', 'value': 'element', 'position': [x,y]}" ++ newline
  ++ newline
  ++ "    If value or position is not applicable, set it as None." ++ newline
  ++ "    Position might be [[x1,y1], [x2,y2]] if the action requires a start and end position." ++ newline
  ++ "    Position represents the relative coordinates on the screenshot and should be scaled to a range of 0-1." ++ newline
  ++ "    ".

Definition set_history (self : t) (history : string) : t :=
  mk (base_url self) (model_name self) (selected_screen self)
     (has_output_callback self) (split self) (system_prompt self) history.

(** Lines 78-81. *)
Definition current_prompt (self : t) (task : string) : string :=
  ("Task: " ++ task)
  ++ (if String.eqb (action_history self) EmptyString then EmptyString
      else newline ++ newline ++ "Previous Actions:" ++ newline
           ++ action_history self)
  ++ newline ++ newline
  ++ "Given the screenshot and the task, provide the next action based on the defined action space and format.".

(** Lines 73-97. *)
Definition api_request (self : t) (r : reply) (task : string) : chat_request :=
  let user_content :=
    [PDict [("type", PStr "image_url");
            ("image_url",
             PDict [("url", PStr ("data:image/png;base64," ++ image_base64 r))])];
     PDict [("type", PStr "text"); ("text", PStr (current_prompt self task))]] in
  let api_messages :=
    [PDict [("role", PStr "system");
            ("content", PStr (system_prompt self ++ newline ++ _NAV_FORMAT))];
     PDict [("role", PStr "user"); ("content", PList user_content)]] in
  mkRequest (model_name self) api_messages 128 0.

Record outcome : Type := mkOutcome {
  returned : result pyval;
  self_after : t;
  trace : list actor_event
}.

(** [ShowUIActorAPI.__call__] (lines 57-112). *)
Definition __call__ (E : Env) (self : t) (r : reply) (task : string) : outcome :=
  let shown :=
    if has_output_callback self then
      [Observed ("Screenshot for API-based " ++ colorful_text_showui E ++ " ("
                 ++ model_name self ++ "):" ++ newline
                 ++ "<img src=" ++ dquote ++ "data:image/png;base64,"
                 ++ image_base64 r ++ dquote ++ ">")]
    else [] in
  let sent :=
    shown
    ++ [LoggerInfo ("Sending messages to ShowUI API model " ++ model_name self
                    ++ " on " ++ base_url self ++ ": Task: " ++ task);
        ChatCompletion (api_request self r task)] in
  match choices r with
  | Raise e => mkOutcome (Raise e) self sent
  | Ok [] => mkOutcome (Raise IndexError) self sent
  | Ok (None :: _) => mkOutcome (Raise TypeError) self sent
  | Ok (Some output_text :: _) =>
      mkOutcome
        (Ok (PDict [("content", PStr output_text); ("role", PStr "assistant")]))
        (set_history self (action_history self ++ output_text ++ newline))
        (sent
         ++ [LoggerInfo ("Received action from " ++ model_name self ++ ": "
                         ++ truncate_string E output_text)])
  end.

(** A session: the calls made on one instance, each with its task and
    the collaborators' answers; the orchestrator goes on after a call that
    raised. *)
Fixpoint session (E : Env) (self : t) (calls : list (string * reply)) : t :=
  match calls with
  | [] => self
  | (task, r) :: rest => session E (self_after (__call__ E self r task)) rest
  end.

(** The raw output of a call that returns. *)
Definition raw_output (r : reply) : option string :=
  match choices r with
  | Ok (Some output_text :: _) => Some output_text
  | _ => None
  end.

Fixpoint raw_outputs (calls : list (string * reply)) : list string :=
  match calls with
  | [] => []
  | (_, r) :: rest =>
      match raw_output r with
      | Some output_text => output_text :: raw_outputs rest
      | None => raw_outputs rest
      end
  end.

(** The lines a list of outputs makes, each ended by a newline. *)
Fixpoint history_of (outputs : list string) : string :=
  match outputs with
  | [] => EmptyString
  | output_text :: rest => output_text ++ newline ++ history_of rest
  end.

End ShowUIActorAPI.

(** ** What the properties below measure *)

(** Lines 237-254 together: the count the pruning starts from. *)
Definition count_images (messages : list pyval) : result Z :=
  blocks <- tool_result_blocks messages ;;
  total_images blocks.

(** The number of images the pruning is said to remove, in the words of
    the specification. *)
Definition removal_count (N images_to_keep min_removal_threshold : Z) : Z :=
  if N >? images_to_keep then
    (N - images_to_keep) / min_removal_threshold * min_removal_threshold
  else 0.

(** The image items of one tool result, of the tool results of one
    message, and of a log, in traversal order. *)
Definition tool_result_images (tool_result : pyval) : list pyval :=
  match tool_result with
  | PDict d =>
      match dict_get d "content" with
      | Some (PList contents) => filter is_image contents
      | _ => []
      end
  | _ => []
  end.

Definition items_images (items : list pyval) : list pyval :=
  flat_map tool_result_images (filter is_tool_result items).

Definition message_images (message : pyval) : list pyval :=
  match message with
  | PDict d =>
      match dict_get d "content" with
      | Some (PList items) => items_images items
      | _ => []
      end
  | _ => []
  end.

Definition images_of (messages : list pyval) : list pyval :=
  flat_map message_images messages.

(** A log with the image items of its tool results taken out: what is
    left is every other content item, every other key and every other
    message, where they were. *)
Definition not_image (content : pyval) : bool := negb (is_image content).

Definition tool_result_without_images (tool_result : pyval) : pyval :=
  match tool_result with
  | PDict d =>
      match dict_get d "content" with
      | Some (PList contents) =>
          PDict (dict_set d "content" (PList (filter not_image contents)))
      | _ => tool_result
      end
  | _ => tool_result
  end.

Definition item_without_images (item : pyval) : pyval :=
  if is_tool_result item then tool_result_without_images item else item.

Definition message_without_images (message : pyval) : pyval :=
  match message with
  | PDict d =>
      match dict_get d "content" with
      | Some (PList items) =>
          PDict (dict_set d "content" (PList (map item_without_images items)))
      | _ => message
      end
  | _ => message
  end.

Definition without_images (messages : list pyval) : list pyval :=
  map message_without_images messages.

(** The number of image dicts anywhere inside a value. *)
Fixpoint image_total (v : pyval) : nat :=
  match v with
  | PList items =>
      (fix sum (l : list pyval) : nat :=
         match l with
         | [] => O
         | x :: rest => (image_total x + sum rest)%nat
         end) items
  | PDict d =>
      ((if is_image v then 1 else 0)
       + (fix sum (l : list (string * pyval)) : nat :=
            match l with
            | [] => O
            | (_, x) :: rest => (image_total x + sum rest)%nat
            end) d)%nat
  | _ => O
  end.

Definition log_images (messages : list pyval) : nat :=
  list_sum (map image_total messages).

(** The only change the filter makes to a message: the content of a user
    message that is not a list is put into a one-item list. *)
Definition normalised (message message' : pyval) : Prop :=
  message' = message
  \/ exists d c,
       message = PDict d
       /\ py_eq_str (py_get d "role") "user" = true
       /\ dict_get d "content" = Some c
       /\ is_list c = false
       /\ message' = PDict (dict_set d "content" (PList [c])).

(** The text the filter takes from a message that it processes without
    an error. *)
Definition user_text (msg : pyval) : list pyval :=
  match filter_body msg with
  | Ok (Some text, _, _) => [text]
  | _ => []
  end.

(** The list a filter that skipped only the failing messages would
    return, in the words of the specification. *)
Definition soft_skip_texts (messages : list pyval) : list pyval :=
  flat_map user_text messages.

Definition raises (msg : pyval) : bool :=
  match filter_body msg with
  | Raise _ => true
  | Ok _ => false
  end.

(** The logs on which the counting of lines 237-254 does not raise: every
    message is a dict with a content, and the content of every tool result
    can be iterated. *)
Definition iterable (v : pyval) : bool :=
  match py_iter v with
  | Ok _ => true
  | Raise _ => false
  end.

Definition blocks_ok (blocks : list pyval) : bool :=
  forallb (fun tool_result => iterable (tool_result_content tool_result)) blocks.

Definition message_ok (message : pyval) : bool :=
  match message_content message with
  | Ok c => blocks_ok (filter is_tool_result (content_items c))
  | Raise _ => false
  end.

Definition countable (messages : list pyval) : bool :=
  forallb message_ok messages.

(** The tool results of one message, as the comprehension of lines
    239-246 collects them. *)
Definition message_blocks (message : pyval) : list pyval :=
  match message_content message with
  | Ok c => filter is_tool_result (content_items c)
  | Raise _ => []
  end.

Definition values_total (d : dict) : nat :=
  list_sum (map (fun kv => image_total (snd kv)) d).

Definition is_str (v : pyval) : bool :=
  match v with
  | PStr _ => true
  | _ => false
  end.

(** ** Concrete data *)

Definition user_message (content : pyval) : pyval :=
  PDict [("role", PStr "user"); ("content", content)].

Definition image_item (data : string) : pyval :=
  PDict [("type", PStr "image"); ("source", PStr data)].

Definition text_item (text : string) : pyval :=
  PDict [("type", PStr "text"); ("text", PStr text)].

Definition tool_result_block (contents : list pyval) : pyval :=
  PDict [("type", PStr "tool_result"); ("tool_use_id", PStr "t1");
         ("content", PList contents)].

(** Twelve screenshots and a text item in two tool results. *)
Definition sample_log : list pyval :=
  [user_message
     (PList [tool_result_block
               [image_item "s01"; text_item "clicked"; image_item "s02";
                image_item "s03"; image_item "s04"; image_item "s05";
                image_item "s06"]]);
   PDict [("role", PStr "assistant"); ("content", PStr "ok")];
   user_message
     (PList [tool_result_block
               [image_item "s07"; image_item "s08"; image_item "s09";
                image_item "s10"; image_item "s11"; image_item "s12"]])].

(** The response of the specification's example: prose, a code fence,
    the object, the closing fence. *)
Definition example_json : string :=
  "{" ++ dquote ++ "Thinking" ++ dquote ++ ": " ++ dquote ++ "t" ++ dquote
  ++ ", " ++ dquote ++ "Next Action" ++ dquote ++ ": " ++ dquote
  ++ "CLICK 'ok'" ++ dquote ++ "}".

Definition example_response : string :=
  "Sure! ```json" ++ newline ++ example_json ++ newline ++ "```".

Definition sample_env (answer : result (string * Z)) : APIVLMPlanner.Env :=
  APIVLMPlanner.mkEnv (fun _ => "/tmp/screenshot.png") (fun _ => "aW1n")
    "VLMPlanner" "You are using a Linux device." (fun _ => answer).

Definition sample_planner (provider : APIProvider) (model api_key : string)
    (only_n : option Z) : APIVLMPlanner.t :=
  APIVLMPlanner.mk model provider "You are using a Linux device." api_key 4096
    only_n 0 true None 0 0%Q.

Definition sample_actor : ShowUIActorAPI.t :=
  ShowUIActorAPI.mk "http://localhost:8000/v1" "showui-2b" 0 true "desktop"
    "You are an assistant trained to navigate the desktop screen."
    EmptyString.

Definition sample_actor_env : ShowUIActorAPI.Env :=
  ShowUIActorAPI.mkEnv "ShowUI" (fun s => s).

Definition sample_reply (output_text : string) : ShowUIActorAPI.reply :=
  ShowUIActorAPI.mkReply "/tmp/screenshot.png" "aW1n" (Ok [Some output_text]).

(** A user message with no content item, on which the filter raises, and
    a plain user text. *)
Definition empty_user_message : pyval := user_message (PList []).

Definition hello_message : pyval := user_message (PStr "hello").

(** The events of lines 77-81, the list of line 93 and the adapter calls
    of lines 102 and 139. *)
Definition screenshot_events (E : APIVLMPlanner.Env) (self : APIVLMPlanner.t)
  : list event :=
  [Screenshot (APIVLMPlanner.selected_screen self);
   OutputCallback
     ("Screenshot for " ++ APIVLMPlanner.colorful_text_vlm E ++ ":"
      ++ newline ++ "<img src=" ++ dquote ++ "data:image/png;base64,"
      ++ APIVLMPlanner.encode_image E
           (APIVLMPlanner.get_screenshot E (APIVLMPlanner.selected_screen self))
      ++ dquote ++ ">")].

Definition with_screenshot (E : APIVLMPlanner.Env) (self : APIVLMPlanner.t)
    (planner_messages : list pyval) : list pyval :=
  planner_messages
  ++ [PStr (APIVLMPlanner.get_screenshot E (APIVLMPlanner.selected_screen self))].

Definition ssh_call (self : APIVLMPlanner.t) (planner_messages : list pyval)
    (ssh_host : string) (ssh_port : Z) : backend_call :=
  run_ssh_llm_interleaved planner_messages (APIVLMPlanner.system_prompt self)
    (APIVLMPlanner.model self) ssh_host ssh_port (APIVLMPlanner.max_tokens self).

Definition oai_call (self : APIVLMPlanner.t) (planner_messages : list pyval)
  : backend_call :=
  run_oai_interleaved planner_messages (APIVLMPlanner.system_prompt self)
    (APIVLMPlanner.model self) (APIVLMPlanner.api_key self)
    (APIVLMPlanner.max_tokens self) 0 (APIVLMPlanner.base_url self).

(** The members of the decoded object with their values as the f-strings
    of lines 161 and 163 write them, in the order of the object. *)
Fixpoint item_texts (items : dict) : result (list (string * string)) :=
  match items with
  | [] => Ok []
  | (key, value) :: rest =>
      text <- py_str value ;;
      more <- item_texts rest ;;
      Ok ((key, text) :: more)
  end.

(** What one member adds to the summary: the value of Thinking bare, any
    other member as a new line [key: value]. *)
Definition summary_line (member : string * string) : string :=
  if String.eqb (fst member) "Thinking" then snd member
  else newline ++ fst member ++ ": " ++ snd member.

Fixpoint summary (members : list (string * string)) : string :=
  match members with
  | [] => EmptyString
  | member :: rest => summary_line member ++ summary rest
  end.

(** [text] is a JSON object from its opening brace to its closing one,
    and [items] are its members as [json.loads] returns them. *)
Definition is_json_object (text : string) (items : dict) : Prop :=
  let s := list_ascii_of_string text in
  json_value (S (List.length s)) s = Ok (PDict items, []).

(** No well-formed JSON object starts at a brace of [before], a text that
    is followed by [rest]. *)
Fixpoint no_object_starts (before rest : list ascii) : bool :=
  match before with
  | [] => true
  | c :: before' =>
      (if Ascii.eqb c "{"%char then
         match json_value (S (List.length (before ++ rest))) (before ++ rest) with
         | Raise ParseError => true
         | _ => false
         end
       else true)
      && no_object_starts before' rest
  end.

(** The text holds no JSON object. *)
Definition no_json_object (text : string) : bool :=
  no_object_starts (list_ascii_of_string text) [].

(** What may follow a number inside an array or an object: a blank, a
    comma or a closing bracket. *)
Definition delimited (rest : list ascii) : bool :=
  match rest with
  | c :: _ =>
      is_json_ws c || Ascii.eqb c ","%char || Ascii.eqb c "}"%char
      || Ascii.eqb c "]"%char
  | [] => false
  end.

(** The calls of a session all return. *)
Definition all_return (calls : list (string * ShowUIActorAPI.reply)) : bool :=
  forallb (fun c => match ShowUIActorAPI.raw_output (snd c) with
                    | Some _ => true
                    | None => false
                    end) calls.

(** The lines of a text, counted by their newline characters. *)
Definition line_count (s : string) : nat :=
  List.length (List.filter (Ascii.eqb "010"%char) (list_ascii_of_string s)).

(** A session of three calls of which only the first returns: on the
    second the client raises, on the third the content is [None]. *)
Definition broken_session : list (string * ShowUIActorAPI.reply) :=
  [("CLICK 'ok'", sample_reply "{'action': 'CLICK'}");
   ("ENTER",
    ShowUIActorAPI.mkReply "/tmp/screenshot.png" "aW1n"
      (Raise (TransportError "Connection error.")));
   ("ENTER",
    ShowUIActorAPI.mkReply "/tmp/screenshot.png" "aW1n" (Ok [None]))].

(** Lines 100-148 in two steps: the adapter call they make for an
    instance, or the exception they raise without calling; and what the
    branch that made the call does to the instance with the token count
    the adapter returned. *)
Definition adapter_call (self : APIVLMPlanner.t) (planner_messages : list pyval)
  : result backend_call :=
  match APIVLMPlanner.provider self with
  | OPENAI | OPENROUTER => Ok (oai_call self planner_messages)
  | QWEN =>
      if String.eqb (APIVLMPlanner.model self) "qwen2-vl-max" then
        Ok (run_qwen planner_messages (APIVLMPlanner.system_prompt self)
              (APIVLMPlanner.model self) (APIVLMPlanner.api_key self)
              (APIVLMPlanner.max_tokens self) 0)
      else Raise (APIVLMPlanner.unsupported self)
  | SSH =>
      hp <- APIVLMPlanner.parse_ssh (APIVLMPlanner.api_key self) ;;
      Ok (ssh_call self planner_messages (fst hp) (snd hp))
  | _ => Raise (APIVLMPlanner.unsupported self)
  end.

Definition account (self : APIVLMPlanner.t) (token_usage : Z) : APIVLMPlanner.t :=
  match APIVLMPlanner.provider self with
  | OPENAI =>
      APIVLMPlanner.add_cost (APIVLMPlanner.add_usage self token_usage)
        (APIVLMPlanner.openai_cost token_usage)
  | OPENROUTER => APIVLMPlanner.add_usage self token_usage
  | QWEN =>
      APIVLMPlanner.add_cost (APIVLMPlanner.add_usage self token_usage)
        (APIVLMPlanner.qwen_cost token_usage)
  | _ => self
  end.

(** The attributes a call never assigns. *)
Definition same_config (a b : APIVLMPlanner.t) : Prop :=
  APIVLMPlanner.model a = APIVLMPlanner.model b
  /\ APIVLMPlanner.provider a = APIVLMPlanner.provider b
  /\ APIVLMPlanner.system_prompt a = APIVLMPlanner.system_prompt b
  /\ APIVLMPlanner.api_key a = APIVLMPlanner.api_key b
  /\ APIVLMPlanner.max_tokens a = APIVLMPlanner.max_tokens b
  /\ APIVLMPlanner.only_n_most_recent_images a
     = APIVLMPlanner.only_n_most_recent_images b
  /\ APIVLMPlanner.selected_screen a = APIVLMPlanner.selected_screen b
  /\ APIVLMPlanner.print_usage a = APIVLMPlanner.print_usage b
  /\ APIVLMPlanner.base_url a = APIVLMPlanner.base_url b.

Definition is_output (ev : event) : bool :=
  match ev with
  | OutputCallback _ => true
  | _ => false
  end.

(** The image items that sit in the content of a message itself, not
    inside a tool result. *)
Definition message_direct_images (message : pyval) : list pyval :=
  match message with
  | PDict d =>
      match dict_get d "content" with
      | Some (PList items) => filter is_image items
      | _ => []
      end
  | _ => []
  end.

Definition direct_images (messages : list pyval) : list pyval :=
  flat_map message_direct_images messages.

(** A log with two screenshots in the content of a message and twelve in
    tool results. *)
Definition mixed_log : list pyval :=
  user_message (PList [image_item "d01"; text_item "see"; image_item "d02"])
  :: sample_log.

(** ** The log the UI builds ([app.py])

    [process_input] (lines 217-222) appends to [state["messages"]] a user
    message whose content is a list of one [TextBlock] holding the text
    typed; whatever else the log holds was put there by the sampling
    loop. *)
Inductive turn : Type :=
| UserInput (user_input : string)
| OtherMessage (d : dict).

Definition turn_message (t : turn) : pyval :=
  match t with
  | UserInput user_input =>
      PDict [("role", PStr "user"); ("content", PList [PTextBlock user_input])]
  | OtherMessage d => PDict d
  end.

(** The messages of the loop carry a role other than user. *)
Definition other_role (t : turn) : bool :=
  match t with
  | UserInput _ => true
  | OtherMessage d => negb (py_eq_str (py_get d "role") "user")
  end.

Definition user_inputs (turns : list turn) : list pyval :=
  flat_map (fun t => match t with
                     | UserInput user_input => [PStr user_input]
                     | OtherMessage _ => []
                     end) turns.

Definition dropped_lines (turns : list turn) : list log_line :=
  flat_map (fun t => match t with
                     | UserInput _ => []
                     | OtherMessage d => [LogDrop (PDict d)]
                     end) turns.

(** ** The UI state ([app.py]) *)

(** The truth value of a Python value. *)
Definition py_truthy (v : pyval) : bool :=
  match v with
  | PNone => false
  | PBool b => b
  | PInt z => negb (z =? 0)
  | PStr s => negb (String.eqb s EmptyString)
  | PTextBlock _ => true
  | PList items => match items with [] => false | _ :: _ => true end
  | PDict d => match d with [] => false | _ :: _ => true end
  end.

(** [key in state] *)
Definition has (state : dict) (key : string) : bool :=
  match dict_get state key with
  | Some _ => true
  | None => false
  end.

(** [state[key]] *)
Definition item (state : dict) (key : string) : result pyval :=
  match dict_get state key with
  | Some v => Ok v
  | None => Raise KeyError
  end.

(** [if key not in state: state[key] = value] *)
Definition default (key : string) (value : pyval) (state : dict) : dict :=
  if has state key then state else dict_set state key value.

Module App.

(** What the module reads from outside: the environment variables, the
    name [platform.system()] gives, and the globals [SCREEN_NAMES] and
    [SELECTED_SCREEN_INDEX] of line 36. *)
Record Env : Type := mkEnv {
  environ : string -> option string;
  platform_system : string;
  SCREEN_NAMES : list string;
  SELECTED_SCREEN_INDEX : Z
}.

(** [os.getenv(name, default)] *)
Definition getenv (E : Env) (name default : string) : string :=
  match environ E name with
  | Some value => value
  | None => default
  end.

(** The two logger calls of lines 86-89. *)
Inductive log_record : Type :=
| LoadedKey (provider key : pyval)
| KeyNotFound.

(** Lines 45-69. *)
Definition setup_models (E : Env) (state : dict) : dict :=
  let state := default "messages" (PList []) state in
  let state := default "planner_model" (PStr "gpt-4o") state in
  let state := default "actor_model" (PStr "ShowUI") state in
  let state := default "planner_provider" (PStr "openai") state in
  let state := default "actor_provider" (PStr "local") state in
  let state :=
    default "openai_api_key" (PStr (getenv E "OPENAI_API_KEY" EmptyString))
      state in
  let state :=
    default "anthropic_api_key"
      (PStr (getenv E "ANTHROPIC_API_KEY" EmptyString)) state in
  let state :=
    default "qwen_api_key" (PStr (getenv E "QWEN_API_KEY" EmptyString))
      state in
  let state :=
    default "openrouter_api_key"
      (PStr (getenv E "OPENROUTER_API_KEY" EmptyString)) state in
  let state :=
    default "lmstudio_url"
      (PStr (getenv E "LMSTUDIO_URL" "http://localhost:1234/v1")) state in
  default "ui_tars_url" (PStr EmptyString) state.

(** Lines 73-84: the key stored for the provider in the state. *)
Definition initial_api_key (state : dict) : result pyval :=
  provider <- item state "planner_provider" ;;
  if py_eq_str provider "openai" then item state "openai_api_key"
  else
    provider <- item state "planner_provider" ;;
    if py_eq_str provider "anthropic" then item state "anthropic_api_key"
    else
      provider <- item state "planner_provider" ;;
      if py_eq_str provider "qwen" then item state "qwen_api_key"
      else
        provider <- item state "planner_provider" ;;
        if py_eq_str provider "openrouter" then item state "openrouter_api_key"
        else
          provider <- item state "planner_provider" ;;
          if py_eq_str provider "lmstudio" then item state "lmstudio_url"
          else Ok (PStr EmptyString).

(** Lines 72-84. *)
Definition setup_api_key (state : dict) : result dict :=
  if has state "planner_api_key" then Ok state
  else
    key <- initial_api_key state ;;
    Ok (dict_set state "planner_api_key" key).

(** Line 106. *)
Definition device_os_name (E : Env) : string :=
  if String.eqb (platform_system E) "Windows" then "Windows"
  else if String.eqb (platform_system E) "Darwin" then "Mac"
  else "Linux".

(** Lines 92-118. *)
Definition setup_rest (E : Env) (state : dict) : dict :=
  let state :=
    default "selected_screen"
      (PInt (match SCREEN_NAMES E with
             | [] => 0
             | _ :: _ => SELECTED_SCREEN_INDEX E
             end)) state in
  let state := default "auth_validated" (PBool false) state in
  let state := default "responses" (PDict []) state in
  let state := default "tools" (PDict []) state in
  let state := default "only_n_most_recent_images" (PInt 10) state in
  let state :=
    default "custom_system_prompt"
      (PStr (newline ++ newline ++ "NOTE: you are operating a "
             ++ device_os_name E ++ " machine")) state in
  let state := default "hide_images" (PBool false) state in
  let state := default "chatbot_messages" (PList []) state in
  let state := default "showui_config" (PStr "Default") state in
  let state := default "max_pixels" (PInt 1344) state in
  default "awq_4bit" (PBool false) state.

(** [setup_state] (lines 43-118): the state as the call leaves it and
    what it logged. *)
Definition setup_state (E : Env) (state : dict)
  : result (dict * list log_record) :=
  let state := setup_models E state in
  state <- setup_api_key state ;;
  provider <- item state "planner_provider" ;;
  key <- item state "planner_api_key" ;;
  let logged :=
    LoadedKey provider key :: (if py_truthy key then [] else [KeyNotFound]) in
  Ok (setup_rest E state, logged).

(** The keys [setup_state] looks after. *)
Definition setup_keys : list string :=
  ["messages"; "planner_model"; "actor_model"; "planner_provider";
   "actor_provider"; "openai_api_key"; "anthropic_api_key"; "qwen_api_key";
   "openrouter_api_key"; "lmstudio_url"; "ui_tars_url"; "planner_api_key";
   "selected_screen"; "auth_validated"; "responses"; "tools";
   "only_n_most_recent_images"; "custom_system_prompt"; "hide_images";
   "chatbot_messages"; "showui_config"; "max_pixels"; "awq_4bit"].

Definition sample_env : Env :=
  mkEnv (fun name => if String.eqb name "QWEN_API_KEY" then Some "qk" else None)
    "Linux" ["Screen 1"; "Screen 2"] 1.

(** [needle in haystack] for two strings. *)
Fixpoint contains (needle haystack : string) : bool :=
  String.prefix needle haystack
  || match haystack with
     | EmptyString => false
     | String _ rest => contains needle rest
     end.

(** The keyword arguments of one [gr.update] call. *)
Record update : Type := mkUpdate {
  u_choices : option (list string);
  u_value : option pyval;
  u_interactive : option bool;
  u_placeholder : option string;
  u_type : option string
}.

(** The local variables the branches of lines 407-484 assign. *)
Record selection : Type := mkSelection {
  provider_choices : list string;
  provider_value : string;
  provider_interactive : bool;
  api_key_interactive : bool;
  api_key_placeholder : string;
  actor_model_choices : list string;
  actor_model_value : string;
  actor_model_interactive : bool;
  api_key_type : string
}.

(** Lines 407-484; [provider_values] are the values of the members of
    [APIProvider], in order. *)
Definition select (provider_values : list string) (model_selection : string)
    (state : dict) : result selection * dict :=
  if String.eqb model_selection "qwen2-vl-max" then
    (Ok (mkSelection ["qwen"] "qwen" false true "qwen API key"
           ["ShowUI"; "UI-TARS"] "ShowUI" true "password"), state)
  else if String.eqb model_selection "qwen2-vl-2b (local)"
          || String.eqb model_selection "qwen2-vl-7b (local)" then
    (Ok (mkSelection ["local"] "local" false false "not required"
           ["ShowUI"; "UI-TARS"] "ShowUI" true "password"), state)
  else if contains "ssh" model_selection then
    (Ok (mkSelection ["ssh"] "ssh" false true
           "ssh host and port (e.g. localhost:8000)"
           ["ShowUI"; "UI-TARS"] "ShowUI" true "text"),
     dict_set state "api_key"
       (if has state "planner_api_key"
           && py_truthy (py_get state "planner_api_key")
        then py_get state "planner_api_key"
        else PStr EmptyString))
  else if String.eqb model_selection "gpt-4o"
          || String.eqb model_selection "gpt-4o-mini" then
    (Ok (mkSelection ["openai"] "openai" false true "openai API key"
           ["ShowUI"; "UI-TARS"] "ShowUI" true "password"), state)
  else if String.eqb model_selection "claude-3-5-sonnet-20241022" then
    (Ok (mkSelection
           (filter (fun value => negb (String.eqb value "openai"))
              provider_values)
           "anthropic" true true "claude API key"
           ["claude-3-5-sonnet-20241022"] "claude-3-5-sonnet-20241022" false
           "password"),
     dict_set state "actor_provider" (PStr "anthropic"))
  else if String.eqb model_selection
            "OpenRouter qwen/qwen2.5-vl-72b-instruct:free" then
    (Ok (mkSelection ["openrouter"] "openrouter" false true
           "OpenRouter API Key" ["ShowUI"; "UI-TARS"] "ShowUI" true "password"),
     state)
  else
    (Raise (ValueError ("Model " ++ model_selection ++ " not supported")),
     state).

(** Lines 490-501. *)
Definition provider_api_key (provider_value : string) (state : dict) : dict :=
  if String.eqb provider_value "openai" then
    dict_set state "api_key"
      (py_get_default state "openai_api_key" (PStr EmptyString))
  else if String.eqb provider_value "anthropic" then
    dict_set state "api_key"
      (py_get_default state "anthropic_api_key" (PStr EmptyString))
  else if String.eqb provider_value "qwen" then
    dict_set state "api_key"
      (py_get_default state "qwen_api_key" (PStr EmptyString))
  else if String.eqb provider_value "local" then
    dict_set state "api_key" (PStr EmptyString)
  else if String.eqb provider_value "openrouter" then
    dict_set state "api_key"
      (py_get_default state "openrouter_api_key" (PStr EmptyString))
  else if String.eqb provider_value "lmstudio" then
    dict_set state "api_key"
      (py_get_default state "lmstudio_url" (PStr "http://localhost:1234/v1"))
  else state.

(** [update_planner_model] (lines 401-525): the three updates returned,
    or the exception, and the state as the call leaves it. *)
Definition update_planner_model (provider_values : list string)
    (model_selection : string) (state : dict)
  : result (update * update * update) * dict :=
  let state := dict_set state "model" (PStr model_selection) in
  let state := dict_set state "planner_model" (PStr model_selection) in
  match select provider_values model_selection state with
  | (Raise e, state) => (Raise e, state)
  | (Ok chosen, state) =>
      let state :=
        dict_set state "planner_api_provider" (PStr (provider_value chosen)) in
      let state := provider_api_key (provider_value chosen) state in
      match item state "api_key" with
      | Raise e => (Raise e, state)
      | Ok api_key =>
          (Ok (mkUpdate (Some (provider_choices chosen))
                 (Some (PStr (provider_value chosen)))
                 (Some (provider_interactive chosen)) None None,
               mkUpdate None (Some api_key) (Some (api_key_interactive chosen))
                 (Some (api_key_placeholder chosen))
                 (Some (api_key_type chosen)),
               mkUpdate (Some (actor_model_choices chosen))
                 (Some (PStr (actor_model_value chosen)))
                 (Some (actor_model_interactive chosen)) None None),
           state)
      end
  end.

(** The keys [update_planner_model] assigns. *)
Definition model_keys : list string :=
  ["model"; "planner_model"; "api_key"; "actor_provider";
   "planner_api_provider"].

End App.

(** * Properties *)

(** ** Dicts *)

Lemma dict_get_set_same (d : dict) (k : string) (v : pyval) :
  dict_get (dict_set d k v) k = Some v.
Proof.
  induction d as [|[k' v'] rest IH]; simpl.
  - now rewrite String.eqb_refl.
  - destruct (String.eqb k' k) eqn:Hk; simpl; rewrite Hk; auto.
Qed.

Lemma dict_get_set_other (d : dict) (k k' : string) (v : pyval) :
  k <> k' -> dict_get (dict_set d k v) k' = dict_get d k'.
Proof.
  intros Hne. induction d as [|[k0 v0] rest IH]; simpl.
  - destruct (String.eqb k k') eqn:Hk; auto.
    apply String.eqb_eq in Hk. contradiction.
  - destruct (String.eqb k0 k) eqn:Hk; simpl.
    + apply String.eqb_eq in Hk; subst k0.
      destruct (String.eqb k k') eqn:Hk'; auto.
      apply String.eqb_eq in Hk'. contradiction.
    + now rewrite IH.
Qed.

Lemma dict_set_set (d : dict) (k : string) (v v' : pyval) :
  dict_set (dict_set d k v) k v' = dict_set d k v'.
Proof.
  induction d as [|[k' v0] rest IH]; simpl.
  - now rewrite String.eqb_refl.
  - destruct (String.eqb k' k) eqn:Hk; simpl; rewrite Hk; auto.
    now rewrite IH.
Qed.

Lemma dict_set_get (d : dict) (k : string) (v : pyval) :
  dict_get d k = Some v -> dict_set d k v = d.
Proof.
  induction d as [|[k' v'] rest IH]; simpl; intros H; try discriminate.
  destruct (String.eqb k' k) eqn:Hk.
  - now inversion H.
  - now rewrite IH.
Qed.

Lemma py_get_set_other (d : dict) (k k' : string) (v : pyval) :
  k <> k' -> py_get (dict_set d k v) k' = py_get d k'.
Proof.
  intros Hne. unfold py_get. now rewrite dict_get_set_other.
Qed.

Lemma is_tool_result_set_content (d : dict) (v : pyval) :
  is_tool_result (PDict (dict_set d "content" v)) = is_tool_result (PDict d).
Proof.
  simpl. now rewrite py_get_set_other by discriminate.
Qed.

(** ** Pruning: one content list *)

Lemma drop_images_spec (contents : list pyval) :
  forall r : Z,
    filter is_image (fst (drop_images contents r))
    = skipn (Z.to_nat r) (filter is_image contents)
    /\ filter not_image (fst (drop_images contents r))
       = filter not_image contents
    /\ Z.to_nat (snd (drop_images contents r))
       = (Z.to_nat r - List.length (filter is_image contents))%nat.
Proof.
  unfold not_image.
  induction contents as [|c rest IH]; intros r; simpl.
  - rewrite skipn_nil. repeat split. lia.
  - destruct (is_image c) eqn:Hc; simpl.
    + destruct (0 <? r) eqn:Hr; simpl.
      * apply Z.ltb_lt in Hr.
        destruct (IH (r - 1)) as (H1 & H2 & H3).
        replace (Z.to_nat r) with (S (Z.to_nat (r - 1))) by lia.
        simpl. repeat split; auto.
      * apply Z.ltb_ge in Hr.
        destruct (IH r) as (H1 & H2 & H3).
        destruct (drop_images rest r) as [new_content left]; simpl in *.
        rewrite Hc. replace (Z.to_nat r) with O in * by lia.
        simpl in *. rewrite H1. repeat split; auto.
    + destruct (IH r) as (H1 & H2 & H3).
      destruct (drop_images rest r) as [new_content left]; simpl in *.
      rewrite Hc. simpl. rewrite H2. repeat split; auto.
Qed.

(** ** Pruning: tool results, messages, logs *)

Lemma skipn_nil_any {A : Type} (n : nat) : skipn n (@nil A) = [].
Proof. now destruct n. Qed.

Lemma prune_tool_result_spec (tool_result : pyval) (r : Z) :
  tool_result_images (fst (prune_tool_result tool_result r))
  = skipn (Z.to_nat r) (tool_result_images tool_result)
  /\ tool_result_without_images (fst (prune_tool_result tool_result r))
     = tool_result_without_images tool_result
  /\ Z.to_nat (snd (prune_tool_result tool_result r))
     = (Z.to_nat r - List.length (tool_result_images tool_result))%nat
  /\ is_tool_result (fst (prune_tool_result tool_result r))
     = is_tool_result tool_result
  /\ (iterable (tool_result_content tool_result) = true ->
      iterable (tool_result_content (fst (prune_tool_result tool_result r)))
      = true).
Proof.
  destruct tool_result as [| | | | |items|d];
    try (simpl; rewrite skipn_nil_any; repeat split; auto; lia).
  unfold prune_tool_result.
  destruct (dict_get d "content") as [c|] eqn:Hget.
  - destruct c as [| | | | |contents|d'];
      try (simpl; rewrite ?Hget; simpl; rewrite ?skipn_nil_any;
           repeat split; auto; lia).
    destruct (drop_images_spec contents r) as (H1 & H2 & H3).
    destruct (drop_images contents r) as [new_content left]. simpl in *.
    rewrite Hget, dict_get_set_same, dict_set_set, H2.
    repeat split; auto.
    + now rewrite py_get_set_other by discriminate.
    + intros _. unfold py_get_default. now rewrite dict_get_set_same.
  - simpl. rewrite Hget, skipn_nil_any. simpl. repeat split; auto. lia.
Qed.

Lemma prune_items_spec (items : list pyval) :
  forall r : Z,
    items_images (fst (prune_items items r))
    = skipn (Z.to_nat r) (items_images items)
    /\ map item_without_images (fst (prune_items items r))
       = map item_without_images items
    /\ Z.to_nat (snd (prune_items items r))
       = (Z.to_nat r - List.length (items_images items))%nat
    /\ (blocks_ok (filter is_tool_result items) = true ->
        blocks_ok (filter is_tool_result (fst (prune_items items r))) = true).
Proof.
  unfold items_images.
  induction items as [|item rest IH]; intros r; simpl.
  - rewrite skipn_nil_any. repeat split; auto. lia.
  - destruct (is_tool_result item) eqn:Hitem.
    + destruct (prune_tool_result_spec item r) as (T1 & T2 & T3 & T4 & T5).
      destruct (prune_tool_result item r) as [item' left]. simpl in *.
      destruct (IH left) as (H1 & H2 & H3 & H4).
      destruct (prune_items rest left) as [rest' left']. simpl in *.
      rewrite T4, Hitem. simpl.
      rewrite T1, H1, H2, skipn_app, T3, length_app.
      unfold item_without_images at 1 3. rewrite T4, Hitem, T2.
      repeat split; auto; try lia.
      intros Hok. apply andb_true_iff in Hok as [Ha Hb].
      apply andb_true_iff. split; auto.
    + destruct (IH r) as (H1 & H2 & H3 & H4).
      destruct (prune_items rest r) as [rest' left']. simpl in *.
      rewrite Hitem. rewrite H2. repeat split; auto.
Qed.

Lemma prune_message_spec (message : pyval) (r : Z) :
  message_images (fst (prune_message message r))
  = skipn (Z.to_nat r) (message_images message)
  /\ message_without_images (fst (prune_message message r))
     = message_without_images message
  /\ Z.to_nat (snd (prune_message message r))
     = (Z.to_nat r - List.length (message_images message))%nat
  /\ (message_ok message = true ->
      message_ok (fst (prune_message message r)) = true).
Proof.
  destruct message as [| | | | |items|d];
    try (simpl; rewrite skipn_nil_any; repeat split; auto; lia).
  unfold prune_message, message_ok, message_content.
  destruct (dict_get d "content") as [c|] eqn:Hget.
  - destruct c as [| | | | |items|d'];
      try (simpl; rewrite ?Hget; simpl; rewrite ?skipn_nil_any;
           repeat split; auto; lia).
    destruct (prune_items_spec items r) as (H1 & H2 & H3 & H4).
    destruct (prune_items items r) as [items' left]. simpl in *.
    rewrite Hget, dict_get_set_same, dict_set_set, H2.
    repeat split; auto.
  - simpl. rewrite Hget, skipn_nil_any. simpl.
    repeat split; auto; lia.
Qed.

Lemma prune_messages_spec (messages : list pyval) :
  forall r : Z,
    images_of (fst (prune_messages messages r))
    = skipn (Z.to_nat r) (images_of messages)
    /\ without_images (fst (prune_messages messages r))
       = without_images messages
    /\ (countable messages = true ->
        countable (fst (prune_messages messages r)) = true).
Proof.
  unfold images_of, without_images, countable.
  induction messages as [|message rest IH]; intros r; simpl.
  - rewrite skipn_nil_any. auto.
  - destruct (prune_message_spec message r) as (M1 & M2 & M3 & M4).
    destruct (prune_message message r) as [message' left]. simpl in *.
    destruct (IH left) as (H1 & H2 & H3).
    destruct (prune_messages rest left) as [rest' left']. simpl in *.
    rewrite M1, M2, H1, H2, skipn_app, M3.
    repeat split; auto.
    intros Hok. apply andb_true_iff in Hok as [Ha Hb].
    apply andb_true_iff. split; auto.
Qed.

(** The log after the pruning holds, as its tool results, the blocks the
    loop of lines 260-269 produces from the blocks collected before. *)
Lemma prune_blocks_app (a b : list pyval) :
  forall r : Z,
    prune_blocks (a ++ b) r
    = (fst (prune_blocks a r) ++ fst (prune_blocks b (snd (prune_blocks a r))),
       snd (prune_blocks b (snd (prune_blocks a r)))).
Proof.
  induction a as [|x rest IH]; intros r; simpl.
  - now destruct (prune_blocks b r).
  - destruct (prune_tool_result x r) as [x' left]. rewrite (IH left).
    now destruct (prune_blocks rest left).
Qed.

Lemma prune_items_blocks (items : list pyval) :
  forall r : Z,
    (filter is_tool_result (fst (prune_items items r)), snd (prune_items items r))
    = prune_blocks (filter is_tool_result items) r.
Proof.
  induction items as [|item rest IH]; intros r; simpl; auto.
  destruct (is_tool_result item) eqn:Hitem; simpl.
  - destruct (prune_tool_result_spec item r) as (_ & _ & _ & T4 & _).
    destruct (prune_tool_result item r) as [item' left]. simpl in T4.
    rewrite <- (IH left).
    destruct (prune_items rest left) as [rest' left']. simpl.
    now rewrite T4, Hitem.
  - rewrite <- (IH r).
    destruct (prune_items rest r) as [rest' left']. simpl.
    now rewrite Hitem.
Qed.

Lemma prune_message_blocks (message : pyval) (r : Z) :
  (message_blocks (fst (prune_message message r)), snd (prune_message message r))
  = prune_blocks (message_blocks message) r.
Proof.
  unfold message_blocks.
  destruct message as [| | | | |items|d]; auto.
  unfold prune_message. simpl.
  destruct (dict_get d "content") as [c|] eqn:Hget; simpl.
  - destruct c as [| | | | |items|d']; simpl; rewrite ?Hget; auto.
    rewrite <- (prune_items_blocks items r).
    destruct (prune_items items r) as [items' left]. simpl.
    now rewrite dict_get_set_same.
  - now rewrite Hget.
Qed.

Lemma prune_messages_blocks (messages : list pyval) :
  forall r : Z,
    (flat_map message_blocks (fst (prune_messages messages r)),
     snd (prune_messages messages r))
    = prune_blocks (flat_map message_blocks messages) r.
Proof.
  induction messages as [|message rest IH]; intros r; simpl; auto.
  rewrite prune_blocks_app, <- (prune_message_blocks message r).
  destruct (prune_message message r) as [message' left]. simpl.
  rewrite <- (IH left).
  now destruct (prune_messages rest left).
Qed.

(** ** Counting *)

Lemma filter_is_image_chars (cs : list ascii) :
  filter is_image (map (fun c => PStr (String c EmptyString)) cs) = [].
Proof. induction cs; simpl; auto. Qed.

Lemma filter_is_image_keys (d : dict) :
  filter is_image (map (fun kv => PStr (fst kv)) d) = [].
Proof. induction d; simpl; auto. Qed.

Lemma py_iter_images (tool_result : pyval) (l : list pyval) :
  py_iter (tool_result_content tool_result) = Ok l ->
  filter is_image l = tool_result_images tool_result.
Proof.
  destruct tool_result as [| | | | |items|d]; simpl;
    try (intros H; inversion H; reflexivity).
  unfold py_get_default.
  destruct (dict_get d "content") as [c|]; simpl.
  - destruct c; simpl; intros H; inversion H; subst; auto.
    + apply filter_is_image_chars.
    + apply filter_is_image_keys.
  - intros H; inversion H; reflexivity.
Qed.

Lemma total_images_ok (blocks : list pyval) :
  blocks_ok blocks = true ->
  total_images blocks
  = Ok (Z.of_nat (List.length (flat_map tool_result_images blocks))).
Proof.
  induction blocks as [|tool_result rest IH]; simpl; auto.
  intros H. apply andb_true_iff in H as [Hit Hrest].
  unfold iterable in Hit.
  destruct (py_iter (tool_result_content tool_result)) as [l|] eqn:Hl;
    try discriminate.
  simpl. rewrite (IH Hrest). simpl.
  rewrite (py_iter_images _ _ Hl), length_app. f_equal. lia.
Qed.

Lemma total_images_inv (blocks : list pyval) :
  forall n, total_images blocks = Ok n -> blocks_ok blocks = true.
Proof.
  induction blocks as [|tool_result rest IH]; simpl; auto.
  intros n. unfold iterable.
  destruct (py_iter (tool_result_content tool_result)); simpl;
    try discriminate.
  destruct (total_images rest) eqn:Hrest; simpl; try discriminate.
  intros _. eauto.
Qed.

Lemma tool_result_blocks_inv (messages : list pyval) :
  forall blocks,
    tool_result_blocks messages = Ok blocks ->
    blocks = flat_map message_blocks messages
    /\ forallb (fun m => match message_content m with
                         | Ok _ => true
                         | Raise _ => false
                         end) messages = true.
Proof.
  induction messages as [|message rest IH]; simpl; intros blocks H.
  - inversion H. auto.
  - unfold message_blocks at 1.
    destruct (message_content message) as [c|]; simpl in *; try discriminate.
    destruct (tool_result_blocks rest) as [bs|]; simpl in *; try discriminate.
    inversion H; subst. destruct (IH bs eq_refl) as [-> Hall]. auto.
Qed.

Lemma tool_result_blocks_ok (messages : list pyval) :
  forallb (fun m => match message_content m with
                    | Ok _ => true
                    | Raise _ => false
                    end) messages = true ->
  tool_result_blocks messages = Ok (flat_map message_blocks messages).
Proof.
  induction messages as [|message rest IH]; simpl; auto.
  intros H. apply andb_true_iff in H as [Hm Hrest].
  unfold message_blocks at 1.
  destruct (message_content message) as [c|]; try discriminate.
  simpl. now rewrite (IH Hrest).
Qed.

Lemma countable_split (messages : list pyval) :
  countable messages
  = forallb (fun m => match message_content m with
                      | Ok _ => true
                      | Raise _ => false
                      end) messages
    && blocks_ok (flat_map message_blocks messages).
Proof.
  unfold countable.
  induction messages as [|message rest IH]; simpl; auto.
  unfold blocks_ok in *. rewrite forallb_app, IH.
  unfold message_ok, message_blocks, blocks_ok.
  destruct (message_content message); simpl; auto.
  rewrite !andb_assoc. f_equal. apply andb_comm.
Qed.

Lemma images_of_blocks (messages : list pyval) :
  images_of messages
  = flat_map tool_result_images (flat_map message_blocks messages).
Proof.
  unfold images_of.
  induction messages as [|message rest IH]; simpl; auto.
  rewrite flat_map_app, IH. f_equal.
  unfold message_blocks.
  destruct message as [| | | | |items|d]; simpl; auto.
  destruct (dict_get d "content") as [c|]; simpl; auto.
  destruct c; simpl; auto.
Qed.

Lemma count_images_ok (messages : list pyval) :
  countable messages = true ->
  count_images messages = Ok (Z.of_nat (List.length (images_of messages))).
Proof.
  rewrite countable_split. intros H. apply andb_true_iff in H as [Hc Hb].
  unfold count_images. rewrite (tool_result_blocks_ok _ Hc). simpl.
  now rewrite (total_images_ok _ Hb), images_of_blocks.
Qed.

Lemma count_images_inv (messages : list pyval) (N : Z) :
  count_images messages = Ok N -> countable messages = true.
Proof.
  unfold count_images. intros H.
  destruct (tool_result_blocks messages) as [blocks|] eqn:Hb;
    simpl in H; try discriminate.
  destruct (tool_result_blocks_inv _ _ Hb) as [-> Hall].
  rewrite countable_split, Hall. simpl. eapply total_images_inv; eauto.
Qed.

Lemma count_images_value (messages : list pyval) (N : Z) :
  count_images messages = Ok N ->
  N = Z.of_nat (List.length (images_of messages)).
Proof.
  intros H. pose proof (count_images_inv _ _ H) as Hc.
  rewrite (count_images_ok _ Hc) in H. now inversion H.
Qed.

Lemma prune_message_has_content (message : pyval) (r : Z) :
  match message_content (fst (prune_message message r)) with
  | Ok _ => true
  | Raise _ => false
  end
  = match message_content message with
    | Ok _ => true
    | Raise _ => false
    end.
Proof.
  destruct message as [| | | | |items|d]; auto.
  unfold prune_message.
  destruct (dict_get d "content") as [c|] eqn:Hget; auto.
  destruct c as [| | | | |items|d']; auto.
  destruct (prune_items items r) as [items' left]. simpl.
  now rewrite dict_get_set_same, Hget.
Qed.

Lemma pruned_log_blocks (messages blocks : list pyval) (r : Z) :
  tool_result_blocks messages = Ok blocks ->
  tool_result_blocks (fst (prune_messages messages r))
  = Ok (fst (prune_blocks blocks r)).
Proof.
  intros Hblocks.
  destruct (tool_result_blocks_inv _ _ Hblocks) as [-> Hall].
  rewrite <- prune_messages_blocks. simpl.
  apply tool_result_blocks_ok.
  clear Hblocks. revert r.
  induction messages as [|message rest IH]; intros r; simpl; auto.
  simpl in Hall. apply andb_true_iff in Hall as [Hm Hrest].
  pose proof (prune_message_has_content message r) as Hc.
  destruct (prune_message message r) as [message' left]. simpl in Hc.
  specialize (IH Hrest left).
  destruct (prune_messages rest left) as [rest' left']. simpl in *.
  now rewrite Hc, Hm, IH.
Qed.

(** ** [_maybe_filter_to_n_most_recent_images] as a whole *)

Lemma prune_returns (messages : list pyval) (N keep threshold : Z) :
  count_images messages = Ok N ->
  threshold <> 0 ->
  _maybe_filter_to_n_most_recent_images messages (Some keep) threshold
  = Ok (fst (prune_messages messages
               (N - keep - (N - keep) mod threshold))).
Proof.
  intros Hcount Ht. unfold _maybe_filter_to_n_most_recent_images.
  unfold count_images in Hcount.
  destruct (tool_result_blocks messages) as [blocks|]; simpl in *;
    try discriminate.
  rewrite Hcount. simpl.
  apply Z.eqb_neq in Ht. now rewrite Ht.
Qed.

Lemma count_after_prune (messages : list pyval) (N r : Z) :
  count_images messages = Ok N ->
  count_images (fst (prune_messages messages r))
  = Ok (Z.of_nat (List.length (images_of messages) - Z.to_nat r)).
Proof.
  intros Hcount.
  destruct (prune_messages_spec messages r) as (H1 & _ & H3).
  rewrite (count_images_ok _ (H3 (count_images_inv _ _ Hcount))).
  now rewrite H1, length_skipn.
Qed.

Lemma chunk_arithmetic (N keep threshold : Z) :
  0 <= N -> 0 <= keep -> 0 < threshold ->
  Z.of_nat (Z.to_nat N - Z.to_nat (N - keep - (N - keep) mod threshold))
  = N - removal_count N keep threshold.
Proof.
  intros HN Hk Ht. unfold removal_count.
  pose proof (Z.div_mod (N - keep) threshold ltac:(lia)) as Hdm.
  pose proof (Z.mod_pos_bound (N - keep) threshold Ht) as Hm.
  destruct (N >? keep) eqn:Hgt.
  - apply Z.gtb_lt in Hgt.
    pose proof (Z.mod_le (N - keep) threshold ltac:(lia) Ht) as Hle.
    replace ((N - keep) / threshold * threshold)
      with (N - keep - (N - keep) mod threshold) by lia.
    lia.
  - assert (N <= keep) by (rewrite Z.gtb_ltb in Hgt; apply Z.ltb_ge in Hgt; lia).
    lia.
Qed.

Lemma prune_raises (messages : list pyval) (e : exn) (keep threshold : Z) :
  count_images messages = Raise e ->
  _maybe_filter_to_n_most_recent_images messages (Some keep) threshold
  = Raise e.
Proof.
  unfold count_images, _maybe_filter_to_n_most_recent_images.
  destruct (tool_result_blocks messages); simpl.
  - intros H. now rewrite H.
  - intros H. now inversion H.
Qed.

(** C1: for a log whose tool results hold [N] images and for
    [images_to_keep >= 0], the pruning with the default threshold of 10
    returns, and the images it takes out number
    [floor((N - images_to_keep) / 10) * 10] when [N > images_to_keep] and
    zero otherwise: that many fewer are counted afterwards. *)
Theorem prune_removes_whole_chunks
    (messages : list pyval) (N images_to_keep : Z) :
  count_images messages = Ok N ->
  0 <= images_to_keep ->
  exists messages' removed,
    _maybe_filter_to_n_most_recent_images messages (Some images_to_keep)
      default_min_removal_threshold = Ok messages'
    /\ images_of messages = removed ++ images_of messages'
    /\ Z.of_nat (List.length removed)
       = removal_count N images_to_keep default_min_removal_threshold
    /\ count_images messages'
       = Ok (N - removal_count N images_to_keep default_min_removal_threshold).
Proof.
  intros Hcount Hkeep.
  set (r := N - images_to_keep
            - (N - images_to_keep) mod default_min_removal_threshold).
  exists (fst (prune_messages messages r)).
  exists (firstn (Z.to_nat r) (images_of messages)).
  pose proof (count_images_value _ _ Hcount) as HN.
  assert (Harith :
            Z.of_nat (List.length (images_of messages) - Z.to_nat r)
            = N - removal_count N images_to_keep default_min_removal_threshold).
  { replace (List.length (images_of messages)) with (Z.to_nat N) by lia.
    apply chunk_arithmetic; unfold default_min_removal_threshold; lia. }
  destruct (prune_messages_spec messages r) as (H1 & _ & _).
  repeat split.
  - apply (prune_returns _ _ _ _ Hcount). discriminate.
  - rewrite H1. symmetry. apply firstn_skipn.
  - rewrite length_firstn. lia.
  - rewrite (count_after_prune _ _ _ Hcount). now f_equal.
Qed.

Lemma prune_removes_whole_chunks_witness :
  exists messages' removed,
    _maybe_filter_to_n_most_recent_images sample_log (Some 1)
      default_min_removal_threshold = Ok messages'
    /\ images_of sample_log = removed ++ images_of messages'
    /\ Z.of_nat (List.length removed)
       = removal_count 12 1 default_min_removal_threshold
    /\ count_images messages'
       = Ok (12 - removal_count 12 1 default_min_removal_threshold).
Proof.
  apply (prune_removes_whole_chunks sample_log 12 1); [reflexivity | lia].
Defined.

(** C6: when the count of the images does not raise, the pruning returns
    and the images it took out are the first ones in traversal order, as
    many as the count of lines 256-258 says (the excess over
    [images_to_keep] rounded down to a multiple of the threshold, at most
    all and at least none, which for [images_to_keep >= 0] is
    [floor((N - images_to_keep) / 10) * 10] or zero); the ones left are the
    last ones, in the same order; every other content item of every tool
    result, and everything else in the log, is where it was. *)
Theorem prune_drops_oldest_images
    (messages : list pyval) (N images_to_keep : Z) :
  count_images messages = Ok N ->
  exists messages' removed,
    _maybe_filter_to_n_most_recent_images messages (Some images_to_keep)
      default_min_removal_threshold = Ok messages'
    /\ images_of messages = removed ++ images_of messages'
    /\ Z.of_nat (List.length removed)
       = Z.min N
           (Z.max 0
              (N - images_to_keep
               - (N - images_to_keep) mod default_min_removal_threshold))
    /\ (0 <= images_to_keep ->
        Z.of_nat (List.length removed)
        = removal_count N images_to_keep default_min_removal_threshold)
    /\ without_images messages' = without_images messages.
Proof.
  intros Hcount.
  set (r := N - images_to_keep
            - (N - images_to_keep) mod default_min_removal_threshold).
  exists (fst (prune_messages messages r)).
  exists (firstn (Z.to_nat r) (images_of messages)).
  pose proof (count_images_value _ _ Hcount) as HN.
  destruct (prune_messages_spec messages r) as (H1 & H2 & _).
  split; [|split; [|split; [|split]]]; auto.
  - apply (prune_returns _ _ _ _ Hcount). discriminate.
  - rewrite H1. symmetry. apply firstn_skipn.
  - rewrite length_firstn. lia.
  - intros Hkeep. rewrite length_firstn.
    pose proof (chunk_arithmetic N images_to_keep
                  default_min_removal_threshold) as Harith.
    fold r in Harith. unfold default_min_removal_threshold in Harith at 1.
    lia.
Qed.

Lemma prune_drops_oldest_images_witness :
  exists messages' removed,
    _maybe_filter_to_n_most_recent_images sample_log (Some 2)
      default_min_removal_threshold = Ok messages'
    /\ images_of sample_log = removed ++ images_of messages'
    /\ Z.of_nat (List.length removed) = 10
    /\ without_images messages' = without_images sample_log.
Proof.
  destruct (prune_drops_oldest_images sample_log 12 2 eq_refl)
    as (messages' & removed & Hreturn & Himages & Hlength & _ & Hrest).
  exists messages', removed. repeat split; assumption.
Defined.

(** ** [_message_filter_callback] *)

Lemma role_after_wrap (d : dict) (v : pyval) :
  py_get (dict_set d "content" v) "role" = py_get d "role".
Proof. apply py_get_set_other. discriminate. Qed.

Lemma filter_body_normalised (msg msg' : pyval) (appended : option pyval)
    (lines : list log_line) :
  filter_body msg = Ok (appended, msg', lines) -> normalised msg msg'.
Proof.
  unfold filter_body, normalised.
  destruct msg as [| | | | |items|d]; try discriminate.
  destruct (py_eq_str (py_get d "role") "user") eqn:Hrole.
  - destruct (dict_get d "content") as [c|] eqn:Hget; try discriminate.
    destruct (is_list c) eqn:Hlist.
    + destruct c as [| | | | |[|[| | |s|text| |] more]|]; try discriminate;
        intros H; inversion H; auto.
    + intros H. right. exists d, c.
      destruct c; try discriminate; inversion H; auto.
  - intros H; inversion H; auto.
Qed.

Lemma filter_body_again (msg msg' : pyval) (appended : option pyval)
    (lines : list log_line) :
  filter_body msg = Ok (appended, msg', lines) ->
  filter_body msg' = Ok (appended, msg', lines).
Proof.
  unfold filter_body.
  destruct msg as [| | | | |items|d]; try discriminate.
  destruct (py_eq_str (py_get d "role") "user") eqn:Hrole.
  - destruct (dict_get d "content") as [c|] eqn:Hget; try discriminate.
    destruct (is_list c) eqn:Hlist.
    + destruct c as [| | | | |[|[| | |s|text| |] more]|]; try discriminate;
        intros H; inversion H; subst; rewrite Hrole, Hget; reflexivity.
    + destruct c; try discriminate; intros H; inversion H; subst;
        rewrite role_after_wrap, Hrole, dict_get_set_same; simpl;
        rewrite ?dict_set_set; reflexivity.
  - intros H; inversion H; subst. now rewrite Hrole.
Qed.

Lemma filter_body_text (msg msg' : pyval) (text : pyval)
    (lines : list log_line) :
  filter_body msg = Ok (Some text, msg', lines) -> is_str text = true.
Proof.
  unfold filter_body.
  destruct msg as [| | | | |items|d]; try discriminate.
  destruct (py_eq_str (py_get d "role") "user"); try discriminate.
  destruct (dict_get d "content") as [c|]; try discriminate.
  destruct (is_list c).
  - destruct c as [| | | | |[|[| | |s|t| |] more]|]; try discriminate;
      intros H; inversion H; reflexivity.
  - destruct c; try discriminate; intros H; inversion H; reflexivity.
Qed.

Lemma filter_loop_normalised (messages : list pyval) :
  forall filtered out,
    Forall2 normalised messages
      (messages_after (filter_loop messages filtered out)).
Proof.
  induction messages as [|msg rest IH]; intros filtered out; simpl.
  - constructor.
  - destruct (filter_body msg) as [[[appended msg'] lines]|e] eqn:Hbody; simpl.
    + constructor; auto. eapply filter_body_normalised; eauto.
    + clear. constructor.
      * now left.
      * induction rest; constructor; auto. now left.
Qed.

Lemma filter_loop_again (messages : list pyval) :
  forall filtered out,
    filter_loop (messages_after (filter_loop messages filtered out))
      filtered out
    = filter_loop messages filtered out.
Proof.
  induction messages as [|msg rest IH]; intros filtered out; simpl; auto.
  destruct (filter_body msg) as [[[appended msg'] lines]|e] eqn:Hbody; simpl.
  - rewrite (filter_body_again _ _ _ _ Hbody). now rewrite IH.
  - now rewrite Hbody.
Qed.

Lemma filter_loop_texts (messages : list pyval) :
  forall filtered out,
    Forall (fun v => is_str v = true) filtered ->
    Forall (fun v => is_str v = true)
      (filtered_list (filter_loop messages filtered out)).
Proof.
  induction messages as [|msg rest IH]; intros filtered out Hf; simpl; auto.
  destruct (filter_body msg) as [[[appended msg'] lines]|e] eqn:Hbody;
    simpl; auto.
  apply IH. destruct appended as [text|]; auto.
  apply Forall_app. split; auto. constructor; auto.
  eapply filter_body_text; eauto.
Qed.

Lemma filter_of_texts (texts : list pyval) :
  Forall (fun v => is_str v = true) texts ->
  filtered_list (_message_filter_callback texts) = [].
Proof.
  unfold _message_filter_callback.
  destruct texts as [|v rest]; simpl; auto.
  intros H. inversion H as [|? ? Hv _]; subst.
  destruct v; try discriminate. reflexivity.
Qed.

Lemma filter_loop_no_error (messages : list pyval) :
  forall filtered out,
    existsb raises messages = false ->
    filtered_list (filter_loop messages filtered out)
    = filtered ++ soft_skip_texts messages.
Proof.
  unfold soft_skip_texts.
  induction messages as [|msg rest IH]; intros filtered out H; simpl.
  - now rewrite app_nil_r.
  - simpl in H. apply orb_false_iff in H as [Hm Hrest].
    unfold raises in Hm. unfold user_text at 1.
    destruct (filter_body msg) as [[[appended msg'] lines]|e]; try discriminate.
    simpl. rewrite (IH _ _ Hrest).
    destruct appended; simpl; auto. now rewrite <- app_assoc.
Qed.

Lemma filter_loop_stops (before after : list pyval) (msg : pyval) (e : exn) :
  forall filtered out,
    existsb raises before = false ->
    filter_body msg = Raise e ->
    filter_loop (before ++ msg :: after) filtered out
    = mkFilterState
        (filtered_list (filter_loop before filtered out))
        (messages_after (filter_loop before filtered out) ++ msg :: after)
        (printed (filter_loop before filtered out) ++ [LogError e]).
Proof.
  induction before as [|m rest IH]; intros filtered out H Hmsg; simpl.
  - now rewrite Hmsg.
  - simpl in H. apply orb_false_iff in H as [Hm Hrest].
    unfold raises in Hm.
    destruct (filter_body m) as [[[appended m'] lines]|e']; try discriminate.
    simpl. now rewrite (IH _ _ Hrest Hmsg).
Qed.

(** C2, as the code has it: the filter drops one by one the messages it
    does not recognise and goes on, so a log on which no message raises
    yields every plain user text; but when a message raises, the error
    is printed and the pass ends there: the list returned holds the texts
    of the messages before it, and the messages after it are neither read
    nor changed. *)
Theorem filter_stops_at_first_error
    (before after : list pyval) (msg : pyval) (e : exn) :
  existsb raises before = false ->
  filter_body msg = Raise e ->
  filtered_list (_message_filter_callback before) = soft_skip_texts before
  /\ filtered_list (_message_filter_callback (before ++ msg :: after))
     = soft_skip_texts before
  /\ messages_after (_message_filter_callback (before ++ msg :: after))
     = messages_after (_message_filter_callback before) ++ msg :: after
  /\ printed (_message_filter_callback (before ++ msg :: after))
     = printed (_message_filter_callback before) ++ [LogError e].
Proof.
  intros Hbefore Hmsg. unfold _message_filter_callback.
  rewrite (filter_loop_stops _ _ _ _ _ _ Hbefore Hmsg). simpl.
  rewrite (filter_loop_no_error _ _ _ Hbefore). auto.
Qed.

Lemma filter_stops_at_first_error_witness :
  filtered_list (_message_filter_callback [hello_message])
  = soft_skip_texts [hello_message]
  /\ filtered_list
       (_message_filter_callback
          ([hello_message] ++ empty_user_message :: [hello_message]))
     = soft_skip_texts [hello_message]
  /\ messages_after
       (_message_filter_callback
          ([hello_message] ++ empty_user_message :: [hello_message]))
     = messages_after (_message_filter_callback [hello_message])
       ++ empty_user_message :: [hello_message]
  /\ printed
       (_message_filter_callback
          ([hello_message] ++ empty_user_message :: [hello_message]))
     = printed (_message_filter_callback [hello_message])
       ++ [LogError IndexError].
Proof.
  apply (filter_stops_at_first_error [hello_message] [hello_message]
           empty_user_message IndexError); reflexivity.
Defined.

(** C2 as stated fails: on a log of a user message with an empty content
    list followed by a plain user text, the first message raises and the
    text of the second, which a filter skipping only the failing message
    would return, is not in the list returned. *)
Lemma filter_skips_only_failing_counterexample :
  raises empty_user_message = true
  /\ soft_skip_texts [empty_user_message; hello_message] = [PStr "hello"]
  /\ filtered_list (_message_filter_callback [empty_user_message; hello_message])
     = []
  /\ filtered_list (_message_filter_callback [empty_user_message; hello_message])
     <> soft_skip_texts [empty_user_message; hello_message].
Proof.
  repeat split; try reflexivity. discriminate.
Qed.

(** C3, as the code has it: running the filter again on the same log, as
    the first run left it, returns the same list, prints the same lines and
    changes nothing more; run on its own output, a list of strings, it
    returns the empty list. *)
Theorem filter_again_on_same_log (messages : list pyval) :
  _message_filter_callback
    (messages_after (_message_filter_callback messages))
  = _message_filter_callback messages
  /\ filtered_list
       (_message_filter_callback
          (filtered_list (_message_filter_callback messages)))
     = [].
Proof.
  split.
  - apply filter_loop_again.
  - apply filter_of_texts. apply filter_loop_texts. constructor.
Qed.

(** C3 as stated fails: the filter of the list it returned for one plain
    user text is empty, not that list. *)
Lemma filter_idempotent_counterexample :
  filtered_list (_message_filter_callback [hello_message]) = [PStr "hello"]
  /\ filtered_list
       (_message_filter_callback
          (filtered_list (_message_filter_callback [hello_message])))
     = []
  /\ filtered_list
       (_message_filter_callback
          (filtered_list (_message_filter_callback [hello_message])))
     <> filtered_list (_message_filter_callback [hello_message]).
Proof.
  repeat split; try reflexivity. discriminate.
Qed.

(** ** The planner and the caller's log *)

Lemma call_log_after (E : APIVLMPlanner.Env) (self : APIVLMPlanner.t)
    (messages : list pyval) :
  APIVLMPlanner.log_after (APIVLMPlanner.__call__ E self messages)
  = messages_after (_message_filter_callback messages).
Proof.
  unfold APIVLMPlanner.__call__.
  now destruct (APIVLMPlanner.decide E _ _).
Qed.

Lemma image_total_dict (d : dict) :
  image_total (PDict d)
  = ((if is_image (PDict d) then 1 else 0) + values_total d)%nat.
Proof.
  simpl. f_equal. unfold values_total.
  induction d as [|[k v] rest IH]; simpl; auto.
Qed.

Lemma values_total_set (d : dict) (k : string) (c x : pyval) :
  dict_get d k = Some c ->
  (values_total (dict_set d k x) + image_total c
   = values_total d + image_total x)%nat.
Proof.
  unfold values_total.
  induction d as [|[k' v'] rest IH]; simpl; try discriminate.
  destruct (String.eqb k' k); simpl.
  - intros H; inversion H; subst. lia.
  - intros H. specialize (IH H). lia.
Qed.

Lemma normalised_image_total (message message' : pyval) :
  normalised message message' -> image_total message' = image_total message.
Proof.
  intros [->|(d & c & -> & _ & Hget & _ & ->)]; auto.
  rewrite !image_total_dict.
  pose proof (values_total_set d "content" c (PList [c]) Hget) as H.
  assert (Himg : is_image (PDict (dict_set d "content" (PList [c])))
                 = is_image (PDict d)).
  { simpl. now rewrite py_get_set_other by discriminate. }
  rewrite Himg. simpl image_total in H. lia.
Qed.

Lemma normalised_log_images (messages messages' : list pyval) :
  Forall2 normalised messages messages' ->
  log_images messages' = log_images messages.
Proof.
  unfold log_images.
  induction 1 as [|m m' l l' Hm _ IH]; simpl; auto.
  now rewrite (normalised_image_total _ _ Hm), IH.
Qed.

Lemma call_normalises_log (E : APIVLMPlanner.Env) (self : APIVLMPlanner.t)
    (messages : list pyval) :
  Forall2 normalised messages
    (APIVLMPlanner.log_after (APIVLMPlanner.__call__ E self messages)).
Proof.
  rewrite call_log_after. apply filter_loop_normalised.
Qed.

(** C5, as the code has it: whatever a call of the planner does, each
    message of the caller's log is afterwards either as it was or a user
    message whose content, not a list before, now is the one-item list
    holding it; no message and no content item, image or text, is added or
    removed. *)
Theorem planner_only_normalises_log (E : APIVLMPlanner.Env)
    (self : APIVLMPlanner.t) (messages : list pyval) :
  Forall2 normalised messages
    (APIVLMPlanner.log_after (APIVLMPlanner.__call__ E self messages))
  /\ log_images (APIVLMPlanner.log_after (APIVLMPlanner.__call__ E self messages))
     = log_images messages.
Proof.
  pose proof (call_normalises_log E self messages) as H.
  split; auto. now apply normalised_log_images.
Qed.

(** C5 as stated fails: a call that returns its decision leaves the one
    user message of the log with its content, a str before, turned into a
    list, though the log holds no image. *)
Lemma planner_never_mutates_counterexample :
  APIVLMPlanner.returned
    (APIVLMPlanner.__call__ (sample_env (Ok (example_response, 7)))
       (sample_planner OPENAI "gpt-4o-mini" "sk" None) [hello_message])
  = Ok example_json
  /\ log_images [hello_message] = O
  /\ APIVLMPlanner.log_after
       (APIVLMPlanner.__call__ (sample_env (Ok (example_response, 7)))
          (sample_planner OPENAI "gpt-4o-mini" "sk" None) [hello_message])
     = [user_message (PList [PStr "hello"])]
  /\ APIVLMPlanner.log_after
       (APIVLMPlanner.__call__ (sample_env (Ok (example_response, 7)))
          (sample_planner OPENAI "gpt-4o-mini" "sk" None) [hello_message])
     <> [hello_message].
Proof.
  repeat split; try (vm_compute; reflexivity). vm_compute. discriminate.
Qed.

(** What lines 73-74 do when the guard holds: the filtered list is a list
    of strings, and indexing a string by ["content"] raises, unless the
    list is empty. *)
Lemma pruning_the_filtered_list (only_n : option Z) (text : string)
    (filtered : list pyval) :
  APIVLMPlanner.truthy only_n = true ->
  APIVLMPlanner.shape_history only_n (PStr text :: filtered) = Raise TypeError
  /\ APIVLMPlanner.shape_history only_n [] = Ok [].
Proof.
  intros H. unfold APIVLMPlanner.shape_history. rewrite H.
  destruct only_n as [n|]; try discriminate. split; auto.
Qed.

(** C10: with [only_n_most_recent_images = 0] the guard of line 73 is
    false, so the pruning is not run on the filtered list, and the log
    holds after the call as many images as before, however many they are. *)
Theorem zero_skips_pruning (E : APIVLMPlanner.Env) (self : APIVLMPlanner.t)
    (messages : list pyval) :
  APIVLMPlanner.only_n_most_recent_images self = Some 0 ->
  APIVLMPlanner.shape_history (APIVLMPlanner.only_n_most_recent_images self)
    (filtered_list (_message_filter_callback messages))
  = Ok (filtered_list (_message_filter_callback messages))
  /\ log_images (APIVLMPlanner.log_after (APIVLMPlanner.__call__ E self messages))
     = log_images messages.
Proof.
  intros Hzero. rewrite Hzero. split; auto.
  apply normalised_log_images, call_normalises_log.
Qed.

(** The guard, not the function, is what lets 0 through: called with 0,
    the function takes ten of the twelve images of the sample log. *)
Example prune_with_zero_removes :
  APIVLMPlanner.truthy (Some 0) = false
  /\ count_images sample_log = Ok 12
  /\ bind (_maybe_filter_to_n_most_recent_images sample_log (Some 0)
             default_min_removal_threshold) count_images
     = Ok 2.
Proof. repeat split. Qed.

Lemma zero_skips_pruning_witness :
  APIVLMPlanner.shape_history (Some 0)
    (filtered_list (_message_filter_callback sample_log))
  = Ok (filtered_list (_message_filter_callback sample_log))
  /\ log_images
       (APIVLMPlanner.log_after
          (APIVLMPlanner.__call__ (sample_env (Ok (example_response, 7)))
             (sample_planner OPENAI "gpt-4o-mini" "sk" (Some 0)) sample_log))
     = log_images sample_log.
Proof.
  apply (zero_skips_pruning (sample_env (Ok (example_response, 7)))
           (sample_planner OPENAI "gpt-4o-mini" "sk" (Some 0)) sample_log).
  reflexivity.
Defined.

(** ** The planner's stages *)

Section PlannerStages.

Variable E : APIVLMPlanner.Env.

Lemma decide_shaped (self : APIVLMPlanner.t) (filtered planner_messages : list pyval)
    (tr : list event) :
  APIVLMPlanner.shape_history (APIVLMPlanner.only_n_most_recent_images self)
    filtered = Ok planner_messages ->
  APIVLMPlanner.decide E filtered (APIVLMPlanner.mkWorld self tr)
  = APIVLMPlanner.mbind
      (APIVLMPlanner.dispatch E (with_screenshot E self planner_messages))
      (APIVLMPlanner.respond E)
      (APIVLMPlanner.mkWorld self (tr ++ screenshot_events E self)).
Proof.
  intros Hshape.
  unfold APIVLMPlanner.decide, APIVLMPlanner.mbind at 1 2 3 4,
    APIVLMPlanner.get_self, APIVLMPlanner.lift, APIVLMPlanner.emit.
  simpl. rewrite Hshape. simpl. now rewrite <- app_assoc.
Qed.

Lemma decide_unshaped (self : APIVLMPlanner.t) (filtered : list pyval)
    (tr : list event) (e : exn) :
  APIVLMPlanner.shape_history (APIVLMPlanner.only_n_most_recent_images self)
    filtered = Raise e ->
  APIVLMPlanner.decide E filtered (APIVLMPlanner.mkWorld self tr)
  = (Raise e, APIVLMPlanner.mkWorld self tr).
Proof.
  intros Hshape.
  unfold APIVLMPlanner.decide, APIVLMPlanner.mbind,
    APIVLMPlanner.get_self, APIVLMPlanner.lift.
  simpl. now rewrite Hshape.
Qed.

Lemma dispatch_ssh (self : APIVLMPlanner.t) (planner_messages : list pyval)
    (tr : list event) :
  APIVLMPlanner.provider self = SSH ->
  APIVLMPlanner.dispatch E planner_messages (APIVLMPlanner.mkWorld self tr)
  = match APIVLMPlanner.parse_ssh (APIVLMPlanner.api_key self) with
    | Raise e => (Raise e, APIVLMPlanner.mkWorld self tr)
    | Ok (ssh_host, ssh_port) =>
        let call := ssh_call self planner_messages ssh_host ssh_port in
        match APIVLMPlanner.backend E call with
        | Ok (vlm_response, _) =>
            (Ok vlm_response,
             APIVLMPlanner.mkWorld self (tr ++ [BackendCall call]))
        | Raise e =>
            (Raise e, APIVLMPlanner.mkWorld self (tr ++ [BackendCall call]))
        end
    end.
Proof.
  intros Hprov.
  unfold APIVLMPlanner.dispatch, APIVLMPlanner.mbind, APIVLMPlanner.get_self,
    APIVLMPlanner.lift, APIVLMPlanner.call_backend, APIVLMPlanner.emit,
    APIVLMPlanner.ret, ssh_call.
  simpl. rewrite Hprov.
  destruct (APIVLMPlanner.parse_ssh (APIVLMPlanner.api_key self))
    as [[ssh_host ssh_port]|e]; auto.
  simpl.
  destruct (APIVLMPlanner.backend E _) as [[vlm_response token_usage]|e]; auto.
Qed.

Lemma dispatch_oai (self : APIVLMPlanner.t) (planner_messages : list pyval)
    (tr : list event) :
  APIVLMPlanner.provider self = OPENAI
  \/ APIVLMPlanner.provider self = OPENROUTER ->
  exists self',
    APIVLMPlanner.dispatch E planner_messages (APIVLMPlanner.mkWorld self tr)
    = match APIVLMPlanner.backend E (oai_call self planner_messages) with
      | Ok (vlm_response, token_usage) =>
          (Ok vlm_response,
           APIVLMPlanner.mkWorld (self' token_usage)
             (tr ++ [BackendCall (oai_call self planner_messages)]))
      | Raise e =>
          (Raise e,
           APIVLMPlanner.mkWorld self
             (tr ++ [BackendCall (oai_call self planner_messages)]))
      end
    /\ forall token_usage,
         APIVLMPlanner.total_token_usage (self' token_usage)
         = APIVLMPlanner.total_token_usage self + token_usage.
Proof.
  intros Hprov.
  unfold APIVLMPlanner.dispatch, APIVLMPlanner.mbind, APIVLMPlanner.get_self,
    APIVLMPlanner.lift, APIVLMPlanner.call_backend, APIVLMPlanner.emit,
    APIVLMPlanner.ret, APIVLMPlanner.update_self, oai_call.
  simpl.
  destruct Hprov as [Hprov|Hprov]; rewrite Hprov; simpl.
  - exists (fun token_usage =>
              APIVLMPlanner.add_cost (APIVLMPlanner.add_usage self token_usage)
                (APIVLMPlanner.openai_cost token_usage)).
    split; auto.
    destruct (APIVLMPlanner.backend E _) as [[vlm_response token_usage]|e]; auto.
  - exists (fun token_usage => APIVLMPlanner.add_usage self token_usage).
    split; auto.
    destruct (APIVLMPlanner.backend E _) as [[vlm_response token_usage]|e]; auto.
Qed.

Lemma respond_world (vlm_response : string) (w : APIVLMPlanner.world) :
  APIVLMPlanner.w_self (snd (APIVLMPlanner.respond E vlm_response w))
  = APIVLMPlanner.w_self w
  /\ filter is_backend_call
       (APIVLMPlanner.w_trace (snd (APIVLMPlanner.respond E vlm_response w)))
     = filter is_backend_call (APIVLMPlanner.w_trace w).
Proof.
  unfold APIVLMPlanner.respond, APIVLMPlanner.mbind, APIVLMPlanner.lift,
    APIVLMPlanner.emit, APIVLMPlanner.ret.
  destruct (extract_data vlm_response "json"); simpl; auto.
  destruct (APIVLMPlanner.loaded_items _); simpl; auto.
  destruct (APIVLMPlanner.plan_str _ _); simpl; auto.
  rewrite filter_app. simpl. now rewrite app_nil_r.
Qed.

Lemma no_backend_call_printed (lines : list log_line) (self : APIVLMPlanner.t) :
  filter is_backend_call (map Printed lines ++ screenshot_events E self) = []
  /\ filter is_backend_call (map Printed lines) = [].
Proof.
  rewrite filter_app. simpl.
  assert (H : filter is_backend_call (map Printed lines) = [])
    by (induction lines; simpl; auto).
  now rewrite H.
Qed.

End PlannerStages.

(** Replaces what [respond] leaves by a result and a world about which
    only [respond_world] is known. *)
Ltac after_respond E Hself Hcalls :=
  match goal with
  | |- context [APIVLMPlanner.respond E ?r ?w] =>
      destruct (respond_world E r w) as [Hself Hcalls];
      destruct (APIVLMPlanner.respond E r w); simpl in *
  end.

(** ** The SSH credential *)

Lemma split_no_separator (sep : ascii) (s : string) :
  has_char sep s = false -> split sep s = [s].
Proof.
  unfold has_char.
  induction s as [|c rest IH]; simpl; auto.
  intros H. apply orb_false_iff in H as [Hc Hrest].
  rewrite Ascii.eqb_sym, Hc. now rewrite (IH Hrest).
Qed.

Lemma parse_ssh_no_colon (api_key : string) :
  has_char ":"%char api_key = false ->
  APIVLMPlanner.parse_ssh api_key = Raise APIVLMPlanner.ssh_error.
Proof.
  intros H. unfold APIVLMPlanner.parse_ssh.
  now rewrite (split_no_separator _ _ H).
Qed.

Lemma parse_ssh_localhost :
  APIVLMPlanner.parse_ssh "localhost:8000" = Ok ("localhost", 8000).
Proof. reflexivity. Qed.

Lemma call_unshaped (E : APIVLMPlanner.Env) (self : APIVLMPlanner.t)
    (messages : list pyval) (e : exn) :
  APIVLMPlanner.shape_history (APIVLMPlanner.only_n_most_recent_images self)
    (filtered_list (_message_filter_callback messages)) = Raise e ->
  APIVLMPlanner.__call__ E self messages
  = APIVLMPlanner.mkOutcome (Raise e) self
      (messages_after (_message_filter_callback messages))
      (map Printed (printed (_message_filter_callback messages))).
Proof.
  intros Hshape. unfold APIVLMPlanner.__call__.
  now rewrite (decide_unshaped E _ _ _ _ Hshape).
Qed.

Lemma call_ssh (E : APIVLMPlanner.Env) (self : APIVLMPlanner.t)
    (messages planner_messages : list pyval) :
  APIVLMPlanner.provider self = SSH ->
  APIVLMPlanner.shape_history (APIVLMPlanner.only_n_most_recent_images self)
    (filtered_list (_message_filter_callback messages)) = Ok planner_messages ->
  let st := _message_filter_callback messages in
  let tr := map Printed (printed st) ++ screenshot_events E self in
  APIVLMPlanner.__call__ E self messages
  = match APIVLMPlanner.parse_ssh (APIVLMPlanner.api_key self) with
    | Raise e => APIVLMPlanner.mkOutcome (Raise e) self (messages_after st) tr
    | Ok (ssh_host, ssh_port) =>
        let call :=
          ssh_call self (with_screenshot E self planner_messages)
            ssh_host ssh_port in
        match APIVLMPlanner.backend E call with
        | Raise e =>
            APIVLMPlanner.mkOutcome (Raise e) self (messages_after st)
              (tr ++ [BackendCall call])
        | Ok (vlm_response, _) =>
            let (r, w) :=
              APIVLMPlanner.respond E vlm_response
                (APIVLMPlanner.mkWorld self (tr ++ [BackendCall call])) in
            APIVLMPlanner.mkOutcome r (APIVLMPlanner.w_self w)
              (messages_after st) (APIVLMPlanner.w_trace w)
        end
    end.
Proof.
  intros Hprov Hshape st tr. unfold APIVLMPlanner.__call__.
  fold st. rewrite (decide_shaped E _ _ _ _ Hshape).
  unfold APIVLMPlanner.mbind. rewrite (dispatch_ssh E _ _ _ Hprov).
  fold tr.
  destruct (APIVLMPlanner.parse_ssh (APIVLMPlanner.api_key self))
    as [[ssh_host ssh_port]|e]; auto.
  simpl.
  destruct (APIVLMPlanner.backend E _) as [[vlm_response token_usage]|e]; auto.
Qed.

(** C7: for the SSH provider the credential is read as host:port before
    any adapter is called.  With the credential localhost:8000 the one
    adapter call of a turn whose history stage returned goes to host
    localhost, port 8000; with a credential that has no colon no adapter
    is called at all, and such a turn raises [ValueError] with the
    SSH-connection-string message. *)
Theorem ssh_credential_is_host_port (E : APIVLMPlanner.Env)
    (self : APIVLMPlanner.t) (messages : list pyval) :
  APIVLMPlanner.provider self = SSH ->
  (APIVLMPlanner.api_key self = "localhost:8000" ->
   forall planner_messages,
     APIVLMPlanner.shape_history
       (APIVLMPlanner.only_n_most_recent_images self)
       (filtered_list (_message_filter_callback messages))
     = Ok planner_messages ->
     filter is_backend_call
       (APIVLMPlanner.trace (APIVLMPlanner.__call__ E self messages))
     = [BackendCall
          (ssh_call self (with_screenshot E self planner_messages)
             "localhost" 8000)])
  /\ (has_char ":"%char (APIVLMPlanner.api_key self) = false ->
      filter is_backend_call
        (APIVLMPlanner.trace (APIVLMPlanner.__call__ E self messages))
      = []
      /\ forall planner_messages,
           APIVLMPlanner.shape_history
             (APIVLMPlanner.only_n_most_recent_images self)
             (filtered_list (_message_filter_callback messages))
           = Ok planner_messages ->
           APIVLMPlanner.returned (APIVLMPlanner.__call__ E self messages)
           = Raise APIVLMPlanner.ssh_error).
Proof.
  intros Hprov. split.
  - intros Hkey planner_messages Hshape.
    rewrite (call_ssh E _ _ _ Hprov Hshape), Hkey, parse_ssh_localhost.
    cbv zeta.
    destruct (no_backend_call_printed E
                (printed (_message_filter_callback messages)) self)
      as [Hnone _].
    destruct (APIVLMPlanner.backend E _) as [[vlm_response token_usage]|e].
    + after_respond E Hself Hcalls.
      rewrite Hcalls, filter_app, Hnone. reflexivity.
    + simpl. rewrite filter_app, Hnone. reflexivity.
  - intros Hkey.
    destruct (no_backend_call_printed E
                (printed (_message_filter_callback messages)) self)
      as [Hnone Hprinted].
    destruct (APIVLMPlanner.shape_history
                (APIVLMPlanner.only_n_most_recent_images self)
                (filtered_list (_message_filter_callback messages)))
      as [planner_messages|e] eqn:Hshape.
    + rewrite (call_ssh E _ _ _ Hprov Hshape), (parse_ssh_no_colon _ Hkey).
      simpl. split; auto.
    + rewrite (call_unshaped E _ _ _ Hshape). simpl. split; auto.
      intros planner_messages H. discriminate.
Qed.

Lemma ssh_credential_is_host_port_witness :
  filter is_backend_call
    (APIVLMPlanner.trace
       (APIVLMPlanner.__call__ (sample_env (Ok (example_response, 7)))
          (sample_planner SSH "Qwen2-VL-2B-Instruct" "localhost:8000" None)
          [hello_message]))
  = [BackendCall
       (run_ssh_llm_interleaved [PStr "hello"; PStr "/tmp/screenshot.png"]
          "You are using a Linux device." "Qwen2-VL-2B-Instruct"
          "localhost" 8000 4096)]
  /\ filter is_backend_call
       (APIVLMPlanner.trace
          (APIVLMPlanner.__call__ (sample_env (Ok (example_response, 7)))
             (sample_planner SSH "Qwen2-VL-2B-Instruct" "localhost" None)
             [hello_message]))
     = []
  /\ APIVLMPlanner.returned
       (APIVLMPlanner.__call__ (sample_env (Ok (example_response, 7)))
          (sample_planner SSH "Qwen2-VL-2B-Instruct" "localhost" None)
          [hello_message])
     = Raise APIVLMPlanner.ssh_error.
Proof.
  split.
  - apply (proj1 (ssh_credential_is_host_port
                    (sample_env (Ok (example_response, 7)))
                    (sample_planner SSH "Qwen2-VL-2B-Instruct"
                       "localhost:8000" None)
                    [hello_message] eq_refl) eq_refl [PStr "hello"] eq_refl).
  - destruct (proj2 (ssh_credential_is_host_port
                       (sample_env (Ok (example_response, 7)))
                       (sample_planner SSH "Qwen2-VL-2B-Instruct"
                          "localhost" None)
                       [hello_message] eq_refl) eq_refl) as [Hnone Hraise].
    split; [exact Hnone | exact (Hraise [PStr "hello"] eq_refl)].
Defined.

(** A display name outside the table of lines 35-48 constructs nothing. *)
Example unsupported_model (E : APIVLMPlanner.Env) :
  APIVLMPlanner.__init__ E "gpt-5-unknown" OPENAI EmptyString "sk" 4096 None 0
    true None
  = Raise (ValueError "Model gpt-5-unknown not supported").
Proof. reflexivity. Qed.

(** ** Token usage *)

Lemma ssh_usage_unchanged (E : APIVLMPlanner.Env) (self : APIVLMPlanner.t)
    (messages : list pyval) :
  APIVLMPlanner.provider self = SSH ->
  APIVLMPlanner.self_after (APIVLMPlanner.__call__ E self messages) = self.
Proof.
  intros Hprov.
  destruct (APIVLMPlanner.shape_history
              (APIVLMPlanner.only_n_most_recent_images self)
              (filtered_list (_message_filter_callback messages)))
    as [planner_messages|e] eqn:Hshape.
  - rewrite (call_ssh E _ _ _ Hprov Hshape). cbv zeta.
    destruct (APIVLMPlanner.parse_ssh _) as [[ssh_host ssh_port]|e]; auto.
    destruct (APIVLMPlanner.backend E _) as [[vlm_response token_usage]|e]; auto.
    after_respond E Hself Hcalls. exact Hself.
  - now rewrite (call_unshaped E _ _ _ Hshape).
Qed.

Lemma oai_usage_added (E : APIVLMPlanner.Env) (self : APIVLMPlanner.t)
    (messages planner_messages : list pyval) (vlm_response : string)
    (token_usage : Z) :
  APIVLMPlanner.provider self = OPENAI
  \/ APIVLMPlanner.provider self = OPENROUTER ->
  APIVLMPlanner.shape_history (APIVLMPlanner.only_n_most_recent_images self)
    (filtered_list (_message_filter_callback messages)) = Ok planner_messages ->
  APIVLMPlanner.backend E
    (oai_call self (with_screenshot E self planner_messages))
  = Ok (vlm_response, token_usage) ->
  APIVLMPlanner.total_token_usage
    (APIVLMPlanner.self_after (APIVLMPlanner.__call__ E self messages))
  = APIVLMPlanner.total_token_usage self + token_usage.
Proof.
  intros Hprov Hshape Hanswer. unfold APIVLMPlanner.__call__.
  rewrite (decide_shaped E _ _ _ _ Hshape). unfold APIVLMPlanner.mbind.
  destruct (dispatch_oai E self (with_screenshot E self planner_messages)
              (map Printed (printed (_message_filter_callback messages))
               ++ screenshot_events E self) Hprov) as (self' & -> & Husage).
  rewrite Hanswer.
  after_respond E Hself Hcalls. rewrite Hself. apply Husage.
Qed.

(** C4, at the failing input: a turn through the SSH adapter, which
    answers with 7 tokens, returns its decision and leaves
    [total_token_usage] at 0, where the same turn through the OpenAI
    adapter leaves it at 7. *)
Example ssh_turn_drops_token_count :
  APIVLMPlanner.returned
    (APIVLMPlanner.__call__ (sample_env (Ok (example_response, 7)))
       (sample_planner SSH "Qwen2-VL-2B-Instruct" "localhost:8000" None)
       [hello_message])
  = Ok example_json
  /\ APIVLMPlanner.total_token_usage
       (APIVLMPlanner.self_after
          (APIVLMPlanner.__call__ (sample_env (Ok (example_response, 7)))
             (sample_planner SSH "Qwen2-VL-2B-Instruct" "localhost:8000" None)
             [hello_message]))
     = 0
  /\ APIVLMPlanner.total_token_usage
       (APIVLMPlanner.self_after
          (APIVLMPlanner.__call__ (sample_env (Ok (example_response, 7)))
             (sample_planner OPENAI "gpt-4o-mini" "sk" None)
             [hello_message]))
     = 7.
Proof. repeat split; vm_compute; reflexivity. Qed.

(** ** The response *)

Lemma string_app_assoc (a b c : string) :
  ((a ++ b) ++ c = a ++ (b ++ c))%string.
Proof. induction a; simpl; congruence. Qed.

Lemma string_app_nil_r (a : string) : (a ++ EmptyString = a)%string.
Proof. induction a; simpl; congruence. Qed.

Lemma string_length_app (a b : string) :
  String.length (a ++ b) = (String.length a + String.length b)%nat.
Proof. induction a; simpl; auto. Qed.

Lemma digit_is_no_other (c d : ascii) :
  is_digit c = true -> is_digit d = false -> Ascii.eqb d c = false.
Proof.
  intros Hc Hd. destruct (Ascii.eqb_spec d c); auto. subst. congruence.
Qed.

(** ** Reading a value at the head of a longer text *)

Lemma skip_ws_app (r r' t : list ascii) (c : ascii) :
  skip_ws r = c :: r' -> skip_ws (r ++ t) = c :: r' ++ t.
Proof.
  induction r as [|x xs IH]; simpl; try discriminate.
  destruct (is_json_ws x); auto.
  intros H. inversion H; subst. reflexivity.
Qed.

Lemma skip_ws_delimited (r r' : list ascii) (c : ascii) :
  skip_ws r = c :: r' ->
  Ascii.eqb c "," || Ascii.eqb c "}" || Ascii.eqb c "]" = true ->
  delimited r = true.
Proof.
  destruct r as [|x xs]; simpl; try discriminate.
  destruct (is_json_ws x) eqn:Hx; auto.
  intros H Hc. inversion H; subst. simpl.
  now rewrite <- !orb_assoc in *.
Qed.

Lemma json_string_app (t : list ascii) (n : nat) :
  forall s str rest,
    (List.length s <= n)%nat ->
    json_string s = Ok (str, rest) ->
    json_string (s ++ t) = Ok (str, rest ++ t).
Proof.
  induction n as [|n IH]; intros s str rest Hlen.
  - destruct s; simpl in Hlen; try lia. discriminate.
  - destruct s as [|c s1]; try discriminate.
    cbn [json_string app].
    destruct (Ascii.eqb c quote_char).
    + intros H. inversion H; subst. reflexivity.
    + destruct (Ascii.eqb c backslash_char).
      * destruct s1 as [|e s2]; try discriminate.
        cbn [app].
        destruct (json_escape e).
        -- destruct (json_string s2) as [[body after]|err] eqn:Hs2;
             try discriminate.
           rewrite (IH s2 body after); [|simpl in Hlen; lia|exact Hs2].
           simpl. intros H. inversion H; subst. reflexivity.
        -- destruct (Ascii.eqb e "u"); discriminate.
      * destruct (ascii_code c <? 32); try discriminate.
        destruct (json_string s1) as [[body after]|err] eqn:Hs1;
          try discriminate.
        rewrite (IH s1 body after); [|simpl in Hlen; lia|exact Hs1].
        simpl. intros H. inversion H; subst. reflexivity.
Qed.

Lemma take_digits_app (u t : list ascii) :
  forall ds after,
    take_digits u = (ds, after) ->
    after <> [] ->
    take_digits (u ++ t) = (ds, after ++ t).
Proof.
  induction u as [|c rest IH]; intros ds after; simpl.
  - intros H. inversion H; subst. contradiction.
  - destruct (is_digit c).
    + destruct (take_digits rest) as [ds' after'] eqn:Hrest.
      intros H Hne. inversion H; subst.
      now rewrite (IH ds' after eq_refl Hne).
    + intros H _. inversion H; subst. reflexivity.
Qed.

Lemma delimited_no_float (after t : list ascii) :
  delimited after = true ->
  float_follows after = false /\ float_follows (after ++ t) = false.
Proof.
  destruct after as [|c rest]; try discriminate. simpl delimited.
  intros H.
  assert (Hdot : Ascii.eqb c "." = false
                 /\ Ascii.eqb c "e" = false /\ Ascii.eqb c "E" = false).
  { unfold is_json_ws, ascii_code in H.
    repeat split; destruct (Ascii.eqb_spec c "."), (Ascii.eqb_spec c "e"),
      (Ascii.eqb_spec c "E"); subst; auto; discriminate. }
  destruct Hdot as (H1 & H2 & H3).
  unfold float_follows. cbn [app].
  destruct rest as [|d rest']; cbn [app].
  - split; auto. destruct t; auto. now rewrite H1, H2, H3.
  - now rewrite H1, H2, H3.
Qed.

Lemma json_number_head (s : list ascii) (r : pyval * list ascii) :
  json_number s = Ok r ->
  exists c rest,
    s = c :: rest /\ (Ascii.eqb c "-" = true \/ is_digit c = true).
Proof.
  unfold json_number.
  destruct s as [|c rest]; try discriminate.
  destruct (Ascii.eqb c "-") eqn:Hminus; eauto.
  destruct (is_digit c) eqn:Hdigit; eauto.
  destruct (starts_with _ _); discriminate.
Qed.

Lemma json_number_app (s t : list ascii) (v : pyval) (rest : list ascii) :
  json_number s = Ok (v, rest) ->
  delimited rest = true ->
  json_number (s ++ t) = Ok (v, rest ++ t).
Proof.
  unfold json_number.
  assert (Hsign :
            forall unsigned negative,
              match unsigned with
              | c :: rest0 =>
                  if is_digit c then
                    let (ds, after) :=
                      if Ascii.eqb c "0" then ([c], rest0)
                      else take_digits unsigned in
                    if float_follows after then Raise NotModelled
                    else if (int_max_str_digits <? List.length ds)%nat
                         then Raise NotModelled
                         else Ok (PInt (if negative : bool
                                        then - digits_value ds 0
                                        else digits_value ds 0), after)
                  else if starts_with (list_ascii_of_string "Infinity") unsigned
                       then Raise NotModelled
                       else Raise ParseError
              | [] => Raise ParseError
              end = Ok (v, rest) ->
              delimited rest = true ->
              match unsigned ++ t with
              | c :: rest0 =>
                  if is_digit c then
                    let (ds, after) :=
                      if Ascii.eqb c "0" then ([c], rest0)
                      else take_digits (unsigned ++ t) in
                    if float_follows after then Raise NotModelled
                    else if (int_max_str_digits <? List.length ds)%nat
                         then Raise NotModelled
                         else Ok (PInt (if negative : bool
                                        then - digits_value ds 0
                                        else digits_value ds 0), after)
                  else if starts_with (list_ascii_of_string "Infinity")
                            (unsigned ++ t)
                       then Raise NotModelled
                       else Raise ParseError
              | [] => Raise ParseError
              end = Ok (v, rest ++ t)).
  { intros unsigned negative.
    destruct unsigned as [|c rest0]; try discriminate. cbn [app].
    destruct (is_digit c); [|destruct (starts_with _ _); discriminate].
    destruct (if Ascii.eqb c "0" then ([c], rest0) else take_digits (c :: rest0))
      as [ds after] eqn:Hds.
    intros H Hdel.
    assert (Hafter : after = rest).
    { destruct (float_follows after); try discriminate.
      destruct (int_max_str_digits <? List.length ds)%nat; try discriminate.
      now inversion H. }
    subst after.
    destruct (delimited_no_float rest t Hdel) as [Hf Hft].
    assert (Hds' : (if Ascii.eqb c "0" then ([c], rest0 ++ t)
                    else take_digits (c :: rest0 ++ t)) = (ds, rest ++ t)).
    { destruct (Ascii.eqb c "0").
      - now inversion Hds.
      - apply (take_digits_app (c :: rest0) t ds rest Hds).
        destruct rest; discriminate. }
    rewrite Hds', Hft. rewrite Hf in H.
    destruct (int_max_str_digits <? List.length ds)%nat; try discriminate.
    now inversion H. }
  destruct s as [|c rest0]; try discriminate. cbn [app].
  destruct (Ascii.eqb c "-"); cbv beta iota.
  - apply (Hsign rest0 true).
  - apply (Hsign (c :: rest0) false).
Qed.

Lemma json_value_nil (fuel : nat) : exists e, json_value fuel [] = Raise e.
Proof. destruct fuel; simpl; eauto. Qed.

Lemma json_members_nil (fuel : nat) (acc : dict) :
  exists e, json_members fuel [] acc = Raise e.
Proof. destruct fuel; simpl; eauto. Qed.

Lemma json_elements_nil (fuel : nat) (acc : list pyval) :
  exists e, json_elements fuel [] acc = Raise e.
Proof.
  destruct fuel; simpl; eauto.
  destruct (json_value_nil fuel) as [e ->]. simpl. eauto.
Qed.

Lemma starts_with_app (p s t : list ascii) :
  starts_with p s = true ->
  starts_with p (s ++ t) = true
  /\ skipn (List.length p) (s ++ t) = skipn (List.length p) s ++ t.
Proof.
  revert s. induction p as [|a p IH]; intros s; simpl; auto.
  destruct s as [|b s]; try discriminate. simpl.
  intros H. apply andb_true_iff in H as [Hab Hrest].
  rewrite Hab. now apply IH.
Qed.

Lemma keyword_after_number (c : ascii) (s : list ascii) (k : ascii)
    (keyword : list ascii) :
  Ascii.eqb c "-" = true \/ is_digit c = true ->
  is_digit k = false ->
  Ascii.eqb k "-" = false ->
  starts_with (k :: keyword) (c :: s) = false.
Proof.
  intros [Hc|Hc] Hk Hminus; simpl.
  - apply Ascii.eqb_eq in Hc. subst. now rewrite Hminus.
  - now rewrite (digit_is_no_other c k Hc Hk).
Qed.

Lemma keyword_other (k k' c : ascii) (keyword keyword' s s' : list ascii) :
  starts_with (k :: keyword) (c :: s) = true ->
  Ascii.eqb k' k = false ->
  starts_with (k' :: keyword') (c :: s') = false.
Proof.
  simpl. intros H Hk. apply andb_true_iff in H as [Hc _].
  apply Ascii.eqb_eq in Hc. subst. now rewrite Hk.
Qed.

Lemma json_extend (fuel : nat) :
  (forall fuel' s t v rest,
      (fuel <= fuel')%nat ->
      json_value fuel s = Ok (v, rest) ->
      delimited rest = true \/ (exists s', s = "{"%char :: s') ->
      json_value fuel' (s ++ t) = Ok (v, rest ++ t))
  /\ (forall fuel' s t acc v rest,
         (fuel <= fuel')%nat ->
         json_members fuel s acc = Ok (v, rest) ->
         json_members fuel' (s ++ t) acc = Ok (v, rest ++ t))
  /\ (forall fuel' s t acc v rest,
         (fuel <= fuel')%nat ->
         json_elements fuel s acc = Ok (v, rest) ->
         json_elements fuel' (s ++ t) acc = Ok (v, rest ++ t)).
Proof.
  induction fuel as [|fuel (IHvalue & IHmembers & IHelements)];
    [repeat split; intros; discriminate|].
  split; [|split].
  - intros fuel' s t v rest Hle Hval Hfollow.
    destruct fuel' as [|fuel']; [lia|]. apply le_S_n in Hle.
    destruct s as [|c s0]; [discriminate|].
    cbn [json_value app] in *.
    destruct (Ascii.eqb c "{") eqn:Hbrace.
    { destruct (skip_ws s0) as [|c' r'] eqn:Hws; [discriminate|].
      rewrite (skip_ws_app _ _ t _ Hws).
      destruct (Ascii.eqb c' "}").
      - inversion Hval; subst. reflexivity.
      - apply (IHmembers fuel' (c' :: r') t [] v rest Hle Hval). }
    destruct (Ascii.eqb c "[") eqn:Hbracket.
    { destruct (skip_ws s0) as [|c' r'] eqn:Hws; [discriminate|].
      rewrite (skip_ws_app _ _ t _ Hws).
      destruct (Ascii.eqb c' "]").
      - inversion Hval; subst. reflexivity.
      - apply (IHelements fuel' (c' :: r') t [] v rest Hle Hval). }
    destruct (Ascii.eqb c quote_char) eqn:Hquote.
    { destruct (json_string s0) as [[str after]|e] eqn:Hstr; [|discriminate].
      rewrite (json_string_app t _ s0 str after (Nat.le_refl _) Hstr).
      simpl in *. inversion Hval; subst. reflexivity. }
    destruct (starts_with (list_ascii_of_string "null") (c :: s0)) eqn:Hnull.
    { destruct (starts_with_app _ _ t Hnull) as [Hk Hskip].
      change (c :: s0 ++ t) with ((c :: s0) ++ t).
      rewrite Hk. injection Hval as <- <-. f_equal. f_equal. exact Hskip. }
    destruct (starts_with (list_ascii_of_string "true") (c :: s0)) eqn:Htrue.
    { destruct (starts_with_app _ _ t Htrue) as [Hk Hskip].
      assert (Hn : starts_with (list_ascii_of_string "null") (c :: s0 ++ t)
                   = false)
        by (apply (keyword_other _ _ _ _ _ _ _ Htrue); reflexivity).
      rewrite Hn.
      change (c :: s0 ++ t) with ((c :: s0) ++ t).
      rewrite Hk. injection Hval as <- <-. f_equal. f_equal. exact Hskip. }
    destruct (starts_with (list_ascii_of_string "false") (c :: s0)) eqn:Hfalse.
    { destruct (starts_with_app _ _ t Hfalse) as [Hk Hskip].
      assert (Hn : starts_with (list_ascii_of_string "null") (c :: s0 ++ t)
                   = false)
        by (apply (keyword_other _ _ _ _ _ _ _ Hfalse); reflexivity).
      assert (Ht : starts_with (list_ascii_of_string "true") (c :: s0 ++ t)
                   = false)
        by (apply (keyword_other _ _ _ _ _ _ _ Hfalse); reflexivity).
      rewrite Hn, Ht.
      change (c :: s0 ++ t) with ((c :: s0) ++ t).
      rewrite Hk. injection Hval as <- <-. f_equal. f_equal. exact Hskip. }
    destruct (starts_with (list_ascii_of_string "NaN") (c :: s0)) eqn:Hnan;
      [discriminate|].
    destruct (json_number_head _ _ Hval) as (c0 & rest0 & Heq & Hhead).
    inversion Heq; subst c0 rest0.
    assert (Hn : starts_with (list_ascii_of_string "null") (c :: s0 ++ t)
                 = false)
      by (apply keyword_after_number; auto).
    assert (Ht : starts_with (list_ascii_of_string "true") (c :: s0 ++ t)
                 = false)
      by (apply keyword_after_number; auto).
    assert (Hf : starts_with (list_ascii_of_string "false") (c :: s0 ++ t)
                 = false)
      by (apply keyword_after_number; auto).
    assert (Ha : starts_with (list_ascii_of_string "NaN") (c :: s0 ++ t)
                 = false)
      by (apply keyword_after_number; auto).
    rewrite Hn, Ht, Hf, Ha.
    change (c :: s0 ++ t) with ((c :: s0) ++ t).
    apply json_number_app; auto.
    destruct Hfollow as [Hdel|(s' & Hs')]; auto.
    inversion Hs'; subst. discriminate.
  - intros fuel' s t acc v rest Hle Hval.
    destruct fuel' as [|fuel']; [lia|]. apply le_S_n in Hle.
    destruct s as [|c s0]; [discriminate|].
    cbn [json_members app] in *.
    destruct (Ascii.eqb c quote_char); [|discriminate].
    destruct (json_string s0) as [[key r1]|e] eqn:Hkey; [|discriminate].
    rewrite (json_string_app t _ s0 key r1 (Nat.le_refl _) Hkey).
    cbn [bind] in *.
    destruct (skip_ws r1) as [|c1 r2] eqn:Hws1; [discriminate|].
    rewrite (skip_ws_app _ _ t _ Hws1).
    destruct (Ascii.eqb c1 ":"); [|discriminate].
    destruct (skip_ws r2) as [|c3 r5] eqn:Hws2.
    { destruct (json_value_nil fuel) as [e He]. rewrite He in Hval.
      discriminate. }
    rewrite (skip_ws_app _ _ t _ Hws2).
    destruct (json_value fuel (c3 :: r5)) as [[val r3]|e] eqn:Hv;
      [|discriminate].
    cbn [bind] in Hval.
    destruct (skip_ws r3) as [|c2 r4] eqn:Hws3; [discriminate|].
    assert (Hdel : delimited r3 = true).
    { apply (skip_ws_delimited _ _ _ Hws3).
      destruct (Ascii.eqb c2 ","); auto.
      destruct (Ascii.eqb c2 "}"); auto. discriminate. }
    pose proof (IHvalue fuel' (c3 :: r5) t val r3 Hle Hv (or_introl Hdel))
      as Hv'.
    cbn [app] in Hv'. rewrite Hv'.
    cbn [bind]. rewrite (skip_ws_app _ _ t _ Hws3).
    destruct (Ascii.eqb c2 ",").
    + destruct (skip_ws r4) as [|c4 r6] eqn:Hws4.
      { destruct (json_members_nil fuel (dict_set acc key val)) as [e He].
        rewrite He in Hval. discriminate. }
      rewrite (skip_ws_app _ _ t _ Hws4).
      apply (IHmembers fuel' (c4 :: r6) t _ v rest Hle Hval).
    + destruct (Ascii.eqb c2 "}"); [|discriminate].
      inversion Hval; subst. reflexivity.
  - intros fuel' s t acc v rest Hle Hval.
    destruct fuel' as [|fuel']; [lia|]. apply le_S_n in Hle.
    cbn [json_elements] in *.
    destruct s as [|c3 r5].
    { destruct (json_value_nil fuel) as [e He]. rewrite He in Hval.
      discriminate. }
    destruct (json_value fuel (c3 :: r5)) as [[val r1]|e] eqn:Hv;
      [|discriminate].
    cbn [bind] in Hval.
    destruct (skip_ws r1) as [|c r2] eqn:Hws1; [discriminate|].
    assert (Hdel : delimited r1 = true).
    { apply (skip_ws_delimited _ _ _ Hws1).
      destruct (Ascii.eqb c ","); auto.
      destruct (Ascii.eqb c "]"); [|discriminate].
      now rewrite !orb_true_r. }
    pose proof (IHvalue fuel' (c3 :: r5) t val r1 Hle Hv (or_introl Hdel))
      as Hv'.
    cbn [app] in Hv' |- *. rewrite Hv'.
    cbn [bind]. rewrite (skip_ws_app _ _ t _ Hws1).
    destruct (Ascii.eqb c ",").
    + destruct (skip_ws r2) as [|c4 r6] eqn:Hws2.
      { destruct (json_elements_nil fuel (acc ++ [val])) as [e He].
        rewrite He in Hval. discriminate. }
      rewrite (skip_ws_app _ _ t _ Hws2).
      apply (IHelements fuel' (c4 :: r6) t _ v rest Hle Hval).
    + destruct (Ascii.eqb c "]"); [|discriminate].
      inversion Hval; subst. reflexivity.
Qed.

Lemma json_elements_list (fuel : nat) :
  forall s acc v rest,
    json_elements fuel s acc = Ok (v, rest) -> exists items, v = PList items.
Proof.
  induction fuel as [|fuel IH]; intros s acc v rest; [discriminate|].
  cbn [json_elements].
  destruct (json_value fuel s) as [[val r1]|e]; [|discriminate].
  cbn [bind].
  destruct (skip_ws r1) as [|c r2]; [discriminate|].
  destruct (Ascii.eqb c ","); [apply IH|].
  destruct (Ascii.eqb c "]"); [|discriminate].
  intros H. inversion H; subst. eauto.
Qed.

Lemma json_object_head (fuel : nat) (s : list ascii) (items : dict)
    (rest : list ascii) :
  json_value fuel s = Ok (PDict items, rest) ->
  exists s', s = "{"%char :: s'.
Proof.
  destruct fuel as [|fuel]; [discriminate|].
  destruct s as [|c s0]; [discriminate|].
  cbn [json_value].
  destruct (Ascii.eqb_spec c "{"); [subst; eauto|].
  destruct (Ascii.eqb c "[").
  { destruct (skip_ws s0) as [|c' r']; [discriminate|].
    destruct (Ascii.eqb c' "]"); [discriminate|].
    intros H. destruct (json_elements_list _ _ _ _ _ H). discriminate. }
  destruct (Ascii.eqb c quote_char).
  { destruct (json_string s0) as [[str after]|e]; discriminate. }
  destruct (starts_with _ _); [discriminate|].
  destruct (starts_with _ _); [discriminate|].
  destruct (starts_with _ _); [discriminate|].
  destruct (starts_with _ _); [discriminate|].
  unfold json_number.
  destruct (match c :: s0 with
            | [] => (false, c :: s0)
            | c0 :: rest0 =>
                if Ascii.eqb c0 "-" then (true, rest0) else (false, c :: s0)
            end) as [negative unsigned].
  destruct unsigned as [|d rest0]; [discriminate|].
  destruct (is_digit d); [|destruct (starts_with _ _); discriminate].
  destruct (if Ascii.eqb d "0" then ([d], rest0) else take_digits (d :: rest0))
    as [ds after].
  destruct (float_follows after); [discriminate|].
  destruct (int_max_str_digits <? List.length ds)%nat; discriminate.
Qed.

Lemma list_ascii_of_string_app (a b : string) :
  list_ascii_of_string (a ++ b)
  = list_ascii_of_string a ++ list_ascii_of_string b.
Proof. induction a; simpl; congruence. Qed.

Lemma first_json_object_skips (before rest : list ascii) :
  no_object_starts before rest = true ->
  first_json_object (before ++ rest) = first_json_object rest.
Proof.
  induction before as [|c before' IH]; [reflexivity|].
  cbn [no_object_starts]. intros H.
  apply andb_true_iff in H as [Hhere Hlater].
  cbn [app first_json_object] in *.
  destruct (Ascii.eqb c "{"); auto.
  destruct (json_value _ _) as [[v after]|[]]; try discriminate; auto.
Qed.

Lemma first_json_object_found (object after : list ascii) (items : dict) :
  json_value (S (List.length object)) object = Ok (PDict items, []) ->
  first_json_object (object ++ after) = Ok object.
Proof.
  intros Hobject.
  destruct (json_object_head _ _ _ _ Hobject) as [s' Hs'].
  assert (Hextend :
            json_value (S (List.length (object ++ after))) (object ++ after)
            = Ok (PDict items, after)).
  { apply (proj1 (json_extend (S (List.length object)))
             (S (List.length (object ++ after))) object after
             (PDict items) []); eauto.
    rewrite length_app. lia. }
  assert (Hlength :
            firstn (List.length (object ++ after) - List.length after)
              (object ++ after) = object).
  { rewrite length_app, Nat.add_sub, firstn_app, firstn_all, Nat.sub_diag.
    apply app_nil_r. }
  subst object. cbn [app first_json_object] in *.
  now rewrite Ascii.eqb_refl, Hextend, Hlength.
Qed.

Lemma extract_wrapped (before object after : string) (items : dict) :
  no_object_starts (list_ascii_of_string before)
    (list_ascii_of_string (object ++ after)) = true ->
  is_json_object object items ->
  extract_data (before ++ object ++ after) "json" = Ok object.
Proof.
  intros Hbefore Hobject. unfold extract_data.
  rewrite list_ascii_of_string_app, (first_json_object_skips _ _ Hbefore),
    list_ascii_of_string_app, (first_json_object_found _ _ _ Hobject).
  simpl. now rewrite string_of_list_ascii_of_string.
Qed.

Lemma extract_nothing (vlm_response : string) :
  no_json_object vlm_response = true ->
  extract_data vlm_response "json" = Raise ParseError.
Proof.
  intros H. unfold extract_data.
  rewrite <- (app_nil_r (list_ascii_of_string vlm_response)).
  now rewrite (first_json_object_skips _ _ H).
Qed.

Lemma loaded_object (object : string) (items : dict) :
  is_json_object object items ->
  APIVLMPlanner.loaded_items object = Ok items.
Proof.
  unfold is_json_object, APIVLMPlanner.loaded_items, json_loads.
  cbv zeta. intros Hobject.
  destruct (json_object_head _ _ _ _ Hobject) as [s' Hs'].
  rewrite Hs' in *. cbn [skip_ws].
  change (is_json_ws "{") with false. cbv iota.
  now rewrite Hobject.
Qed.

Lemma plan_str_summary (items : dict) :
  forall vlm_plan_str,
    APIVLMPlanner.plan_str items vlm_plan_str
    = bind (item_texts items)
        (fun members => Ok (vlm_plan_str ++ summary members)%string).
Proof.
  induction items as [|[key value] rest IH]; intros acc; simpl.
  - now rewrite string_app_nil_r.
  - destruct (py_str value) as [text|e]; simpl; auto.
    destruct (String.eqb key "Thinking") eqn:Hkey; rewrite IH;
      destruct (item_texts rest) as [members|e]; simpl; auto;
      unfold summary_line; cbn [fst snd]; rewrite Hkey; unfold newline;
      repeat (rewrite string_app_assoc; simpl); reflexivity.
Qed.

Lemma respond_wrapped (E : APIVLMPlanner.Env) (w : APIVLMPlanner.world)
    (before object after : string) (items : dict) :
  no_object_starts (list_ascii_of_string before)
    (list_ascii_of_string (object ++ after)) = true ->
  is_json_object object items ->
  APIVLMPlanner.respond E (before ++ object ++ after) w
  = match item_texts items with
    | Ok members =>
        (Ok object,
         APIVLMPlanner.mkWorld (APIVLMPlanner.w_self w)
           (APIVLMPlanner.w_trace w
            ++ [OutputCallback
                  (APIVLMPlanner.colorful_text_vlm E ++ ":" ++ newline
                   ++ summary members)]))
    | Raise e => (Raise e, w)
    end.
Proof.
  intros Hbefore Hobject.
  unfold APIVLMPlanner.respond, APIVLMPlanner.mbind, APIVLMPlanner.lift,
    APIVLMPlanner.emit, APIVLMPlanner.ret.
  rewrite (extract_wrapped _ _ _ _ Hbefore Hobject),
    (loaded_object _ _ Hobject), plan_str_summary.
  destruct (item_texts items) as [members|e]; reflexivity.
Qed.

Lemma respond_without_object (E : APIVLMPlanner.Env) (vlm_response : string)
    (w : APIVLMPlanner.world) :
  no_json_object vlm_response = true ->
  APIVLMPlanner.respond E vlm_response w = (Raise ParseError, w).
Proof.
  intros H.
  unfold APIVLMPlanner.respond, APIVLMPlanner.mbind, APIVLMPlanner.lift.
  now rewrite (extract_nothing _ H).
Qed.

(** C8: a response in which a JSON object stands between any text before,
    in which no JSON object starts, and any text after, prose or code
    fences alike: the planner takes the text of that object, hands it back
    unchanged, and shows the observer a summary in which the value of
    Thinking stands bare and every other member stands on a line of its
    own as key: value, the values written as [str] writes them; when a
    value cannot be written the turn raises and nothing is shown.  A
    response that holds no JSON object, with or without braces, ends the
    turn with a parse error and nothing shown. *)
Theorem planner_extracts_and_formats (E : APIVLMPlanner.Env)
    (w : APIVLMPlanner.world) (before object after : string) (items : dict) :
  no_object_starts (list_ascii_of_string before)
    (list_ascii_of_string (object ++ after)) = true ->
  is_json_object object items ->
  APIVLMPlanner.respond E (before ++ object ++ after) w
  = match item_texts items with
    | Ok members =>
        (Ok object,
         APIVLMPlanner.mkWorld (APIVLMPlanner.w_self w)
           (APIVLMPlanner.w_trace w
            ++ [OutputCallback
                  (APIVLMPlanner.colorful_text_vlm E ++ ":" ++ newline
                   ++ summary members)]))
    | Raise e => (Raise e, w)
    end
  /\ (forall vlm_response,
        no_json_object vlm_response = true ->
        APIVLMPlanner.respond E vlm_response w = (Raise ParseError, w)).
Proof.
  intros Hbefore Hobject. split.
  - now apply respond_wrapped.
  - intros vlm_response Hnone. now apply respond_without_object.
Qed.

Lemma planner_extracts_and_formats_witness :
  APIVLMPlanner.respond (sample_env (Ok (example_response, 7)))
    example_response
    (APIVLMPlanner.mkWorld (sample_planner OPENAI "gpt-4o-mini" "sk" None) [])
  = (Ok example_json,
     APIVLMPlanner.mkWorld (sample_planner OPENAI "gpt-4o-mini" "sk" None)
       [OutputCallback
          ("VLMPlanner:" ++ newline ++ "t" ++ newline
           ++ "Next Action: CLICK 'ok'")])
  /\ APIVLMPlanner.respond (sample_env (Ok (example_response, 7)))
       "Sorry, {no plan} yet"
       (APIVLMPlanner.mkWorld (sample_planner OPENAI "gpt-4o-mini" "sk" None) [])
     = (Raise ParseError,
        APIVLMPlanner.mkWorld (sample_planner OPENAI "gpt-4o-mini" "sk" None) []).
Proof.
  destruct (planner_extracts_and_formats
              (sample_env (Ok (example_response, 7)))
              (APIVLMPlanner.mkWorld
                 (sample_planner OPENAI "gpt-4o-mini" "sk" None) [])
              ("Sure! ```json" ++ newline) example_json (newline ++ "```")
              [("Thinking", PStr "t"); ("Next Action", PStr "CLICK 'ok'")])
    as [Hexample Hnone]; [reflexivity | reflexivity |].
  split; [exact Hexample | apply Hnone; reflexivity].
Defined.

(** The same through a whole turn: the value returned and the last thing
    the observer is shown. *)
Example planner_turn_on_example :
  APIVLMPlanner.returned
    (APIVLMPlanner.__call__ (sample_env (Ok (example_response, 7)))
       (sample_planner OPENAI "gpt-4o-mini" "sk" None) [hello_message])
  = Ok example_json
  /\ last
       (APIVLMPlanner.trace
          (APIVLMPlanner.__call__ (sample_env (Ok (example_response, 7)))
             (sample_planner OPENAI "gpt-4o-mini" "sk" None) [hello_message]))
       (Screenshot 0)
     = OutputCallback
         ("VLMPlanner:" ++ newline ++ "t" ++ newline
          ++ "Next Action: CLICK 'ok'").
Proof. split; vm_compute; reflexivity. Qed.

(** ** The actor's action history *)

Lemma actor_call_history (E : ShowUIActorAPI.Env) (self : ShowUIActorAPI.t)
    (r : ShowUIActorAPI.reply) (task : string) :
  ShowUIActorAPI.action_history
    (ShowUIActorAPI.self_after (ShowUIActorAPI.__call__ E self r task))
  = (ShowUIActorAPI.action_history self
     ++ match ShowUIActorAPI.raw_output r with
        | Some output_text => output_text ++ newline
        | None => EmptyString
        end)%string.
Proof.
  unfold ShowUIActorAPI.__call__, ShowUIActorAPI.raw_output.
  destruct (ShowUIActorAPI.choices r) as [[|[output_text|] more]|e]; simpl;
    now rewrite ?string_app_nil_r.
Qed.

Lemma session_history (E : ShowUIActorAPI.Env)
    (calls : list (string * ShowUIActorAPI.reply)) :
  forall self,
    ShowUIActorAPI.action_history (ShowUIActorAPI.session E self calls)
    = (ShowUIActorAPI.action_history self
       ++ ShowUIActorAPI.history_of (ShowUIActorAPI.raw_outputs calls))%string.
Proof.
  induction calls as [|[task r] rest IH]; intros self; simpl.
  - now rewrite string_app_nil_r.
  - rewrite IH, actor_call_history.
    destruct (ShowUIActorAPI.raw_output r); simpl.
    + now rewrite !string_app_assoc.
    + now rewrite string_app_nil_r.
Qed.

Lemma session_app (E : ShowUIActorAPI.Env)
    (calls more : list (string * ShowUIActorAPI.reply)) :
  forall self,
    ShowUIActorAPI.session E self (calls ++ more)
    = ShowUIActorAPI.session E (ShowUIActorAPI.session E self calls) more.
Proof.
  induction calls as [|[task r] rest IH]; intros self; simpl; auto.
Qed.

Lemma returned_outputs (calls : list (string * ShowUIActorAPI.reply)) :
  (List.length (ShowUIActorAPI.raw_outputs calls) <= List.length calls)%nat
  /\ (List.length (ShowUIActorAPI.raw_outputs calls) = List.length calls
      <-> all_return calls = true).
Proof.
  unfold all_return.
  induction calls as [|[task r] rest [IHle IHeq]]; simpl.
  - split; [lia | split; auto].
  - destruct (ShowUIActorAPI.raw_output r); simpl.
    + split; [lia|]. rewrite <- IHeq. split; intros H; lia.
    + split; [lia|]. split; [lia | discriminate].
Qed.

(** C9, as amended: the history only grows and is never cut or rewritten.
    After [k] calls it is the history before followed by the outputs of
    the calls that returned, in call order, each followed by a newline:
    one appended line for each call that returned and none for a call
    that raised, so at most [k] of them, and [k] exactly when every call
    returned.  One more call leaves what was there as it was and puts its
    output and a newline after it if it returns, and nothing if it
    raises. *)
Theorem actor_history_accumulates (E : ShowUIActorAPI.Env)
    (self : ShowUIActorAPI.t) (calls : list (string * ShowUIActorAPI.reply)) :
  ShowUIActorAPI.action_history (ShowUIActorAPI.session E self calls)
  = (ShowUIActorAPI.action_history self
     ++ ShowUIActorAPI.history_of (ShowUIActorAPI.raw_outputs calls))%string
  /\ (List.length (ShowUIActorAPI.raw_outputs calls) <= List.length calls)%nat
  /\ (List.length (ShowUIActorAPI.raw_outputs calls) = List.length calls
      <-> all_return calls = true)
  /\ forall task r,
       ShowUIActorAPI.action_history
         (ShowUIActorAPI.session E self (calls ++ [(task, r)]))
       = (ShowUIActorAPI.action_history (ShowUIActorAPI.session E self calls)
          ++ match ShowUIActorAPI.raw_output r with
             | Some output_text => output_text ++ newline
             | None => EmptyString
             end)%string.
Proof.
  destruct (returned_outputs calls) as [Hle Heq].
  split; [|split; [|split]]; auto.
  - apply session_history.
  - intros task r. rewrite session_app. simpl. apply actor_call_history.
Qed.

(** C9 as stated fails: of three calls, the second of which raises in the
    client and the third of which gets no content, only the first leaves
    a line; the history holds one line, not three. *)
Lemma actor_one_line_per_call_counterexample :
  List.length broken_session = 3%nat
  /\ ShowUIActorAPI.action_history
       (ShowUIActorAPI.session sample_actor_env sample_actor broken_session)
     = ("{'action': 'CLICK'}" ++ newline)%string
  /\ line_count
       (ShowUIActorAPI.action_history
          (ShowUIActorAPI.session sample_actor_env sample_actor broken_session))
     = 1%nat
  /\ line_count
       (ShowUIActorAPI.action_history
          (ShowUIActorAPI.session sample_actor_env sample_actor broken_session))
     <> List.length broken_session.
Proof.
  repeat split; try reflexivity. discriminate.
Qed.

(** * Further properties *)

(** ** A turn of the planner, stage by stage *)

Lemma dispatch_normal (E : APIVLMPlanner.Env) (self : APIVLMPlanner.t)
    (planner_messages : list pyval) (tr : list event) :
  APIVLMPlanner.dispatch E planner_messages (APIVLMPlanner.mkWorld self tr)
  = match adapter_call self planner_messages with
    | Raise e => (Raise e, APIVLMPlanner.mkWorld self tr)
    | Ok call =>
        match APIVLMPlanner.backend E call with
        | Raise e =>
            (Raise e, APIVLMPlanner.mkWorld self (tr ++ [BackendCall call]))
        | Ok (vlm_response, token_usage) =>
            (Ok vlm_response,
             APIVLMPlanner.mkWorld (account self token_usage)
               (tr ++ [BackendCall call]))
        end
    end.
Proof.
  unfold APIVLMPlanner.dispatch, adapter_call, account, APIVLMPlanner.mbind,
    APIVLMPlanner.get_self, APIVLMPlanner.lift, APIVLMPlanner.call_backend,
    APIVLMPlanner.emit, APIVLMPlanner.ret, APIVLMPlanner.update_self,
    APIVLMPlanner.raise, oai_call, ssh_call.
  simpl.
  destruct (APIVLMPlanner.provider self) eqn:Hprov; simpl; auto.
  - destruct (APIVLMPlanner.backend E _) as [[vlm_response token_usage]|e];
      simpl; auto.
  - destruct (String.eqb (APIVLMPlanner.model self) "qwen2-vl-max"); simpl; auto.
    destruct (APIVLMPlanner.backend E _) as [[vlm_response token_usage]|e];
      simpl; auto.
  - destruct (APIVLMPlanner.parse_ssh (APIVLMPlanner.api_key self))
      as [[ssh_host ssh_port]|e]; simpl; auto.
    destruct (APIVLMPlanner.backend E _) as [[vlm_response token_usage]|e];
      simpl; auto.
  - destruct (APIVLMPlanner.backend E _) as [[vlm_response token_usage]|e];
      simpl; auto.
Qed.

Lemma call_normal (E : APIVLMPlanner.Env) (self : APIVLMPlanner.t)
    (messages planner_messages : list pyval) :
  APIVLMPlanner.shape_history (APIVLMPlanner.only_n_most_recent_images self)
    (filtered_list (_message_filter_callback messages)) = Ok planner_messages ->
  let st := _message_filter_callback messages in
  let tr := map Printed (printed st) ++ screenshot_events E self in
  APIVLMPlanner.__call__ E self messages
  = match adapter_call self (with_screenshot E self planner_messages) with
    | Raise e => APIVLMPlanner.mkOutcome (Raise e) self (messages_after st) tr
    | Ok call =>
        match APIVLMPlanner.backend E call with
        | Raise e =>
            APIVLMPlanner.mkOutcome (Raise e) self (messages_after st)
              (tr ++ [BackendCall call])
        | Ok (vlm_response, token_usage) =>
            let (r, w) :=
              APIVLMPlanner.respond E vlm_response
                (APIVLMPlanner.mkWorld (account self token_usage)
                   (tr ++ [BackendCall call])) in
            APIVLMPlanner.mkOutcome r (APIVLMPlanner.w_self w)
              (messages_after st) (APIVLMPlanner.w_trace w)
        end
    end.
Proof.
  intros Hshape st tr. unfold APIVLMPlanner.__call__. fold st.
  rewrite (decide_shaped E _ _ _ _ Hshape).
  unfold APIVLMPlanner.mbind. rewrite dispatch_normal. fold tr.
  destruct (adapter_call self _) as [call|e]; auto.
  destruct (APIVLMPlanner.backend E call) as [[vlm_response token_usage]|e]; auto.
Qed.

Lemma respond_outcome (E : APIVLMPlanner.Env) (vlm_response : string)
    (w : APIVLMPlanner.world) :
  (exists text decision,
     APIVLMPlanner.respond E vlm_response w
     = (Ok decision,
        APIVLMPlanner.mkWorld (APIVLMPlanner.w_self w)
          (APIVLMPlanner.w_trace w ++ [OutputCallback text])))
  \/ (exists e, APIVLMPlanner.respond E vlm_response w = (Raise e, w)).
Proof.
  unfold APIVLMPlanner.respond, APIVLMPlanner.mbind, APIVLMPlanner.lift,
    APIVLMPlanner.emit, APIVLMPlanner.ret.
  destruct (extract_data vlm_response "json"); simpl; eauto.
  destruct (APIVLMPlanner.loaded_items _); simpl; eauto.
  destruct (APIVLMPlanner.plan_str _ _); simpl; eauto.
Qed.

Lemma account_config (self : APIVLMPlanner.t) (token_usage : Z) :
  same_config (account self token_usage) self.
Proof.
  unfold account, same_config.
  destruct (APIVLMPlanner.provider self) eqn:Hp; simpl; rewrite ?Hp;
    repeat split; auto.
Qed.

(** X1: the effects of a turn come in one order: the filter's prints,
    then the screenshot and its display, then at most one adapter call,
    then the summary.  No adapter is called before the screenshot was
    taken, and the summary is shown exactly when the turn returns a
    decision, which only happens after an adapter call. *)
Theorem turn_effects_in_order (E : APIVLMPlanner.Env) (self : APIVLMPlanner.t)
    (messages : list pyval) :
  exists shots calls shown,
    APIVLMPlanner.trace (APIVLMPlanner.__call__ E self messages)
    = map Printed (printed (_message_filter_callback messages))
      ++ shots ++ calls ++ shown
    /\ (shots = [] \/ shots = screenshot_events E self)
    /\ (calls = []
        \/ (exists call, calls = [BackendCall call])
           /\ shots = screenshot_events E self)
    /\ ((shown = []
         /\ exists e,
              APIVLMPlanner.returned (APIVLMPlanner.__call__ E self messages)
              = Raise e)
        \/ ((exists text, shown = [OutputCallback text])
            /\ (exists call, calls = [BackendCall call])
            /\ exists decision,
                 APIVLMPlanner.returned (APIVLMPlanner.__call__ E self messages)
                 = Ok decision)).
Proof.
  destruct (APIVLMPlanner.shape_history
              (APIVLMPlanner.only_n_most_recent_images self)
              (filtered_list (_message_filter_callback messages)))
    as [planner_messages|e] eqn:Hshape.
  - rewrite (call_normal E _ _ _ Hshape). cbv zeta.
    destruct (adapter_call self _) as [call|e].
    + destruct (APIVLMPlanner.backend E call) as [[vlm_response token_usage]|e].
      * match goal with
        | |- context [APIVLMPlanner.respond E ?r ?w] =>
            destruct (respond_outcome E r w) as [(text & decision & ->)|(e & ->)]
        end; simpl.
        -- exists (screenshot_events E self), [BackendCall call],
             [OutputCallback text].
           rewrite <- !app_assoc. repeat split; eauto.
           right. repeat split; eauto.
        -- exists (screenshot_events E self), [BackendCall call], [].
           rewrite <- !app_assoc. repeat split; eauto.
      * simpl. exists (screenshot_events E self), [BackendCall call], [].
        rewrite <- !app_assoc. repeat split; eauto.
    + simpl. exists (screenshot_events E self), [], [].
      rewrite app_nil_r. repeat split; eauto.
  - rewrite (call_unshaped E _ _ _ Hshape). simpl.
    exists [], [], []. rewrite app_nil_r. repeat split; eauto.
Qed.

(** X2: an exception of the adapter leaves the turn as it is: the turn
    raises that exception, the adapter call is the last thing done, and
    the instance, token count included, is unchanged. *)
Theorem adapter_failure_propagates (E : APIVLMPlanner.Env)
    (self : APIVLMPlanner.t) (messages planner_messages : list pyval)
    (call : backend_call) (e : exn) :
  APIVLMPlanner.shape_history (APIVLMPlanner.only_n_most_recent_images self)
    (filtered_list (_message_filter_callback messages)) = Ok planner_messages ->
  adapter_call self (with_screenshot E self planner_messages) = Ok call ->
  APIVLMPlanner.backend E call = Raise e ->
  APIVLMPlanner.returned (APIVLMPlanner.__call__ E self messages) = Raise e
  /\ APIVLMPlanner.self_after (APIVLMPlanner.__call__ E self messages) = self
  /\ APIVLMPlanner.trace (APIVLMPlanner.__call__ E self messages)
     = map Printed (printed (_message_filter_callback messages))
       ++ screenshot_events E self ++ [BackendCall call].
Proof.
  intros Hshape Hcall Hraise.
  rewrite (call_normal E _ _ _ Hshape). cbv zeta.
  rewrite Hcall, Hraise. simpl. now rewrite <- app_assoc.
Qed.

Lemma adapter_failure_propagates_witness :
  APIVLMPlanner.returned
    (APIVLMPlanner.__call__ (sample_env (Raise (TransportError "timed out")))
       (sample_planner OPENAI "gpt-4o-mini" "sk" None) [hello_message])
  = Raise (TransportError "timed out")
  /\ APIVLMPlanner.self_after
       (APIVLMPlanner.__call__ (sample_env (Raise (TransportError "timed out")))
          (sample_planner OPENAI "gpt-4o-mini" "sk" None) [hello_message])
     = sample_planner OPENAI "gpt-4o-mini" "sk" None
  /\ APIVLMPlanner.trace
       (APIVLMPlanner.__call__ (sample_env (Raise (TransportError "timed out")))
          (sample_planner OPENAI "gpt-4o-mini" "sk" None) [hello_message])
     = map Printed (printed (_message_filter_callback [hello_message]))
       ++ screenshot_events (sample_env (Raise (TransportError "timed out")))
            (sample_planner OPENAI "gpt-4o-mini" "sk" None)
       ++ [BackendCall
             (oai_call (sample_planner OPENAI "gpt-4o-mini" "sk" None)
                [PStr "hello"; PStr "/tmp/screenshot.png"])].
Proof.
  apply (adapter_failure_propagates
           (sample_env (Raise (TransportError "timed out")))
           (sample_planner OPENAI "gpt-4o-mini" "sk" None)
           [hello_message] [PStr "hello"]); reflexivity.
Defined.

(** X3: on the OpenAI, OpenRouter and Qwen branches the token count is
    added as soon as the adapter has answered: [total_token_usage] has
    grown by the count returned whether or not the response then parses,
    that is, also when the turn raises. *)
Theorem usage_counted_before_parsing (E : APIVLMPlanner.Env)
    (self : APIVLMPlanner.t) (messages planner_messages : list pyval)
    (call : backend_call) (vlm_response : string) (token_usage : Z) :
  APIVLMPlanner.provider self = OPENAI
  \/ APIVLMPlanner.provider self = OPENROUTER
  \/ APIVLMPlanner.provider self = QWEN ->
  APIVLMPlanner.shape_history (APIVLMPlanner.only_n_most_recent_images self)
    (filtered_list (_message_filter_callback messages)) = Ok planner_messages ->
  adapter_call self (with_screenshot E self planner_messages) = Ok call ->
  APIVLMPlanner.backend E call = Ok (vlm_response, token_usage) ->
  APIVLMPlanner.total_token_usage
    (APIVLMPlanner.self_after (APIVLMPlanner.__call__ E self messages))
  = APIVLMPlanner.total_token_usage self + token_usage.
Proof.
  intros Hprov Hshape Hcall Hanswer.
  rewrite (call_normal E _ _ _ Hshape). cbv zeta.
  rewrite Hcall, Hanswer.
  after_respond E Hself Hcalls. rewrite Hself.
  unfold account.
  destruct Hprov as [->|[->| ->]]; reflexivity.
Qed.

Lemma usage_counted_before_parsing_witness :
  APIVLMPlanner.returned
    (APIVLMPlanner.__call__ (sample_env (Ok ("no object here", 7)))
       (sample_planner QWEN "qwen2-vl-max" "sk" None) [hello_message])
  = Raise ParseError
  /\ APIVLMPlanner.total_token_usage
       (APIVLMPlanner.self_after
          (APIVLMPlanner.__call__ (sample_env (Ok ("no object here", 7)))
             (sample_planner QWEN "qwen2-vl-max" "sk" None) [hello_message]))
     = 0 + 7.
Proof.
  split.
  - reflexivity.
  - apply (usage_counted_before_parsing (sample_env (Ok ("no object here", 7)))
             (sample_planner QWEN "qwen2-vl-max" "sk" None)
             [hello_message] [PStr "hello"]
             (run_qwen [PStr "hello"; PStr "/tmp/screenshot.png"]
                "You are using a Linux device." "qwen2-vl-max" "sk" 4096 0)
             "no object here" 7); auto.
Defined.

(** X4: a provider for which lines 100-148 have no branch (Anthropic,
    Bedrock, Vertex, LM Studio, and Qwen with any model but qwen2-vl-max)
    is only found out after the screenshot was taken and shown: the turn
    then raises [ValueError] naming the model, no adapter is called and
    the instance is unchanged. *)
Theorem unsupported_provider_raises_late (E : APIVLMPlanner.Env)
    (self : APIVLMPlanner.t) (messages planner_messages : list pyval) :
  APIVLMPlanner.provider self = ANTHROPIC
  \/ APIVLMPlanner.provider self = BEDROCK
  \/ APIVLMPlanner.provider self = VERTEX
  \/ APIVLMPlanner.provider self = LMSTUDIO
  \/ (APIVLMPlanner.provider self = QWEN
      /\ String.eqb (APIVLMPlanner.model self) "qwen2-vl-max" = false) ->
  APIVLMPlanner.shape_history (APIVLMPlanner.only_n_most_recent_images self)
    (filtered_list (_message_filter_callback messages)) = Ok planner_messages ->
  APIVLMPlanner.returned (APIVLMPlanner.__call__ E self messages)
  = Raise (ValueError ("Model " ++ APIVLMPlanner.model self ++ " not supported"))
  /\ APIVLMPlanner.self_after (APIVLMPlanner.__call__ E self messages) = self
  /\ APIVLMPlanner.trace (APIVLMPlanner.__call__ E self messages)
     = map Printed (printed (_message_filter_callback messages))
       ++ screenshot_events E self.
Proof.
  intros Hprov Hshape.
  rewrite (call_normal E _ _ _ Hshape). cbv zeta.
  assert (Hcall : adapter_call self (with_screenshot E self planner_messages)
                  = Raise (APIVLMPlanner.unsupported self)).
  { unfold adapter_call.
    destruct Hprov as [->|[->|[->|[->|[-> Hmodel]]]]]; auto.
    now rewrite Hmodel. }
  rewrite Hcall. repeat split.
Qed.

Lemma unsupported_provider_raises_late_witness :
  APIVLMPlanner.returned
    (APIVLMPlanner.__call__ (sample_env (Ok (example_response, 7)))
       (sample_planner QWEN "gpt-4o-mini" "sk" None) [hello_message])
  = Raise (ValueError "Model gpt-4o-mini not supported")
  /\ APIVLMPlanner.self_after
       (APIVLMPlanner.__call__ (sample_env (Ok (example_response, 7)))
          (sample_planner QWEN "gpt-4o-mini" "sk" None) [hello_message])
     = sample_planner QWEN "gpt-4o-mini" "sk" None
  /\ APIVLMPlanner.trace
       (APIVLMPlanner.__call__ (sample_env (Ok (example_response, 7)))
          (sample_planner QWEN "gpt-4o-mini" "sk" None) [hello_message])
     = map Printed (printed (_message_filter_callback [hello_message]))
       ++ screenshot_events (sample_env (Ok (example_response, 7)))
            (sample_planner QWEN "gpt-4o-mini" "sk" None).
Proof.
  apply (unsupported_provider_raises_late
           (sample_env (Ok (example_response, 7)))
           (sample_planner QWEN "gpt-4o-mini" "sk" None)
           [hello_message] [PStr "hello"]).
  - right. right. right. right. split; reflexivity.
  - reflexivity.
Defined.

Lemma filtered_head_is_text (messages : list pyval) :
  filtered_list (_message_filter_callback messages) <> [] ->
  exists text rest,
    filtered_list (_message_filter_callback messages) = PStr text :: rest.
Proof.
  intros Hne.
  pose proof (filter_loop_texts messages [] [] (Forall_nil _)) as Hall.
  fold (_message_filter_callback messages) in Hall.
  destruct (filtered_list (_message_filter_callback messages)) as [|v rest];
    try contradiction.
  inversion Hall as [|? ? Hv _]; subst.
  destruct v; try discriminate. eauto.
Qed.

(** X5: with a non-zero [only_n_most_recent_images] lines 73-74 hand the
    filtered list, a list of strings, to the pruning, which indexes each
    message by ["content"]: as soon as the filter returned one text the
    turn raises [TypeError], before the screenshot is taken and with the
    instance unchanged. *)
Theorem pruning_guard_ends_turn (E : APIVLMPlanner.Env)
    (self : APIVLMPlanner.t) (messages : list pyval) :
  APIVLMPlanner.truthy (APIVLMPlanner.only_n_most_recent_images self) = true ->
  filtered_list (_message_filter_callback messages) <> [] ->
  APIVLMPlanner.returned (APIVLMPlanner.__call__ E self messages)
  = Raise TypeError
  /\ APIVLMPlanner.self_after (APIVLMPlanner.__call__ E self messages) = self
  /\ APIVLMPlanner.trace (APIVLMPlanner.__call__ E self messages)
     = map Printed (printed (_message_filter_callback messages)).
Proof.
  intros Hguard Hne.
  destruct (filtered_head_is_text messages Hne) as (text & rest & Hhead).
  assert (Hshape :
            APIVLMPlanner.shape_history
              (APIVLMPlanner.only_n_most_recent_images self)
              (filtered_list (_message_filter_callback messages))
            = Raise TypeError).
  { rewrite Hhead. now apply pruning_the_filtered_list. }
  rewrite (call_unshaped E _ _ _ Hshape). repeat split.
Qed.

Lemma pruning_guard_ends_turn_witness :
  APIVLMPlanner.returned
    (APIVLMPlanner.__call__ (sample_env (Ok (example_response, 7)))
       (sample_planner OPENAI "gpt-4o-mini" "sk" (Some 10)) [hello_message])
  = Raise TypeError
  /\ APIVLMPlanner.self_after
       (APIVLMPlanner.__call__ (sample_env (Ok (example_response, 7)))
          (sample_planner OPENAI "gpt-4o-mini" "sk" (Some 10)) [hello_message])
     = sample_planner OPENAI "gpt-4o-mini" "sk" (Some 10)
  /\ APIVLMPlanner.trace
       (APIVLMPlanner.__call__ (sample_env (Ok (example_response, 7)))
          (sample_planner OPENAI "gpt-4o-mini" "sk" (Some 10)) [hello_message])
     = map Printed (printed (_message_filter_callback [hello_message])).
Proof.
  apply (pruning_guard_ends_turn (sample_env (Ok (example_response, 7)))
           (sample_planner OPENAI "gpt-4o-mini" "sk" (Some 10)) [hello_message]).
  - reflexivity.
  - discriminate.
Defined.

(** X6: a call assigns no attribute of the instance but
    [total_token_usage] and [total_cost]: the model, the provider, the
    system prompt, the credential, [max_tokens], the image budget, the
    screen, [print_usage] and the base URL are after any call, returning
    or raising, what they were before. *)
Theorem call_keeps_configuration (E : APIVLMPlanner.Env)
    (self : APIVLMPlanner.t) (messages : list pyval) :
  same_config (APIVLMPlanner.self_after (APIVLMPlanner.__call__ E self messages))
    self.
Proof.
  assert (Hrefl : same_config self self) by (unfold same_config; repeat split).
  destruct (APIVLMPlanner.shape_history
              (APIVLMPlanner.only_n_most_recent_images self)
              (filtered_list (_message_filter_callback messages)))
    as [planner_messages|e] eqn:Hshape.
  - rewrite (call_normal E _ _ _ Hshape). cbv zeta.
    destruct (adapter_call self _) as [call|e]; auto.
    destruct (APIVLMPlanner.backend E call) as [[vlm_response token_usage]|e];
      auto.
    after_respond E Hself Hcalls. rewrite Hself. apply account_config.
  - now rewrite (call_unshaped E _ _ _ Hshape).
Qed.

(** ** More on the pruning *)

Lemma drop_images_inert (contents : list pyval) (r : Z) :
  r <= 0 \/ filter is_image contents = [] ->
  drop_images contents r = (contents, r).
Proof.
  induction contents as [|c rest IH]; simpl; auto.
  intros H. destruct (is_image c) eqn:Hc; simpl.
  - destruct H as [H|H]; try discriminate.
    assert (Hr : (0 <? r) = false) by now apply Z.ltb_ge.
    rewrite Hr, IH; auto.
  - rewrite IH; auto.
Qed.

Lemma prune_tool_result_inert (tool_result : pyval) (r : Z) :
  r <= 0 \/ tool_result_images tool_result = [] ->
  prune_tool_result tool_result r = (tool_result, r).
Proof.
  destruct tool_result as [| | | | |items|d]; auto.
  unfold prune_tool_result, tool_result_images.
  destruct (dict_get d "content") as [c|] eqn:Hget; auto.
  destruct c as [| | | | |contents|d']; auto.
  intros H. rewrite (drop_images_inert _ _ H).
  now rewrite (dict_set_get _ _ _ Hget).
Qed.

Lemma prune_items_inert (items : list pyval) (r : Z) :
  r <= 0 \/ items_images items = [] ->
  prune_items items r = (items, r).
Proof.
  unfold items_images.
  induction items as [|item rest IH]; simpl; auto.
  destruct (is_tool_result item) eqn:Hitem; simpl; intros H.
  - rewrite prune_tool_result_inert, IH; auto.
    + destruct H as [H|H]; auto. apply app_eq_nil in H. tauto.
    + destruct H as [H|H]; auto. apply app_eq_nil in H. tauto.
  - rewrite IH; auto.
Qed.

Lemma prune_message_inert (message : pyval) (r : Z) :
  r <= 0 \/ message_images message = [] ->
  prune_message message r = (message, r).
Proof.
  destruct message as [| | | | |items|d]; auto.
  unfold prune_message, message_images.
  destruct (dict_get d "content") as [c|] eqn:Hget; auto.
  destruct c as [| | | | |items|d']; auto.
  intros H. rewrite (prune_items_inert _ _ H).
  now rewrite (dict_set_get _ _ _ Hget).
Qed.

Lemma prune_messages_inert (messages : list pyval) (r : Z) :
  r <= 0 \/ images_of messages = [] ->
  prune_messages messages r = (messages, r).
Proof.
  unfold images_of.
  induction messages as [|message rest IH]; simpl; auto.
  intros H. rewrite prune_message_inert, IH; auto.
  - destruct H as [H|H]; auto. apply app_eq_nil in H. tauto.
  - destruct H as [H|H]; auto. apply app_eq_nil in H. tauto.
Qed.

Lemma prune_result (messages : list pyval) (N keep threshold : Z) :
  count_images messages = Ok N ->
  threshold <> 0 ->
  let r := N - keep - (N - keep) mod threshold in
  _maybe_filter_to_n_most_recent_images messages (Some keep) threshold
  = Ok (fst (prune_messages messages r))
  /\ count_images (fst (prune_messages messages r))
     = Ok (Z.of_nat (List.length (images_of messages) - Z.to_nat r))
  /\ images_of (fst (prune_messages messages r))
     = skipn (Z.to_nat r) (images_of messages)
  /\ N = Z.of_nat (List.length (images_of messages)).
Proof.
  intros Hcount Ht r. repeat split.
  - now apply prune_returns.
  - now apply (count_after_prune _ N).
  - apply prune_messages_spec.
  - now apply count_images_value.
Qed.

(** X7: pruning is idempotent: whatever the budget and the non-zero
    threshold, pruning again the log a pruning returned returns that log
    unchanged. *)
Theorem prune_twice_is_prune_once (messages messages' : list pyval)
    (keep threshold : Z) :
  threshold <> 0 ->
  _maybe_filter_to_n_most_recent_images messages (Some keep) threshold
  = Ok messages' ->
  _maybe_filter_to_n_most_recent_images messages' (Some keep) threshold
  = Ok messages'.
Proof.
  intros Ht Hfirst.
  destruct (count_images messages) as [N|e] eqn:Hcount.
  2: { rewrite (prune_raises _ _ keep threshold Hcount) in Hfirst.
       discriminate. }
  destruct (prune_result messages N keep threshold Hcount Ht)
    as (Hret & Hcount' & Himgs & HN).
  rewrite Hret in Hfirst. inversion Hfirst as [Hm']. clear Hfirst.
  rewrite Hm' in *.
  destruct (prune_result messages' _ keep threshold Hcount' Ht)
    as (Hret' & _ & _ & _).
  rewrite Hret'. f_equal.
  rewrite prune_messages_inert; auto.
  set (d := N - keep) in *. set (r := d - d mod threshold) in *.
  set (len := List.length (images_of messages)) in *.
  destruct (Nat.le_gt_cases len (Z.to_nat r)) as [Hall|Hsome].
  - right. rewrite Himgs. apply skipn_all2. exact Hall.
  - left. destruct (Z.le_gt_cases r 0) as [Hr|Hr].
    + replace (Z.of_nat (len - Z.to_nat r)) with N by lia. fold d. fold r.
      exact Hr.
    + replace (Z.of_nat (len - Z.to_nat r) - keep) with (d mod threshold)
        by (unfold r, d in *; lia).
      rewrite Z.mod_mod by exact Ht. lia.
Qed.

Lemma prune_twice_is_prune_once_witness :
  exists messages',
    _maybe_filter_to_n_most_recent_images sample_log (Some 1) 10 = Ok messages'
    /\ count_images messages' = Ok 2
    /\ _maybe_filter_to_n_most_recent_images messages' (Some 1) 10
       = Ok messages'.
Proof.
  eexists. split; [reflexivity|]. split; [reflexivity|].
  apply (prune_twice_is_prune_once sample_log _ 1 10).
  - discriminate.
  - reflexivity.
Defined.

(** X8: with a budget [images_to_keep >= 0] and a threshold above zero,
    the pruning leaves a log that is within budget exactly as it is, and
    of a log over budget it leaves at least [images_to_keep] images and
    fewer than [images_to_keep + min_removal_threshold]. *)
Theorem prune_stays_near_budget (messages : list pyval)
    (N keep threshold : Z) :
  count_images messages = Ok N ->
  0 <= keep ->
  0 < threshold ->
  exists messages' N',
    _maybe_filter_to_n_most_recent_images messages (Some keep) threshold
    = Ok messages'
    /\ count_images messages' = Ok N'
    /\ (N <= keep -> messages' = messages)
    /\ (keep <= N -> keep <= N' < keep + threshold).
Proof.
  intros Hcount Hkeep Ht.
  destruct (prune_result messages N keep threshold Hcount ltac:(lia))
    as (Hret & Hcount' & _ & HN).
  pose proof (Z.mod_pos_bound (N - keep) threshold Ht) as Hmod.
  eexists. eexists. split; [exact Hret|]. split; [exact Hcount'|]. split.
  - intros Hle. rewrite prune_messages_inert; auto. left. lia.
  - intros Hle.
    pose proof (Z.mod_le (N - keep) threshold ltac:(lia) Ht) as Hmle.
    lia.
Qed.

Lemma prune_stays_near_budget_witness :
  exists messages' N',
    _maybe_filter_to_n_most_recent_images sample_log (Some 1) 4 = Ok messages'
    /\ count_images messages' = Ok N'
    /\ (12 <= 1 -> messages' = sample_log)
    /\ (1 <= 12 -> 1 <= N' < 1 + 4).
Proof.
  apply (prune_stays_near_budget sample_log 12 1 4); [reflexivity | lia | lia].
Defined.

Lemma is_image_without_images (item : pyval) :
  is_image (item_without_images item) = is_image item.
Proof.
  unfold item_without_images.
  destruct (is_tool_result item) eqn:Hitem; auto.
  destruct item as [| | | | |items|d]; auto.
  unfold tool_result_without_images.
  destruct (dict_get d "content") as [c|]; auto.
  destruct c; auto.
  simpl. now rewrite py_get_set_other by discriminate.
Qed.

Lemma direct_images_without_images (message : pyval) :
  message_direct_images (message_without_images message)
  = message_direct_images message.
Proof.
  destruct message as [| | | | |items|d]; auto.
  unfold message_without_images, message_direct_images.
  destruct (dict_get d "content") as [c|] eqn:Hget; try now rewrite Hget.
  destruct c as [| | | | |items|d']; try now rewrite Hget.
  rewrite dict_get_set_same. clear Hget.
  induction items as [|item rest IH]; simpl; auto.
  rewrite is_image_without_images, IH.
  destruct (is_image item) eqn:Himg; auto.
  unfold item_without_images.
  destruct (is_tool_result item) eqn:Hitem; auto.
  destruct item as [| | | | |items'|d0]; try discriminate.
  simpl in Himg, Hitem.
  destruct (py_get d0 "type") as [| | |t| | |]; try discriminate.
  simpl in Himg, Hitem.
  apply String.eqb_eq in Himg, Hitem. subst. discriminate.
Qed.

Lemma direct_images_of_without_images (a b : list pyval) :
  without_images a = without_images b -> direct_images a = direct_images b.
Proof.
  unfold direct_images, without_images.
  revert b. induction a as [|m rest IH]; intros [|m' rest'] H;
    simpl in *; try discriminate; auto.
  inversion H as [[Hm Hrest]].
  rewrite <- (direct_images_without_images m), Hm,
    direct_images_without_images.
  f_equal. now apply IH.
Qed.

(** X9: only images inside tool results are ever taken out: the image
    items that sit directly in the content of a message are after any
    pruning, even one with a budget of zero, the ones that were there, in
    the same order. *)
Theorem prune_keeps_direct_images (messages messages' : list pyval)
    (keep threshold : Z) :
  _maybe_filter_to_n_most_recent_images messages (Some keep) threshold
  = Ok messages' ->
  direct_images messages' = direct_images messages.
Proof.
  intros Hret.
  assert (Ht : threshold <> 0).
  { intros ->. unfold _maybe_filter_to_n_most_recent_images in Hret.
    destruct (tool_result_blocks messages) as [blocks|];
      simpl in Hret; try discriminate.
    destruct (total_images blocks); simpl in Hret; discriminate. }
  destruct (count_images messages) as [N|e] eqn:Hcount.
  2: { rewrite (prune_raises _ _ keep threshold Hcount) in Hret. discriminate. }
  rewrite (prune_returns _ _ _ _ Hcount Ht) in Hret.
  inversion Hret as [Hm']. clear Hret.
  apply direct_images_of_without_images.
  apply (prune_messages_spec messages (N - keep - (N - keep) mod threshold)).
Qed.

Lemma prune_keeps_direct_images_witness :
  exists messages',
    _maybe_filter_to_n_most_recent_images mixed_log (Some 0) 1 = Ok messages'
    /\ count_images messages' = Ok 0
    /\ direct_images messages' = [image_item "d01"; image_item "d02"].
Proof.
  eexists. split; [reflexivity|]. split; [reflexivity|].
  apply (prune_keeps_direct_images mixed_log _ 0 1). reflexivity.
Defined.

(** ** More on the filter *)

Lemma filter_loop_acc (messages : list pyval) :
  forall filtered out,
    filter_loop messages filtered out
    = mkFilterState
        (filtered ++ filtered_list (filter_loop messages [] []))
        (messages_after (filter_loop messages [] []))
        (out ++ printed (filter_loop messages [] [])).
Proof.
  induction messages as [|msg rest IH]; intros filtered out; simpl.
  - now rewrite !app_nil_r.
  - destruct (filter_body msg) as [[[appended msg'] lines]|e]; simpl.
    + rewrite (IH (match appended with
                   | Some text => filtered ++ [text]
                   | None => filtered
                   end) (out ++ lines)).
      rewrite (IH (match appended with
                   | Some text => [text]
                   | None => []
                   end) lines).
      simpl. destruct appended; simpl; now rewrite <- ?app_assoc.
    + now rewrite app_nil_r.
Qed.

Lemma filter_loop_app (before after : list pyval) :
  forall filtered out,
    existsb raises before = false ->
    filter_loop (before ++ after) filtered out
    = mkFilterState
        (filtered_list (filter_loop before filtered out)
         ++ filtered_list (filter_loop after [] []))
        (messages_after (filter_loop before filtered out)
         ++ messages_after (filter_loop after [] []))
        (printed (filter_loop before filtered out)
         ++ printed (filter_loop after [] [])).
Proof.
  induction before as [|m rest IH]; intros filtered out H; simpl.
  - apply filter_loop_acc.
  - simpl in H. apply orb_false_iff in H as [Hm Hrest]. unfold raises in Hm.
    destruct (filter_body m) as [[[appended m'] lines]|e]; try discriminate.
    simpl. now rewrite (IH _ _ Hrest).
Qed.

(** X10: the filter of two logs put end to end, the first of which has no
    message that raises, is the filter of each put end to end: the texts
    returned, the log left behind and the lines printed are those of the
    first followed by those of the second. *)
Theorem filter_of_appended_logs (before after : list pyval) :
  existsb raises before = false ->
  filtered_list (_message_filter_callback (before ++ after))
  = filtered_list (_message_filter_callback before)
    ++ filtered_list (_message_filter_callback after)
  /\ messages_after (_message_filter_callback (before ++ after))
     = messages_after (_message_filter_callback before)
       ++ messages_after (_message_filter_callback after)
  /\ printed (_message_filter_callback (before ++ after))
     = printed (_message_filter_callback before)
       ++ printed (_message_filter_callback after).
Proof.
  intros H. unfold _message_filter_callback.
  rewrite (filter_loop_app _ _ _ _ H). auto.
Qed.

Lemma filter_of_appended_logs_witness :
  filtered_list
    (_message_filter_callback
       ([hello_message; user_message (PInt 3)]
        ++ [empty_user_message; hello_message]))
  = [PStr "hello"] ++ []
  /\ messages_after
       (_message_filter_callback
          ([hello_message; user_message (PInt 3)]
           ++ [empty_user_message; hello_message]))
     = [user_message (PList [PStr "hello"]); user_message (PList [PInt 3])]
       ++ [empty_user_message; hello_message]
  /\ printed
       (_message_filter_callback
          ([hello_message; user_message (PInt 3)]
           ++ [empty_user_message; hello_message]))
     = [LogDrop (user_message (PList [PInt 3]))] ++ [LogError IndexError].
Proof.
  apply (filter_of_appended_logs [hello_message; user_message (PInt 3)]
           [empty_user_message; hello_message]).
  reflexivity.
Defined.

Lemma filter_loop_length (messages : list pyval) :
  forall filtered out,
    (List.length (filtered_list (filter_loop messages filtered out))
     <= List.length filtered + List.length messages)%nat
    /\ List.length (messages_after (filter_loop messages filtered out))
       = List.length messages.
Proof.
  induction messages as [|msg rest IH]; intros filtered out; simpl.
  - split; auto. lia.
  - destruct (filter_body msg) as [[[appended msg'] lines]|e]; simpl.
    + destruct (IH (match appended with
                    | Some text => filtered ++ [text]
                    | None => filtered
                    end) (out ++ lines)) as [Hlen Hlog].
      split; [|now rewrite Hlog].
      destruct appended; rewrite ?length_app in Hlen; simpl in Hlen; lia.
    + split; auto. lia.
Qed.

(** X11: what the filter returns is a list of strings, at most one for
    each message of the log, and the log it leaves behind has as many
    messages as before. *)
Theorem filter_returns_texts (messages : list pyval) :
  Forall (fun v => is_str v = true)
    (filtered_list (_message_filter_callback messages))
  /\ (List.length (filtered_list (_message_filter_callback messages))
      <= List.length messages)%nat
  /\ List.length (messages_after (_message_filter_callback messages))
     = List.length messages.
Proof.
  unfold _message_filter_callback.
  destruct (filter_loop_length messages [] []) as [Hlen Hlog].
  repeat split; auto.
  apply filter_loop_texts. constructor.
Qed.

Lemma filter_body_turn (t : turn) :
  other_role t = true ->
  filter_body (turn_message t)
  = Ok (match t with
        | UserInput user_input => Some (PStr user_input)
        | OtherMessage _ => None
        end,
        turn_message t,
        match t with
        | UserInput _ => []
        | OtherMessage d => [LogDrop (PDict d)]
        end).
Proof.
  destruct t as [user_input|d]; simpl; auto.
  intros H. apply negb_true_iff in H. now rewrite H.
Qed.

Lemma filter_loop_turns (turns : list turn) :
  forall filtered out,
    forallb other_role turns = true ->
    filter_loop (map turn_message turns) filtered out
    = mkFilterState (filtered ++ user_inputs turns) (map turn_message turns)
        (out ++ dropped_lines turns).
Proof.
  unfold user_inputs, dropped_lines.
  induction turns as [|t rest IH]; intros filtered out H.
  - simpl. now rewrite !app_nil_r.
  - simpl in H. apply andb_true_iff in H as [Ht Hrest].
    cbn [map filter_loop]. rewrite (filter_body_turn t Ht).
    rewrite (IH _ _ Hrest). cbn [filtered_list messages_after printed flat_map].
    destruct t; simpl; now rewrite <- ?app_assoc, ?app_nil_r.
Qed.

(** X12: on a log made of the user messages [process_input] appends and
    of messages with any other role, the filter returns exactly the texts
    the user typed, in order, raises on none, prints one drop line for each
    other message, and leaves the log as it is. *)
Theorem filter_of_ui_log (turns : list turn) :
  forallb other_role turns = true ->
  _message_filter_callback (map turn_message turns)
  = mkFilterState (user_inputs turns) (map turn_message turns)
      (dropped_lines turns).
Proof.
  intros H. unfold _message_filter_callback.
  now rewrite (filter_loop_turns turns [] [] H).
Qed.

Lemma filter_of_ui_log_witness :
  _message_filter_callback
    [PDict [("role", PStr "user"); ("content", PList [PTextBlock "open settings"])];
     PDict [("role", PStr "assistant"); ("content", PStr "CLICK")];
     PDict [("role", PStr "user"); ("content", PList [PTextBlock "close it"])]]
  = mkFilterState [PStr "open settings"; PStr "close it"]
      [PDict [("role", PStr "user"); ("content", PList [PTextBlock "open settings"])];
       PDict [("role", PStr "assistant"); ("content", PStr "CLICK")];
       PDict [("role", PStr "user"); ("content", PList [PTextBlock "close it"])]]
      [LogDrop (PDict [("role", PStr "assistant"); ("content", PStr "CLICK")])].
Proof.
  apply (filter_of_ui_log
           [UserInput "open settings";
            OtherMessage [("role", PStr "assistant"); ("content", PStr "CLICK")];
            UserInput "close it"]).
  reflexivity.
Defined.

(** ** More on the SSH credential *)




Lemma split_two_intro (sep : ascii) (a b : string) :
  has_char sep a = false ->
  has_char sep b = false ->
  split sep (a ++ String sep b) = [a; b].
Proof.
  intros Ha Hb. unfold has_char in Ha.
  induction a as [|c rest IH]; simpl in *.
  - now rewrite Ascii.eqb_refl, (split_no_separator _ _ Hb).
  - apply orb_false_iff in Ha as [Hc Hrest].
    rewrite (Ascii.eqb_sym c sep), Hc, (IH Hrest). reflexivity.
Qed.





Lemma digits_have_no (d : ascii) (ds : list ascii) :
  is_digit d = false ->
  forallb is_digit ds = true ->
  existsb (Ascii.eqb d) ds = false.
Proof.
  intros Hd. induction ds as [|c rest IH]; simpl; auto.
  intros H. apply andb_true_iff in H as [Hc Hrest].
  now rewrite (digit_is_no_other _ _ Hc Hd), IH.
Qed.

Lemma digit_is_no_space (c : ascii) : is_digit c = true -> is_space c = false.
Proof.
  unfold is_digit, is_space. intros H.
  apply andb_true_iff in H as [H1 H2].
  apply Z.leb_le in H1, H2.
  apply orb_false_iff. split.
  - apply andb_false_iff. right. apply Z.leb_gt. lia.
  - apply Z.eqb_neq. lia.
Qed.

Lemma digits_are_ascii (ds : list ascii) :
  forallb is_digit ds = true -> forallb is_ascii ds = true.
Proof.
  induction ds as [|c rest IH]; simpl; auto.
  intros H. apply andb_true_iff in H as [Hc Hrest].
  rewrite (IH Hrest), andb_true_r.
  unfold is_digit in Hc. apply andb_true_iff in Hc as [_ Hc].
  apply Z.leb_le in Hc. apply Z.ltb_lt. lia.
Qed.

Lemma lstrip_digits (ds : list ascii) :
  forallb is_digit ds = true -> lstrip ds = ds.
Proof.
  destruct ds as [|c rest]; simpl; auto.
  intros H. apply andb_true_iff in H as [Hc _].
  now rewrite (digit_is_no_space _ Hc).
Qed.

Lemma strip_digits (ds : list ascii) :
  forallb is_digit ds = true -> strip ds = ds.
Proof.
  intros H. unfold strip. rewrite (lstrip_digits _ H), lstrip_digits.
  - apply rev_involutive.
  - apply forallb_forall. intros c Hin. apply in_rev in Hin.
    now apply (proj1 (forallb_forall _ _) H).
Qed.

Lemma int_digits_all (ds : list ascii) :
  forall prev_digit,
    forallb is_digit ds = true ->
    ds <> [] \/ prev_digit = true ->
    int_digits ds prev_digit = Some ds.
Proof.
  induction ds as [|c rest IH]; intros prev_digit H Hne; simpl.
  - destruct Hne as [Hne| ->]; auto. contradiction.
  - simpl in H. apply andb_true_iff in H as [Hc Hrest].
    rewrite Hc, (IH true Hrest); auto.
Qed.

Lemma py_int_digits (ds : list ascii) :
  ds <> [] ->
  forallb is_digit ds = true ->
  (List.length ds <= int_max_str_digits)%nat ->
  py_int (string_of_list_ascii ds) = Ok (digits_value ds 0).
Proof.
  intros Hne Hds Hlen. unfold py_int, ascii_text.
  rewrite list_ascii_of_string_of_list_ascii, (digits_are_ascii _ Hds),
    (strip_digits _ Hds).
  destruct ds as [|c rest]; try contradiction.
  pose proof Hds as Hall. simpl in Hds.
  apply andb_true_iff in Hds as [Hc _].
  rewrite (Ascii.eqb_sym c "-"), (digit_is_no_other c "-"%char Hc eq_refl).
  rewrite (Ascii.eqb_sym c "+"), (digit_is_no_other c "+"%char Hc eq_refl).
  rewrite (int_digits_all _ false Hall) by (left; discriminate).
  assert (Hlt : (int_max_str_digits <? List.length (c :: rest))%nat = false)
    by (apply Nat.ltb_ge; exact Hlen).
  now rewrite Hlt.
Qed.

(** X14: the port of the SSH credential is whatever decimal number stands
    after the colon: for a host without a colon, the empty one included,
    and any non-empty run of at most 4300 digits, the credential is
    accepted with the number the digits spell; no range of port numbers
    is checked. *)
Theorem ssh_port_is_any_number (ssh_host : string) (digits : list ascii) :
  has_char ":"%char ssh_host = false ->
  digits <> [] ->
  forallb is_digit digits = true ->
  (List.length digits <= int_max_str_digits)%nat ->
  APIVLMPlanner.parse_ssh (ssh_host ++ ":" ++ string_of_list_ascii digits)
  = Ok (ssh_host, digits_value digits 0).
Proof.
  intros Hhost Hne Hds Hlen. unfold APIVLMPlanner.parse_ssh.
  change (ssh_host ++ ":" ++ string_of_list_ascii digits)%string
    with (ssh_host ++ String ":" (string_of_list_ascii digits))%string.
  rewrite (split_two_intro _ _ _ Hhost).
  - now rewrite (py_int_digits _ Hne Hds Hlen).
  - unfold has_char. rewrite list_ascii_of_string_of_list_ascii.
    now apply digits_have_no.
Qed.

Lemma ssh_port_is_any_number_witness :
  APIVLMPlanner.parse_ssh ":70000" = Ok (EmptyString, 70000).
Proof.
  apply (ssh_port_is_any_number EmptyString
           (list_ascii_of_string "70000"));
    [reflexivity | discriminate | reflexivity | vm_compute; lia].
Defined.

(** ** More on the actor *)

Lemma actor_call_failed (E : ShowUIActorAPI.Env) (self : ShowUIActorAPI.t)
    (r : ShowUIActorAPI.reply) (task : string) :
  ShowUIActorAPI.raw_output r = None ->
  ShowUIActorAPI.self_after (ShowUIActorAPI.__call__ E self r task) = self
  /\ exists e,
       ShowUIActorAPI.returned (ShowUIActorAPI.__call__ E self r task) = Raise e.
Proof.
  unfold ShowUIActorAPI.__call__, ShowUIActorAPI.raw_output.
  destruct (ShowUIActorAPI.choices r) as [[|[output_text|] more]|e]; simpl;
    try discriminate; eauto.
Qed.

(** X15: whatever the outcomes of the calls of a session, the history
    afterwards is the history before followed by the outputs of the calls
    that returned, in call order, each with its newline; a call that
    raises (the client fails, the response has no choice, the content is
    [None]) leaves the instance exactly as it was, and a call that returns
    hands back the very text it appended. *)
Theorem actor_history_skips_failures (E : ShowUIActorAPI.Env)
    (self : ShowUIActorAPI.t) (calls : list (string * ShowUIActorAPI.reply)) :
  ShowUIActorAPI.action_history (ShowUIActorAPI.session E self calls)
  = (ShowUIActorAPI.action_history self
     ++ ShowUIActorAPI.history_of (ShowUIActorAPI.raw_outputs calls))%string
  /\ (forall task r,
        ShowUIActorAPI.raw_output r = None ->
        ShowUIActorAPI.session E self (calls ++ [(task, r)])
        = ShowUIActorAPI.session E self calls)
  /\ (forall task r output_text,
        ShowUIActorAPI.raw_output r = Some output_text ->
        ShowUIActorAPI.returned
          (ShowUIActorAPI.__call__ E (ShowUIActorAPI.session E self calls) r task)
        = Ok (PDict [("content", PStr output_text); ("role", PStr "assistant")])).
Proof.
  repeat split.
  - apply session_history.
  - intros task r Hnone. rewrite session_app. simpl.
    now destruct (actor_call_failed E (ShowUIActorAPI.session E self calls)
                    r task Hnone) as [-> _].
  - intros task r output_text Hout.
    unfold ShowUIActorAPI.__call__, ShowUIActorAPI.raw_output in *.
    destruct (ShowUIActorAPI.choices r) as [[|[o|] more]|e];
      try discriminate.
    now inversion Hout.
Qed.

Lemma history_of_empty (outputs : list string) :
  String.eqb (ShowUIActorAPI.history_of outputs) EmptyString
  = match outputs with
    | [] => true
    | _ :: _ => false
    end.
Proof.
  destruct outputs as [|o rest]; simpl; auto.
  destruct o; reflexivity.
Qed.

(** X16: the history is fed back: after any session on an actor that
    started with an empty history, the prompt of the next request is the
    task, then, if some call has returned, the heading Previous Actions
    and every output returned so far, then the closing instruction; with
    no output so far the heading is left out. *)
Theorem next_prompt_carries_history (E : ShowUIActorAPI.Env)
    (self : ShowUIActorAPI.t) (calls : list (string * ShowUIActorAPI.reply))
    (task : string) :
  ShowUIActorAPI.action_history self = EmptyString ->
  ShowUIActorAPI.current_prompt (ShowUIActorAPI.session E self calls) task
  = (("Task: " ++ task)
     ++ match ShowUIActorAPI.raw_outputs calls with
        | [] => EmptyString
        | _ :: _ =>
            newline ++ newline ++ "Previous Actions:" ++ newline
            ++ ShowUIActorAPI.history_of (ShowUIActorAPI.raw_outputs calls)
        end
     ++ newline ++ newline
     ++ "Given the screenshot and the task, provide the next action based on the defined action space and format.")%string.
Proof.
  intros Hfresh. unfold ShowUIActorAPI.current_prompt.
  rewrite session_history, Hfresh. simpl append at 1.
  change (EmptyString ++ ?x)%string with x.
  rewrite history_of_empty.
  now destruct (ShowUIActorAPI.raw_outputs calls).
Qed.

Lemma next_prompt_carries_history_witness :
  ShowUIActorAPI.current_prompt
    (ShowUIActorAPI.session sample_actor_env sample_actor
       [("CLICK 'ok'", sample_reply "{'action': 'CLICK'}");
        ("ENTER",
         ShowUIActorAPI.mkReply "/tmp/screenshot.png" "aW1n" (Ok [None]))])
    "ENTER"
  = ("Task: ENTER" ++ newline ++ newline ++ "Previous Actions:" ++ newline
     ++ "{'action': 'CLICK'}" ++ newline
     ++ newline ++ newline
     ++ "Given the screenshot and the task, provide the next action based on the defined action space and format.")%string.
Proof.
  apply (next_prompt_carries_history sample_actor_env sample_actor
           [("CLICK 'ok'", sample_reply "{'action': 'CLICK'}");
            ("ENTER",
             ShowUIActorAPI.mkReply "/tmp/screenshot.png" "aW1n" (Ok [None]))]
           "ENTER").
  reflexivity.
Defined.

(** ** The UI state *)

Lemma has_set_same (state : dict) (key : string) (value : pyval) :
  has (dict_set state key value) key = true.
Proof. unfold has. now rewrite dict_get_set_same. Qed.

Lemma get_set_preserved (state : dict) (key k : string) (value v : pyval) :
  has state key = false ->
  dict_get state k = Some v ->
  dict_get (dict_set state key value) k = Some v.
Proof.
  unfold has. intros Hkey Hk.
  destruct (String.eqb_spec key k) as [->|Hne].
  - now rewrite Hk in Hkey.
  - now rewrite dict_get_set_other.
Qed.

Lemma default_has_same (state : dict) (key : string) (value : pyval) :
  has (default key value state) key = true.
Proof.
  unfold default. destruct (has state key) eqn:H; auto. apply has_set_same.
Qed.

Lemma default_preserves (state : dict) (key k : string) (value v : pyval) :
  dict_get state k = Some v ->
  dict_get (default key value state) k = Some v.
Proof.
  unfold default. destruct (has state key) eqn:H; auto.
  now apply get_set_preserved.
Qed.

Lemma default_has (state : dict) (key k : string) (value : pyval) :
  has state k = true -> has (default key value state) k = true.
Proof.
  unfold has at 1 2. intros H.
  destruct (dict_get state k) as [v|] eqn:Hk; try discriminate.
  now rewrite (default_preserves _ key _ value _ Hk).
Qed.

Lemma default_present (state : dict) (key : string) (value : pyval) :
  has state key = true -> default key value state = state.
Proof. unfold default. now intros ->. Qed.

Ltac has_key :=
  repeat first [apply default_has_same | apply default_has].

Ltac skip_present :=
  repeat match goal with
         | H : has ?s ?k = true |- context [default ?k ?v ?s] =>
             rewrite (default_present s k v H)
         end.

Lemma item_has (state : dict) (key : string) :
  has state key = true -> exists v, item state key = Ok v.
Proof.
  unfold has, item. destruct (dict_get state key); try discriminate. eauto.
Qed.

Lemma setup_models_preserves (E : App.Env) (state : dict) (k : string)
    (v : pyval) :
  dict_get state k = Some v -> dict_get (App.setup_models E state) k = Some v.
Proof.
  intros H. unfold App.setup_models. cbv zeta.
  repeat apply default_preserves. exact H.
Qed.

Lemma setup_rest_preserves (E : App.Env) (state : dict) (k : string)
    (v : pyval) :
  dict_get state k = Some v -> dict_get (App.setup_rest E state) k = Some v.
Proof.
  intros H. unfold App.setup_rest. cbv zeta.
  repeat apply default_preserves. exact H.
Qed.

Lemma has_preserved (f : dict -> dict) (state : dict) (k : string) :
  (forall v, dict_get state k = Some v -> dict_get (f state) k = Some v) ->
  has state k = true -> has (f state) k = true.
Proof.
  unfold has. intros Hf H.
  destruct (dict_get state k) as [v|]; try discriminate.
  now rewrite (Hf v eq_refl).
Qed.

Lemma initial_api_key_total (state : dict) :
  has state "planner_provider" = true ->
  has state "openai_api_key" = true ->
  has state "anthropic_api_key" = true ->
  has state "qwen_api_key" = true ->
  has state "openrouter_api_key" = true ->
  has state "lmstudio_url" = true ->
  exists key, App.initial_api_key state = Ok key.
Proof.
  intros Hp H1 H2 H3 H4 H5. unfold App.initial_api_key.
  destruct (item_has _ _ Hp) as [provider ->]. simpl.
  destruct (py_eq_str provider "openai"); [now apply item_has|].
  destruct (py_eq_str provider "anthropic"); [now apply item_has|].
  destruct (py_eq_str provider "qwen"); [now apply item_has|].
  destruct (py_eq_str provider "openrouter"); [now apply item_has|].
  destruct (py_eq_str provider "lmstudio"); [now apply item_has|].
  eauto.
Qed.

Lemma setup_api_key_total (E : App.Env) (state : dict) :
  exists state',
    App.setup_api_key (App.setup_models E state) = Ok state'
    /\ has state' "planner_api_key" = true
    /\ (forall k v,
          dict_get (App.setup_models E state) k = Some v ->
          dict_get state' k = Some v).
Proof.
  unfold App.setup_api_key.
  destruct (has (App.setup_models E state) "planner_api_key") eqn:Hkey.
  - eauto.
  - destruct (initial_api_key_total (App.setup_models E state)) as [key ->];
      try (unfold App.setup_models; cbv zeta; has_key).
    simpl. eexists. split; [reflexivity|]. split.
    + apply has_set_same.
    + intros k v Hk. now apply get_set_preserved.
Qed.

Lemma setup_state_steps (E : App.Env) (state : dict) :
  exists middle logged,
    App.setup_state E state = Ok (App.setup_rest E middle, logged)
    /\ has middle "planner_api_key" = true
    /\ (forall k v,
          dict_get (App.setup_models E state) k = Some v ->
          dict_get middle k = Some v).
Proof.
  destruct (setup_api_key_total E state) as (middle & Hmid & Hkey & Hpres).
  unfold App.setup_state. cbv zeta. rewrite Hmid. simpl.
  assert (Hprov : has middle "planner_provider" = true).
  { apply (has_preserved (fun _ => middle) (App.setup_models E state)).
    - intros v. apply Hpres.
    - unfold App.setup_models. cbv zeta. has_key. }
  destruct (item_has _ _ Hprov) as [provider ->].
  destruct (item_has _ _ Hkey) as [key ->]. simpl. eauto.
Qed.

Lemma has_from_models (E : App.Env) (state middle : dict) (k : string) :
  (forall k v,
     dict_get (App.setup_models E state) k = Some v ->
     dict_get middle k = Some v) ->
  has (App.setup_models E state) k = true ->
  has (App.setup_rest E middle) k = true.
Proof.
  intros Hpres Hk.
  apply (has_preserved (App.setup_rest E) middle).
  - intros v. apply setup_rest_preserves.
  - apply (has_preserved (fun _ => middle) (App.setup_models E state));
      [intros v; apply Hpres | exact Hk].
Qed.

Lemma setup_state_result (E : App.Env) (state : dict) :
  exists state' logged,
    App.setup_state E state = Ok (state', logged)
    /\ forallb (has state') App.setup_keys = true.
Proof.
  destruct (setup_state_steps E state) as (middle & logged & -> & Hkey & Hpres).
  eexists. eexists. split; [reflexivity|].
  assert (Hm : forall k, has (App.setup_models E state) k = true ->
                         has (App.setup_rest E middle) k = true)
    by (intros k; now apply has_from_models).
  assert (Hr : forall k, has middle k = true ->
                         has (App.setup_rest E middle) k = true).
  { intros k. apply (has_preserved (App.setup_rest E)).
    intros v. apply setup_rest_preserves. }
  unfold App.setup_keys. cbn [forallb].
  repeat (apply andb_true_iff; split);
    try reflexivity;
    try (apply Hm; unfold App.setup_models; cbv zeta; has_key; fail);
    try (apply Hr; exact Hkey);
    try (unfold App.setup_rest; cbv zeta; has_key; fail).
Qed.

(** X17: [setup_state] never raises, whatever the state it is given, and
    the state it leaves holds every one of the 23 settings it looks
    after. *)
Theorem setup_state_completes (E : App.Env) (state : dict) :
  exists state' logged,
    App.setup_state E state = Ok (state', logged)
    /\ forallb (has state') App.setup_keys = true.
Proof. apply setup_state_result. Qed.

(** X18: [setup_state] overwrites nothing: every entry the state holds
    before the call, one of its own settings or any other key, is there
    with the same value afterwards. *)
Theorem setup_state_keeps_entries (E : App.Env) (state state' : dict)
    (logged : list App.log_record) (k : string) (v : pyval) :
  App.setup_state E state = Ok (state', logged) ->
  dict_get state k = Some v ->
  dict_get state' k = Some v.
Proof.
  intros Hsetup Hk.
  destruct (setup_state_steps E state) as (middle & logged' & Heq & _ & Hpres).
  rewrite Heq in Hsetup. inversion Hsetup; subst.
  apply setup_rest_preserves, Hpres, setup_models_preserves, Hk.
Qed.

Lemma setup_state_keeps_entries_witness :
  exists state' logged,
    App.setup_state App.sample_env
      [("planner_provider", PStr "qwen"); ("only_n_most_recent_images", PInt 2)]
    = Ok (state', logged)
    /\ dict_get state' "only_n_most_recent_images" = Some (PInt 2)
    /\ dict_get state' "planner_api_key" = Some (PStr "qk").
Proof.
  eexists. eexists. split; [reflexivity|]. split; [|reflexivity].
  eapply (setup_state_keeps_entries App.sample_env
            [("planner_provider", PStr "qwen");
             ("only_n_most_recent_images", PInt 2)]); reflexivity.
Defined.

Lemma setup_state_settled (E : App.Env) (state : dict) :
  forallb (has state) App.setup_keys = true ->
  exists logged, App.setup_state E state = Ok (state, logged).
Proof.
  unfold App.setup_keys. cbn [forallb]. intros H.
  repeat (apply andb_true_iff in H; destruct H as [? H]).
  unfold App.setup_state, App.setup_models, App.setup_api_key, App.setup_rest.
  cbv zeta. skip_present.
  match goal with
  | Hk : has state "planner_api_key" = true |- _ => rewrite Hk
  end.
  simpl.
  match goal with
  | Hp : has state "planner_provider" = true |- _ =>
      destruct (item_has _ _ Hp) as [provider ->]
  end.
  match goal with
  | Hk : has state "planner_api_key" = true |- _ =>
      destruct (item_has _ _ Hk) as [key ->]
  end.
  simpl. skip_present. eauto.
Qed.

(** X19: [setup_state] is idempotent on the state: run again on the state
    it left, under the same or any other environment, it returns and
    leaves that state as it is. *)
Theorem setup_state_twice (E E' : App.Env) (state state' : dict)
    (logged : list App.log_record) :
  App.setup_state E state = Ok (state', logged) ->
  exists logged', App.setup_state E' state' = Ok (state', logged').
Proof.
  intros Hsetup.
  destruct (setup_state_result E state) as (s & l & Heq & Hall).
  rewrite Heq in Hsetup. inversion Hsetup; subst.
  now apply setup_state_settled.
Qed.

Lemma setup_state_twice_witness :
  exists state' logged logged',
    App.setup_state App.sample_env [("planner_provider", PStr "qwen")]
    = Ok (state', logged)
    /\ dict_get state' "planner_api_key" = Some (PStr "qk")
    /\ App.setup_state (App.mkEnv (fun _ => None) "Darwin" [] 0) state'
       = Ok (state', logged').
Proof.
  eexists. eexists.
  destruct (setup_state_twice App.sample_env
              (App.mkEnv (fun _ => None) "Darwin" [] 0)
              [("planner_provider", PStr "qwen")] _ _ eq_refl)
    as [logged' Hagain].
  exists logged'. split; [reflexivity|]. split; [reflexivity|]. exact Hagain.
Defined.

Lemma not_model_key (k : string) :
  existsb (String.eqb k) App.model_keys = false ->
  "model" <> k /\ "planner_model" <> k /\ "api_key" <> k
  /\ "actor_provider" <> k /\ "planner_api_provider" <> k.
Proof.
  unfold App.model_keys. cbn [existsb]. intros H.
  repeat (apply orb_false_iff in H; destruct H as [? H]).
  repeat split; intros <-; discriminate.
Qed.

Ltac through_sets :=
  repeat first
    [ rewrite dict_get_set_same
    | rewrite dict_get_set_other by (assumption || discriminate) ].

Ltac model_branches :=
  unfold App.update_planner_model, App.select; cbv zeta;
  repeat match goal with
         | |- context [if ?c then _ else _] =>
             lazymatch c with
             | has _ _ && _ => fail
             | _ => destruct c eqn:?
             end
         end;
  cbn [App.provider_value App.provider_api_key String.eqb Ascii.eqb
       Bool.eqb fst snd];
  repeat match goal with
         | |- context [item ?s ?k] => destruct (item s k)
         end;
  cbn [fst snd].

(** X20: [update_planner_model] assigns, of the state, the five keys
    model, planner_model, api_key, actor_provider and planner_api_provider
    and no other: every other entry, planner_provider and planner_api_key
    among them, is afterwards what it was.  The chosen name is stored
    under model and planner_model before it is checked, so it is there
    also when the call raises for a name it does not support. *)
Theorem model_change_frame (provider_values : list string)
    (model_selection : string) (state : dict) :
  (forall k,
     existsb (String.eqb k) App.model_keys = false ->
     dict_get
       (snd (App.update_planner_model provider_values model_selection state)) k
     = dict_get state k)
  /\ dict_get
       (snd (App.update_planner_model provider_values model_selection state))
       "planner_model"
     = Some (PStr model_selection)
  /\ dict_get
       (snd (App.update_planner_model provider_values model_selection state))
       "model"
     = Some (PStr model_selection).
Proof.
  split; [|split].
  - intros k Hk.
    destruct (not_model_key k Hk) as (H1 & H2 & H3 & H4 & H5).
    model_branches; through_sets; reflexivity.
  - model_branches; through_sets; reflexivity.
  - model_branches; through_sets; reflexivity.
Qed.

Ltac selected :=
  unfold App.update_planner_model, App.select; cbv zeta;
  repeat match goal with
         | |- context [App.contains ?a ?b] =>
             let v := eval vm_compute in (App.contains a b) in
             change (App.contains a b) with v
         end;
  cbn [String.eqb Ascii.eqb Bool.eqb orb
       App.provider_value App.provider_api_key];
  unfold item; through_sets; cbn [fst snd];
  eexists; eexists;
  split; [reflexivity|];
  split; [through_sets; reflexivity|].

(** X21: every display name the planner's constructor accepts (lines
    35-48 of the planner) is one [update_planner_model] accepts, and the
    provider it stores for it is openai for the two OpenAI names, qwen
    for qwen2-vl-max and ssh for the three names served over SSH. *)
Theorem planner_models_selectable (provider_values : list string)
    (model_selection id : string) (state : dict) :
  APIVLMPlanner.model_id model_selection = Ok id ->
  exists updates provider,
    fst (App.update_planner_model provider_values model_selection state)
    = Ok updates
    /\ dict_get
         (snd (App.update_planner_model provider_values model_selection state))
         "planner_api_provider"
       = Some (PStr provider)
    /\ ((provider = "openai"
         /\ (id = "gpt-4o-2024-11-20" \/ id = "gpt-4o-mini"))
        \/ (provider = "qwen" /\ id = "qwen2-vl-max")
        \/ (provider = "ssh"
            /\ (id = "Qwen2-VL-2B-Instruct" \/ id = "Qwen2-VL-7B-Instruct"
                \/ id = "Qwen2.5-VL-7B-Instruct"))).
Proof.
  unfold APIVLMPlanner.model_id.
  destruct (String.eqb_spec model_selection "gpt-4o") as [->|H1].
  { intros H; inversion H; subst. selected. auto. }
  destruct (String.eqb_spec model_selection "gpt-4o-mini") as [->|H2].
  { intros H; inversion H; subst. selected. auto. }
  destruct (String.eqb_spec model_selection "qwen2-vl-max") as [->|H3].
  { intros H; inversion H; subst. selected. auto. }
  destruct (String.eqb_spec model_selection "qwen2-vl-2b (ssh)") as [->|H4].
  { intros H; inversion H; subst. selected. auto 7. }
  destruct (String.eqb_spec model_selection "qwen2-vl-7b (ssh)") as [->|H5].
  { intros H; inversion H; subst. selected. auto 7. }
  destruct (String.eqb_spec model_selection "qwen2.5-vl-7b (ssh)") as [->|H6].
  { intros H; inversion H; subst. selected. auto 7. }
  discriminate.
Qed.

Lemma planner_models_selectable_witness :
  exists updates provider,
    fst (App.update_planner_model ["anthropic"; "openai"; "ssh"]
           "qwen2.5-vl-7b (ssh)" [("planner_api_key", PStr "localhost:8000")])
    = Ok updates
    /\ dict_get
         (snd (App.update_planner_model ["anthropic"; "openai"; "ssh"]
                 "qwen2.5-vl-7b (ssh)"
                 [("planner_api_key", PStr "localhost:8000")]))
         "planner_api_provider"
       = Some (PStr provider)
    /\ ((provider = "openai"
         /\ ("Qwen2.5-VL-7B-Instruct" = "gpt-4o-2024-11-20"
             \/ "Qwen2.5-VL-7B-Instruct" = "gpt-4o-mini"))
        \/ (provider = "qwen" /\ "Qwen2.5-VL-7B-Instruct" = "qwen2-vl-max")
        \/ (provider = "ssh"
            /\ ("Qwen2.5-VL-7B-Instruct" = "Qwen2-VL-2B-Instruct"
                \/ "Qwen2.5-VL-7B-Instruct" = "Qwen2-VL-7B-Instruct"
                \/ "Qwen2.5-VL-7B-Instruct" = "Qwen2.5-VL-7B-Instruct"))).
Proof.
  apply (planner_models_selectable ["anthropic"; "openai"; "ssh"]
           "qwen2.5-vl-7b (ssh)" "Qwen2.5-VL-7B-Instruct"
           [("planner_api_key", PStr "localhost:8000")]).
  reflexivity.
Defined.
